(** * SkillChain AI engine: feature builders, scorers and training gate

    A shallow embedding of the Python sources under [packages/ai-engine]
    ([models/scheduling_model.py], [models/recommendation_model.py],
    [models/performance_model.py], [services/training_service.py],
    [services/data_service.py] and [main.py]) together with the properties
    stated for them.

    Conventions of the embedding.
    - A JSON record fetched from the datastore is a Python [dict] with string
      keys; it is a [gmap string value].  Dictionaries the code builds and
      later iterates ([hour_stats], [user_course_matrix], ...) keep Python's
      insertion order, so they are association lists.
    - Python [float]s are exact rationals ([Q]); [nan] (the mean of an empty
      list) is [None].  Strings are byte strings: only ASCII digits, ASCII
      white space and ASCII letters are treated specially.
    - A Python exception is the [Raise] branch of [result]; [try/except] is
      [catch]. *)

From Stdlib Require Import ZArith QArith Qminmax String Ascii List Bool Lia Lqa Permutation Sorted.
From stdpp Require Import gmap strings pretty.
Import ListNotations.

Local Open Scope string_scope.
Local Open Scope list_scope.
Local Open Scope Z_scope.

(** ** Python values, exceptions and built-ins *)

Module Py.

Inductive value : Type :=
  | VNone
  | VBool (b : bool)
  | VInt (n : Z)
  | VFloat (x : Q)
  | VStr (s : string).

Inductive exn : Type :=
  | TypeError
  | ValueError
  | AttributeError
  | KeyError
  | OverflowError
  | HTTPException (status : Z).

Inductive result (A : Type) : Type :=
  | Ok (a : A)
  | Raise (e : exn).
Arguments Ok {A} a.
Arguments Raise {A} e.

Definition bind {A B} (m : result A) (k : A -> result B) : result B :=
  match m with
  | Ok a => k a
  | Raise e => Raise e
  end.

(** [try: m  except: d] *)
Definition catch {A} (m : result A) (d : A) : A :=
  match m with
  | Ok a => a
  | Raise _ => d
  end.

Fixpoint mapM {A B} (f : A -> result B) (l : list A) : result (list B) :=
  match l with
  | [] => Ok []
  | a :: l' =>
      bind (f a) (fun b => bind (mapM f l') (fun bs => Ok (b :: bs)))
  end.

(** [record.get(k, d)] *)
Definition get (r : gmap string value) (k : string) (d : value) : value :=
  default d (r !! k).

(** [bool(v)] *)
Definition truthy (v : value) : bool :=
  match v with
  | VNone => false
  | VBool b => b
  | VInt n => negb (n =? 0)
  | VFloat x => negb (Qeq_bool x 0)
  | VStr s => negb (String.eqb s "")
  end.

(** The numeric value of [bool], [int] and [float] objects. *)
Definition as_number (v : value) : option Q :=
  match v with
  | VBool b => Some (if b then 1%Q else 0%Q)
  | VInt n => Some (inject_Z n)
  | VFloat x => Some x
  | VNone | VStr _ => None
  end.

(** [v == w], which is also the equality of dictionary keys. *)
Definition py_eqb (v w : value) : bool :=
  match v, w with
  | VNone, VNone => true
  | VStr s, VStr t => String.eqb s t
  | _, _ =>
      match as_number v, as_number w with
      | Some a, Some b => Qeq_bool a b
      | _, _ => false
      end
  end.

(** The smallest magnitude of an integer that has no float: the doubles end
    at 2^1024 - 2^971, and the conversion rounds to nearest, ties to even. *)
Definition FLOAT_LIMIT : Z := Eval vm_compute in (2 ^ 1024 - 2 ^ 970).

(** [float(n)] for an integer [n], the conversion every operation between
    an int and a float applies to its integer operand. *)
Definition float_of_int (n : Z) : result Q :=
  if Z.abs n <? FLOAT_LIMIT then Ok (inject_Z n) else Raise OverflowError.

(** The float a value becomes as the operand of a float operation. *)
Definition to_float (v : value) : result Q :=
  match v with
  | VBool b => Ok (if b then 1%Q else 0%Q)
  | VInt n => float_of_int n
  | VFloat x => Ok x
  | VNone | VStr _ => Raise TypeError
  end.

(** [v / d] for a non-zero float constant [d]. *)
Definition truediv (v : value) (d : Q) : result Q :=
  bind (to_float v) (fun a => Ok (a / d)%Q).

(** The running total of [sum]: an int as long as only ints and bools were
    added, a float from the first float on. *)
Inductive number : Type :=
  | NInt (z : Z)
  | NFloat (x : Q).

(** [total + v] *)
Definition add (total : number) (v : value) : result number :=
  match total, v with
  | _, VNone | _, VStr _ => Raise TypeError
  | NInt a, VInt n => Ok (NInt (a + n))
  | NInt a, VBool b => Ok (NInt (a + (if b then 1 else 0)))
  | NInt a, VFloat x => bind (float_of_int a) (fun fa => Ok (NFloat (fa + x)%Q))
  | NFloat a, VInt n => bind (float_of_int n) (fun fn => Ok (NFloat (a + fn)%Q))
  | NFloat a, VBool b => Ok (NFloat (a + (if b then 1 else 0))%Q)
  | NFloat a, VFloat x => Ok (NFloat (a + x)%Q)
  end.

(** [sum(l)]: the entries are added from left to right, starting from the
    integer 0. *)
Fixpoint sum_from (total : number) (l : list value) : result number :=
  match l with
  | [] => Ok total
  | v :: l' => bind (add total v) (fun t => sum_from t l')
  end.

Definition sum_values (l : list value) : result number := sum_from (NInt 0) l.

(** [x / d] for a positive integer [d]: the quotient of two ints is rounded
    to a float and refused when it has none; next to a float the divisor is
    converted first. *)
Definition div_int (x : number) (d : Z) : result Q :=
  match x with
  | NInt z =>
      if Z.abs z <? d * FLOAT_LIMIT then Ok (inject_Z z / inject_Z d)%Q
      else Raise OverflowError
  | NFloat a => bind (float_of_int d) (fun fd => Ok (a / fd)%Q)
  end.

(** [len(v)]: only strings have a length among the values of a record. *)
Definition len (v : value) : result Z :=
  match v with
  | VStr s => Ok (Z.of_nat (String.length s))
  | _ => Raise TypeError
  end.

(** [s[i:j]] for [0 <= i <= j]. *)
Definition slice (s : string) (i j : nat) : string :=
  substring i (j - i) s.

Definition is_space (c : ascii) : bool :=
  let n := nat_of_ascii c in
  ((9 <=? n) && (n <=? 13) || (n =? 32))%nat.

Definition digit_of (c : ascii) : option Z :=
  let n := nat_of_ascii c in
  if ((48 <=? n) && (n <=? 57))%nat then Some (Z.of_nat n - 48) else None.

Fixpoint lstrip (s : string) : string :=
  match s with
  | String c s' => if is_space c then lstrip s' else s
  | EmptyString => EmptyString
  end.

Fixpoint rstrip (s : string) : string :=
  match s with
  | String c s' =>
      match rstrip s' with
      | EmptyString => if is_space c then EmptyString else String c EmptyString
      | t => String c t
      end
  | EmptyString => EmptyString
  end.

(** Decimal digits with single underscores between them; [acc] is the value
    read so far and [after_digit] tells whether the previous character was a
    digit. *)
Fixpoint digits (acc : Z) (after_digit : bool) (s : string) : option Z :=
  match s with
  | EmptyString => if after_digit then Some acc else None
  | String c s' =>
      match digit_of c with
      | Some d => digits (acc * 10 + d) true s'
      | None =>
          if (Ascii.eqb c "_" && after_digit)%bool
          then match s' with
               | EmptyString => None
               | String c' _ =>
                   match digit_of c' with
                   | Some _ => digits acc false s'
                   | None => None
                   end
               end
          else None
      end
  end.

(** [int(s)] for a string [s], base 10. *)
Definition int (s : string) : result Z :=
  let body := rstrip (lstrip s) in
  let signed :=
    match body with
    | String "+" t => option_map (fun n => n) (digits 0 false t)
    | String "-" t => option_map Z.opp (digits 0 false t)
    | _ => digits 0 false body
    end in
  match signed with
  | Some n => Ok n
  | None => Raise ValueError
  end.

Definition lower_ascii (c : ascii) : ascii :=
  let n := nat_of_ascii c in
  if ((65 <=? n) && (n <=? 90))%nat then ascii_of_nat (n + 32) else c.

(** [s.lower()] *)
Fixpoint lower (s : string) : string :=
  match s with
  | EmptyString => EmptyString
  | String c s' => String (lower_ascii c) (lower s')
  end.

(** [s.replace('Z', '+00:00')] *)
Fixpoint replace_Z (s : string) : string :=
  match s with
  | EmptyString => EmptyString
  | String c s' =>
      if Ascii.eqb c "Z" then ("+00:00" ++ replace_Z s')%string
      else String c (replace_Z s')
  end.

(** [np.mean(l)]: [nan] on the empty list. *)
Definition Qsum (l : list Q) : Q := fold_right Qplus 0%Q l.

Definition mean (l : list Q) : option Q :=
  match l with
  | [] => None
  | _ => Some (Qsum l / inject_Z (Z.of_nat (length l)))%Q
  end.

(** The numbers the numerical library reads from a list of bools, floats
    and integers: a [TypeError] when an entry is [None] or a string. *)
Definition numbers (l : list value) : result (list Q) :=
  mapM (fun v => match as_number v with
                 | Some q => Ok q
                 | None => Raise TypeError
                 end) l.

(** An integer outside the 64-bit range does not fit a numeric array: a
    list that holds one becomes an array of Python objects. *)
Definition in_int64 (n : Z) : bool := (- 2 ^ 63 <=? n) && (n <? 2 ^ 63).

Definition wide (v : value) : bool :=
  match v with
  | VInt n => negb (in_int64 n)
  | _ => false
  end.

(** What the numerical library answers on an array of Python objects.  It
    is left open: the library may return a float or raise, and nothing is
    assumed about which. *)
Record object_arrays : Type := {
  mean_of_objects : list value -> result Q;
  std_of_objects : list value -> result Q
}.

(** [np.mean(l)] of a list of record values: the mean of a numeric array,
    a [TypeError] when an entry is [None] or a string, and whatever the
    library does when an integer is outside the 64-bit range. *)
Definition mean_values (objects : object_arrays) (l : list value)
  : result (option Q) :=
  if existsb wide l then bind (mean_of_objects objects l) (fun m => Ok (Some m))
  else bind (numbers l) (fun qs => Ok (mean qs)).

(** [np.std(l)] of a list of record values, [np_std] being the standard
    deviation of a numeric array. *)
Definition std_values (np_std : list Q -> Q) (objects : object_arrays)
    (l : list value) : result Q :=
  if existsb wide l then std_of_objects objects l
  else bind (numbers l) (fun qs => Ok (np_std qs)).

(** [x > c] for a possibly-[nan] [x]: every comparison with [nan] is false. *)
Definition gt_nan (x : option Q) (c : Q) : bool :=
  match x with
  | Some q => negb (Qle_bool q c)
  | None => false
  end.

(** [min(a, b)] and [max(a, b)]: the first argument unless the second is
    strictly smaller (resp. larger). *)
Definition pmin (a b : Q) : Q := if negb (Qle_bool a b) then b else a.
Definition pmax (a b : Q) : Q := if negb (Qle_bool b a) then b else a.

(** A stable insertion sort: [ord x y] says that [x] may stay in front of
    [y].  [list.sort(key=..., reverse=True)] and [sorted] are stable. *)
Section StableSort.
Context {A : Type} (ord : A -> A -> bool).

Fixpoint insert_sorted (x : A) (l : list A) : list A :=
  match l with
  | [] => [x]
  | y :: l' => if ord x y then x :: y :: l' else y :: insert_sorted x l'
  end.

Definition stable_sort (l : list A) : list A :=
  fold_right insert_sorted [] l.
End StableSort.

(** Dictionaries keyed by Python values, in insertion order.  Assigning to
    a key that is already there keeps the key object and its position. *)
Section Dict.
Context {V : Type}.

Fixpoint dict_get (k : value) (d : list (value * V)) : option V :=
  match d with
  | [] => None
  | (k', v) :: d' => if py_eqb k' k then Some v else dict_get k d'
  end.

Fixpoint dict_set (k : value) (v : V) (d : list (value * V)) : list (value * V) :=
  match d with
  | [] => [(k, v)]
  | (k', v') :: d' =>
      if py_eqb k' k then (k', v) :: d' else (k', v') :: dict_set k v d'
  end.

Definition dict_mem (k : value) (d : list (value * V)) : bool :=
  match dict_get k d with
  | Some _ => true
  | None => false
  end.
End Dict.

End Py.

Import Py.

Notation "'let*' x ':=' m 'in' k" := (bind m (fun x => k))
  (at level 10, x name, m at level 100, k at level 200).

(** ** [models/scheduling_model.py] *)

Module SchedulingModel.

Definition METHODS : list string := ["pomodoro"; "flowtime"; "blitz"; "52_17"].

(** [METHODS.index(v)]: the position of the first entry equal to [v]. *)
Fixpoint index_from (i : Z) (v : value) (l : list string) : result Z :=
  match l with
  | [] => Raise ValueError
  | m :: l' => if py_eqb (VStr m) v then Ok i else index_from (i + 1) v l'
  end.

Definition METHODS_index (v : value) : result Z := index_from 0 v METHODS.

(** [v in METHODS] *)
Definition in_METHODS (v : value) : bool :=
  existsb (fun m => py_eqb (VStr m) v) METHODS.

(** scikit-learn's [LabelEncoder]: [fit] stores the sorted distinct labels,
    [transform] maps a label to its position among them and
    [inverse_transform] maps a position back. *)
Record LabelEncoder : Type := { classes_ : list string }.

Fixpoint uniq (l : list string) : list string :=
  match l with
  | a :: (b :: _) as l' => if String.eqb a b then uniq l' else a :: uniq l'
  | _ => l
  end.

Definition fit (y : list string) : LabelEncoder :=
  {| classes_ := uniq (stable_sort String.leb y) |}.

Fixpoint position (i : Z) (m : string) (l : list string) : result Z :=
  match l with
  | [] => Raise ValueError
  | c :: l' => if String.eqb c m then Ok i else position (i + 1) m l'
  end.

Definition transform (enc : LabelEncoder) (labels : list string) : result (list Z) :=
  mapM (fun m => position 0 m (classes_ enc)) labels.

Definition inverse_transform (enc : LabelEncoder) (ys : list Z) : result (list string) :=
  mapM (fun y =>
          if y <? 0 then Raise ValueError
          else match nth_error (classes_ enc) (Z.to_nat y) with
               | Some m => Ok m
               | None => Raise ValueError
               end) ys.

(** The fields of a freshly constructed [SchedulingModel] that do not belong
    to the numerical library. *)
Record model : Type := {
  label_encoder : LabelEncoder;
  is_trained : bool
}.

Definition __init__ : model :=
  {| label_encoder := fit METHODS; is_trained := false |}.

Section Features.

(** [datetime.fromisoformat(s).weekday()] of the standard library, on a
    non-empty string. *)
Variable iso_weekday : string -> result Z.

(** The empty string is not an ISO-8601 date: [fromisoformat('')] raises. *)
Definition fromisoformat_weekday (s : string) : result Z :=
  if String.eqb s "" then Raise ValueError else iso_weekday s.

Definition derive_hour (started_at : value) : Z :=
  match started_at with
  | VStr s =>
      if negb (String.eqb s "")
      then catch (if 13 <? Z.of_nat (String.length s)
                  then int (slice s 11 13) else Ok 12) 12
      else 12
  | _ => 12
  end.

Definition derive_day_of_week (started_at : value) : Z :=
  catch (match started_at with
         | VStr s => fromisoformat_weekday (replace_Z s)
         | _ => Raise AttributeError
         end) 0.

(** The body of the loop of [prepare_features]. *)
Definition feature_row (record : gmap string value) : result (list Q) :=
  let started_at := get record "started_at" (VStr "") in
  let hour := derive_hour started_at in
  let day_of_week := derive_day_of_week started_at in
  let* m := METHODS_index (get record "method_used" (VStr "pomodoro")) in
  let* d := truediv (get record "duration_seconds" (VInt 1500)) 7200 in
  let* t := truediv (get record "tab_switch_count" (VInt 0)) 20 in
  Ok [ (inject_Z hour / 24)%Q;
       (inject_Z day_of_week / 7)%Q;
       (inject_Z m / 4)%Q;
       d;
       t;
       if truthy (get record "completed" (VBool false)) then 1%Q else 0%Q ].

Definition prepare_features (data : list (gmap string value)) : result (list (list Q)) :=
  mapM feature_row data.

End Features.

(** The method name [prepare_labels] keeps for a record. *)
Definition label_of (record : gmap string value) : string :=
  let method := get record "method_used" (VStr "pomodoro") in
  let method := if negb (in_METHODS method) then VStr "pomodoro" else method in
  match method with
  | VStr m => m
  | _ => "pomodoro"
  end.

Definition prepare_labels (self : model) (data : list (gmap string value)) : result (list Z) :=
  transform (label_encoder self) (map label_of data).

(** *** [_find_optimal_hours] *)

(** [hour_stats]: hour -> (total, completed), in insertion order. *)
Definition hour_stats : Type := list (Z * (Z * Z)).

Fixpoint lookup_hour (h : Z) (st : hour_stats) : option (Z * Z) :=
  match st with
  | [] => None
  | (h', tc) :: st' => if h =? h' then Some tc else lookup_hour h st'
  end.

(** One pass of the loop body once the hour is known: create the entry when
    absent, then count the session and, when completed, the completion. *)
Fixpoint record_session (h : Z) (completed : bool) (st : hour_stats) : hour_stats :=
  match st with
  | [] => [(h, (1, if completed then 1 else 0))]
  | (h', (t, c)) :: st' =>
      if h =? h'
      then (h', (t + 1, if completed then c + 1 else c)) :: st'
      else (h', (t, c)) :: record_session h completed st'
  end.

(** [int(started_at[11:13]) if len(started_at) > 13 else 12] *)
Definition session_hour (record : gmap string value) : result Z :=
  let started_at := get record "started_at" (VStr "") in
  let* n := len started_at in
  if 13 <? n
  then match started_at with
       | VStr s => int (slice s 11 13)
       | _ => Raise TypeError
       end
  else Ok 12.

Definition is_completed (record : gmap string value) : bool :=
  truthy (get record "completed" (VBool false)).

(** The [try] block of the loop: a record whose hour cannot be read is
    skipped. *)
Definition count_session (st : hour_stats) (record : gmap string value) : hour_stats :=
  match session_hour record with
  | Ok h => record_session h (is_completed record) st
  | Raise _ => st
  end.

Definition collect_hour_stats (user_data : list (gmap string value)) : hour_stats :=
  fold_left count_session user_data [].

Definition rate_of (tc : Z * Z) : Q := (inject_Z (snd tc) / inject_Z (fst tc))%Q.

Definition hour_rates (st : hour_stats) : list (Z * Q) :=
  map (fun e => (fst e, rate_of (snd e)))
      (List.filter (fun e => 3 <=? fst (snd e)) st).

(** [hour_rates.sort(key=lambda x: x[1], reverse=True)] *)
Definition sort_by_rate (l : list (Z * Q)) : list (Z * Q) :=
  stable_sort (fun x y => Qle_bool (snd y) (snd x)) l.

Definition default_hours : list Z := [9; 10; 11; 14; 15; 16].

Definition _find_optimal_hours (user_data : list (gmap string value)) : list Z :=
  let rates := sort_by_rate (hour_rates (collect_hour_stats user_data)) in
  let optimal :=
    match rates with
    | [] => default_hours
    | _ => map fst (firstn 6 rates)
    end in
  stable_sort Z.leb optimal.

(** *** [predict], [_generate_reasoning], [_default_prediction] and [load] *)

(** What [predict] answers. *)
Record schedule : Type := {
  recommended_method : string;
  confidence : Q;
  optimal_hours : list Z;
  reasoning : string
}.

Definition _default_prediction : schedule :=
  {| recommended_method := "pomodoro";
     confidence := (1 # 2)%Q;
     optimal_hours := [9; 10; 11; 14; 15; 16];
     reasoning := "Starting with Pomodoro technique is recommended for new users. "
                  ++ "25-minute sessions help build focus gradually." |}.

(** The fitted parts of a trained model, as the functions they compute on one
    feature row: the scaler's [transform] and the classifier's
    [predict_proba]. *)
Record estimator : Type := {
  transform_row : list Q -> list Q;
  predict_proba : list Q -> list Q
}.

(** A model object: the fields of [__init__], the fitted parts being absent
    until [train] or [load] sets them. *)
Record instance : Type := {
  core : model;
  fitted : option estimator
}.

(** [SchedulingModel.load()], a class method: it builds a new instance and
    marks it trained when the artifact is found on disk ([disk] is [None]
    when the files are absent or unreadable). *)
Definition load (disk : option (estimator * LabelEncoder)) : instance :=
  match disk with
  | Some (e, enc) =>
      {| core := {| label_encoder := enc; is_trained := true |}; fitted := Some e |}
  | None => {| core := __init__; fitted := None |}
  end.

(** [bool(obj)] of a model object: the class defines neither [__bool__] nor
    [__len__], so every instance is true. *)
Definition instance_truthy (i : instance) : bool := true.

(** [np.max(prob)] *)
Definition np_max (prob : list Q) : result Q :=
  match prob with
  | [] => Raise ValueError
  | x :: prob' => Ok (fold_left pmax prob' x)
  end.

(** [max(predictions, key=predictions.get)]: the first key, in insertion
    order, whose value no later value exceeds. *)
Fixpoint max_from (best : string * Q) (l : list (string * Q)) : string * Q :=
  match l with
  | [] => best
  | x :: l' =>
      max_from (if negb (Qle_bool (snd x) (snd best)) then x else best) l'
  end.

Definition max_by_value (l : list (string * Q)) : result (string * Q) :=
  match l with
  | [] => Raise ValueError
  | x :: l' => Ok (max_from x l')
  end.

Definition upper_ascii (c : ascii) : ascii :=
  let n := nat_of_ascii c in
  if ((97 <=? n) && (n <=? 122))%nat then ascii_of_nat (n - 32) else c.

(** [s.upper()] *)
Fixpoint upper (s : string) : string :=
  match s with
  | EmptyString => EmptyString
  | String c s' => String (upper_ascii c) (upper s')
  end.

(** [str(l)] of a list of integers. *)
Fixpoint join_ints (l : list Z) : string :=
  match l with
  | [] => ""
  | [x] => pretty x
  | x :: l' => (pretty x ++ ", " ++ join_ints l')%string
  end.

Definition list_repr (l : list Z) : string := ("[" ++ join_ints l ++ "]")%string.

Definition method_descriptions : list (string * string) :=
  [ ("pomodoro", "25-minute focused sessions with 5-minute breaks");
    ("flowtime", "flexible sessions based on natural focus flow");
    ("blitz", "short intense 15-minute sessions");
    ("52_17", "52-minute work sessions with 17-minute breaks") ].

Fixpoint assoc {V : Type} (k : string) (l : list (string * V)) : option V :=
  match l with
  | [] => None
  | (k', v) :: l' => if String.eqb k' k then Some v else assoc k l'
  end.

(** The share of completed sessions, 0.5 when there is none to count. *)
Definition completed_share (sessions : list (gmap string value)) : Q :=
  let total := Z.of_nat (length sessions) in
  let completed := Z.of_nat (length (List.filter is_completed sessions)) in
  if 0 <? total then (inject_Z completed / inject_Z total)%Q else (1 # 2)%Q.

(** [method_success]: for each method, the share of completed sessions among
    those whose [method_used] equals it. *)
Definition method_success_of (user_data : list (gmap string value)) : list (string * Q) :=
  map (fun method =>
         (method,
          completed_share
            (List.filter (fun d => py_eqb (get d "method_used" VNone) (VStr method))
                         user_data)))
      METHODS.

Section Predict.

(** [f"{x:.0f}"], the text of a float rounded to no decimals. *)
Variable format_0f : Q -> string.

Definition _generate_reasoning (method : string) (confidence : Q)
    (method_success : list (string * Q)) (current_hour : Z)
    (optimal_hours : list Z) : result string :=
  let time_is_optimal := existsb (Z.eqb current_hour) optimal_hours in
  let success_rate := (default (1 # 2)%Q (assoc method method_success) * 100)%Q in
  let* description := match assoc method method_descriptions with
                      | Some d => Ok d
                      | None => Raise KeyError
                      end in
  let reasoning :=
    ("Based on your study patterns, " ++ upper method ++ " (" ++ description ++ ") ")%string in
  let reasoning :=
    (reasoning ++ "is recommended with " ++ format_0f (confidence * 100)%Q
     ++ "% confidence. ")%string in
  let reasoning :=
    if time_is_optimal
    then (reasoning ++ "Current time (" ++ pretty current_hour
          ++ ":00) is one of your optimal study hours. ")%string
    else (reasoning ++ "Consider studying during hours "
          ++ list_repr (firstn 3 optimal_hours) ++ " for better results. ")%string in
  Ok (reasoning ++ "Your historical success rate with this method is "
      ++ format_0f success_rate ++ "%.")%string.

(** [predict]; [now_hour] and [now_weekday] are what [datetime.now()] gives.
    The test [not self.load()] builds a second instance from the disk and
    asks whether it is false, leaving [self] as it was. *)
Definition predict (self : instance) (disk : option (estimator * LabelEncoder))
    (now_hour now_weekday : Z)
    (user_data : list (gmap string value)) (hour day_of_week : option Z)
  : result schedule :=
  if negb (is_trained (core self)) && negb (instance_truthy (load disk))
  then Ok _default_prediction
  else
    let completion_rate := completed_share user_data in
    let method_success := method_success_of user_data in
    let current_hour := default now_hour hour in
    let current_day := default now_weekday day_of_week in
    let* predictions :=
      mapM (fun method =>
              let* h := truediv (VInt current_hour) 24 in
              let* d := truediv (VInt current_day) 7 in
              let* i := METHODS_index (VStr method) in
              let feature :=
                [ h;
                  d;
                  (inject_Z i / 4)%Q;
                  (1 # 2)%Q;
                  (1 # 10)%Q;
                  completion_rate ] in
              (* an unfitted scaler refuses to transform *)
              let* e := match fitted self with
                        | Some e => Ok e
                        | None => Raise ValueError
                        end in
              let feature_scaled := transform_row e feature in
              let prob := predict_proba e feature_scaled in
              let* p := np_max prob in
              Ok (method, p)) METHODS in
    let* best := max_by_value predictions in
    let best_method := fst best in
    let confidence := snd best in
    let optimal_hours := _find_optimal_hours user_data in
    let* reasoning :=
      _generate_reasoning best_method confidence method_success
                          current_hour optimal_hours in
    Ok {| recommended_method := best_method;
          confidence := confidence;
          optimal_hours := optimal_hours;
          reasoning := reasoning |}.

End Predict.

End SchedulingModel.

(** ** [models/recommendation_model.py] *)

Module RecommendationModel.

(** [course_completions[c] = {'total': t, 'completed': k}] *)
Record course_stats : Type := { total : Z; completed : Z }.

Record model : Type := {
  user_profiles : list (value * list (value * Q));
  course_profiles : list (value * course_stats);
  is_trained : bool
}.

Definition __init__ : model :=
  {| user_profiles := []; course_profiles := []; is_trained := false |}.

Definition user_id_of (record : gmap string value) : value :=
  get record "userId" (get record "user_id" VNone).

Definition course_id_of (record : gmap string value) : value :=
  get record "courseId" (get record "course_id" VNone).

(** [1.0 if completed else 0.5] *)
Definition interaction_score (record : gmap string value) : Q :=
  if truthy (get record "completed" (VBool false)) then 1%Q else (1 # 2)%Q.

(** [if not user_id or not course_id: continue] *)
Definition lacks_ids (record : gmap string value) : bool :=
  negb (truthy (user_id_of record)) || negb (truthy (course_id_of record)).

(** One iteration of the loop of [train] over
    [(user_course_matrix, course_completions)]. *)
Definition train_step
    (st : list (value * list (value * Q)) * list (value * course_stats))
    (record : gmap string value)
  : list (value * list (value * Q)) * list (value * course_stats) :=
  let '(user_course_matrix, course_completions) := st in
  let user_id := user_id_of record in
  let course_id := course_id_of record in
  let completed_flag := get record "completed" (VBool false) in
  if lacks_ids record then st
  else
    let user_course_matrix :=
      if negb (dict_mem user_id user_course_matrix)
      then dict_set user_id [] user_course_matrix
      else user_course_matrix in
    let score := if truthy completed_flag then 1%Q else (1 # 2)%Q in
    let row := default [] (dict_get user_id user_course_matrix) in
    let row := dict_set course_id (pmax (default 0%Q (dict_get course_id row)) score) row in
    let user_course_matrix := dict_set user_id row user_course_matrix in
    let course_completions :=
      if negb (dict_mem course_id course_completions)
      then dict_set course_id {| total := 0; completed := 0 |} course_completions
      else course_completions in
    let stats := default {| total := 0; completed := 0 |}
                         (dict_get course_id course_completions) in
    let stats := {| total := total stats + 1; completed := completed stats |} in
    let stats := if truthy completed_flag
                 then {| total := total stats; completed := completed stats + 1 |}
                 else stats in
    (user_course_matrix, dict_set course_id stats course_completions).

Definition completion_rate (stats : course_stats) : Q :=
  (inject_Z (completed stats) / inject_Z (total stats))%Q.

Definition train (self : model) (data : list (gmap string value))
  : model * list (string * Q) :=
  let '(user_course_matrix, course_completions) := fold_left train_step data ([], []) in
  let completion_rates :=
    map completion_rate
        (List.filter (fun v => 0 <? total v) (map snd course_completions)) in
  let avg_completion := default (1 # 2)%Q (mean completion_rates) in
  let metrics :=
    [ ("accuracy", avg_completion);
      ("precision", avg_completion);
      ("recall", (inject_Z (Z.of_nat (length course_completions))
                  / inject_Z (Z.max (Z.of_nat (length data)) 1))%Q);
      ("f1Score", (2 * avg_completion * avg_completion
                   / (avg_completion + avg_completion + (1 # 1000)))%Q) ] in
  ({| user_profiles := user_course_matrix;
      course_profiles := course_completions;
      is_trained := true |}, metrics).

(** An entry of the user description that is expected to hold a container:
    missing, holding something of another kind ([None], a number, ...), or
    holding the container. *)
Inductive entry (A : Type) : Type :=
  | Absent
  | Malformed
  | Present (a : A).
Arguments Absent {A}.
Arguments Malformed {A}.
Arguments Present {A} a.

(** The user description handed to the scorer: a dictionary whose
    ['preferences'] entry is expected to be a dictionary, whose ['interests']
    entry is expected to be a list. *)
Record preferences : Type := {
  pref_fields : gmap string value;
  interests : entry (list value)
}.

Record user_data : Type := {
  fields : gmap string value;
  preferences_entry : entry preferences
}.

(** [user_data.get('preferences', {})], ready for a [.get]: anything but a
    dictionary has no such method. *)
Definition get_preferences (u : user_data) : result preferences :=
  match preferences_entry u with
  | Absent => Ok {| pref_fields := ∅; interests := Absent |}
  | Malformed => Raise AttributeError
  | Present p => Ok p
  end.

(** [set(prefs.get('interests', []))]: anything but an iterable cannot be
    made a set.  The set is kept as the list of its members, the membership
    test below being the only use made of it. *)
Definition get_interests (p : preferences) : result (list value) :=
  match interests p with
  | Absent => Ok []
  | Malformed => Raise TypeError
  | Present l => Ok l
  end.

Definition level_match : list ((string * string) * Q) :=
  [ (("beginner", "beginner"), 1%Q);
    (("beginner", "intermediate"), (7 # 10)%Q);
    (("beginner", "advanced"), (3 # 10)%Q);
    (("intermediate", "beginner"), (6 # 10)%Q);
    (("intermediate", "intermediate"), 1%Q);
    (("intermediate", "advanced"), (8 # 10)%Q);
    (("advanced", "beginner"), (3 # 10)%Q);
    (("advanced", "intermediate"), (7 # 10)%Q);
    (("advanced", "advanced"), 1%Q) ].

(** [level_match.get((user_level, course_level), 0.5)] *)
Definition level_match_get (user_level course_level : value) : Q :=
  match List.find (fun e => py_eqb (VStr (fst (fst e))) user_level
                            && py_eqb (VStr (snd (fst e))) course_level) level_match with
  | Some e => snd e
  | None => (1 # 2)%Q
  end.

(** [v.lower()]: only strings have the method. *)
Definition str_lower (v : value) : result string :=
  match v with
  | VStr s => Ok (lower s)
  | _ => Raise AttributeError
  end.

(** [len(user_courses & other_course_set)] and
    [len(user_courses | other_course_set)] for the key sets of two
    dictionaries. *)
Definition overlap_size (mine other : list (value * Q)) : Z :=
  Z.of_nat (length (List.filter (fun e => dict_mem (fst e) other) mine)).

Definition union_size (mine other : list (value * Q)) : Z :=
  Z.of_nat (length mine)
  + Z.of_nat (length (List.filter (fun e => negb (dict_mem (fst e) mine)) other)).

Definition similar_scores (user_id course_id : value)
    (mine : list (value * Q))
    (user_profiles : list (value * list (value * Q))) : list Q :=
  flat_map (fun entry =>
              let other_id := fst entry in
              let other_courses := snd entry in
              if py_eqb other_id user_id then []
              else
                let overlap := overlap_size mine other_courses in
                match dict_get course_id other_courses with
                | Some s =>
                    if 0 <? overlap
                    then [ (s * (inject_Z overlap
                                 / inject_Z (union_size mine other_courses)))%Q ]
                    else []
                | None => []
                end) user_profiles.

Definition user_id_entry (u : user_data) : value :=
  get (fields u) "id" (get (fields u) "user_id" VNone).

Definition _calculate_collaborative_score
    (u : user_data) (course_id : value)
    (user_profiles : list (value * list (value * Q))) : Q :=
  let user_id := user_id_entry u in
  match dict_get user_id user_profiles with
  | None => (1 # 2)%Q
  | Some mine =>
      default (1 # 2)%Q (mean (similar_scores user_id course_id mine user_profiles))
  end.

(** The four additions to [score], in program order. *)
Definition popularity_term (course_id : value)
    (course_profiles : list (value * course_stats)) : Q :=
  match dict_get course_id course_profiles with
  | Some stats =>
      if 0 <? total stats then (completion_rate stats * (3 # 10))%Q else 0%Q
  | None => 0%Q
  end.

Definition difficulty_term (u : user_data) (course : gmap string value) : result Q :=
  let* prefs := get_preferences u in
  let user_level := get (pref_fields prefs) "skill_level" (VStr "beginner") in
  let course_level := get course "difficulty" (VStr "beginner") in
  Ok (level_match_get user_level course_level * (2 # 10))%Q.

Definition category_term (u : user_data) (course : gmap string value) : result Q :=
  let* prefs := get_preferences u in
  let* user_interests := get_interests prefs in
  let course_category := get course "category" (VStr "") in
  let* c := str_lower course_category in
  let* lowered := mapM str_lower user_interests in
  Ok (if existsb (String.eqb c) lowered then (3 # 10)%Q else 0%Q).

Definition collaborative_term (u : user_data) (course_id : value)
    (user_profiles : list (value * list (value * Q))) : Q :=
  (_calculate_collaborative_score u course_id user_profiles * (2 # 10))%Q.

Definition _calculate_course_score
    (u : user_data) (course : gmap string value)
    (user_profiles : list (value * list (value * Q)))
    (course_profiles : list (value * course_stats)) : result Q :=
  let score := 0%Q in
  let course_id := get course "id" VNone in
  let score := (score + popularity_term course_id course_profiles)%Q in
  let* match_score := difficulty_term u course in
  let score := (score + match_score)%Q in
  let* bonus := category_term u course in
  let score := (score + bonus)%Q in
  let score := (score + collaborative_term u course_id user_profiles)%Q in
  Ok (pmin 1 score).

(** *** [recommend] and [_generate_reason] *)

Record recommendation : Type := {
  course_id : value;
  score : Q;
  reason : string
}.

(** The user description handed to [recommend]: the description the scorer
    reads, with the ['completed_courses'] and ['enrolled_courses'] entries. *)
Record request_user : Type := {
  description : user_data;
  completed_courses : entry (list value);
  enrolled_courses : entry (list value)
}.

(** [set(user_data.get(key, []))], kept as the list of its members. *)
Definition as_set (e : entry (list value)) : result (list value) :=
  match e with
  | Absent => Ok []
  | Malformed => Raise TypeError
  | Present l => Ok l
  end.

(** [v in s] *)
Definition set_mem (v : value) (s : list value) : bool := existsb (py_eqb v) s.

(** [l[:limit]]: a negative limit drops that many entries from the end. *)
Definition slice_to {A : Type} (limit : Z) (l : list A) : list A :=
  if 0 <=? limit then firstn (Z.to_nat limit) l
  else firstn (length l - Z.to_nat (- limit)) l.

(** [course_scores.sort(key=lambda x: x['score'], reverse=True)] *)
Definition sort_by_score (l : list recommendation) : list recommendation :=
  stable_sort (fun x y => Qle_bool (score y) (score x)) l.

Section Recommend.

(** [f"{x:.0f}"], the text of a float rounded to no decimals. *)
Variable format_0f : Q -> string.

Definition _generate_reason (self : model) (course : gmap string value)
    (score : Q) : string :=
  let reasons :=
    [ if negb (Qle_bool score (8 # 10))
      then "Highly recommended based on your learning patterns"
      else if negb (Qle_bool score (6 # 10))
           then "Good match for your skill level and interests"
           else "Explore new topics outside your usual areas" ] in
  let reasons :=
    match dict_get (get course "id" VNone) (course_profiles self) with
    | Some course_stats =>
        if 10 <? total course_stats
        then reasons ++ [ (format_0f (completion_rate course_stats * 100)%Q
                           ++ "% completion rate")%string ]
        else reasons
    | None => reasons
    end in
  String.concat ". " reasons.

(** The loop of [recommend] over the candidate courses. *)
Fixpoint score_courses (self : model) (u : request_user)
    (completed enrolled : list value) (courses : list (gmap string value))
  : result (list recommendation) :=
  match courses with
  | [] => Ok []
  | course :: rest =>
      let course_id := get course "id" VNone in
      if set_mem course_id completed || set_mem course_id enrolled
      then score_courses self u completed enrolled rest
      else
        let* score := _calculate_course_score (description u) course
                        (user_profiles self) (course_profiles self) in
        let reason := _generate_reason self course score in
        let* course_scores := score_courses self u completed enrolled rest in
        Ok ({| course_id := course_id; score := score; reason := reason |}
            :: course_scores)
  end.

Definition recommend (self : model) (u : request_user)
    (courses : list (gmap string value)) (limit : Z) : result (list recommendation) :=
  match courses with
  | [] => Ok []
  | _ =>
      let* completed := as_set (completed_courses u) in
      let* enrolled := as_set (enrolled_courses u) in
      let* course_scores := score_courses self u completed enrolled courses in
      Ok (slice_to limit (sort_by_score course_scores))
  end.

End Recommend.

End RecommendationModel.

(** ** [models/performance_model.py] *)

Module PerformanceModel.

(** The per-record reads shared by [prepare_features] and [predict]. *)
Definition user_id_of (record : gmap string value) : value :=
  get record "userId" (get record "user_id" VNone).

Definition duration_of (record : gmap string value) : value :=
  get record "duration_seconds" (get record "duration" (VInt 1500)).

Definition tab_switches_of (record : gmap string value) : value :=
  get record "tabSwitchCount" (get record "tab_switch_count" (VInt 0)).

Definition completed_of (record : gmap string value) : Z :=
  if truthy (get record "completed" (VBool false)) then 1 else 0.

Definition method_of (record : gmap string value) : value :=
  get record "method" (get record "method_used" (VStr "pomodoro")).

Definition hour_of (record : gmap string value) : Z :=
  let started_at := get record "started_at" (VStr "") in
  catch (let* n := len started_at in
         if 13 <? n
         then match started_at with
              | VStr s => int (slice s 11 13)
              | _ => Raise TypeError
              end
         else Ok 12) 12.

(** [user_stats[user_id]] *)
Record stats : Type := {
  sessions : list (gmap string value);
  durations : list value;
  tab_switches : list value;
  completed : list Z;
  methods : list value;
  hours : list Z
}.

Definition empty_stats : stats :=
  {| sessions := []; durations := []; tab_switches := [];
     completed := []; methods := []; hours := [] |}.

(** One iteration of the first loop of [prepare_features]. *)
Definition collect_step (user_stats : list (value * stats))
    (record : gmap string value) : list (value * stats) :=
  let user_id := user_id_of record in
  if negb (truthy user_id) then user_stats
  else
    let user_stats :=
      if negb (dict_mem user_id user_stats)
      then dict_set user_id empty_stats user_stats
      else user_stats in
    let st := default empty_stats (dict_get user_id user_stats) in
    let st :=
      {| sessions := sessions st ++ [record];
         durations := durations st ++ [duration_of record];
         tab_switches := tab_switches st ++ [tab_switches_of record];
         completed := completed st ++ [completed_of record];
         methods := methods st ++ [method_of record];
         hours := hours st ++ [hour_of record] |} in
    dict_set user_id st user_stats.

Definition collect_user_stats (data : list (gmap string value)) : list (value * stats) :=
  fold_left collect_step data [].

(** [len(set(l))] *)
Fixpoint distinct (l : list value) : list value :=
  match l with
  | [] => []
  | v :: l' => v :: List.filter (fun w => negb (py_eqb v w)) (distinct l')
  end.

(** ['pomodoro' in methods] *)
Definition uses_pomodoro (methods : list value) : bool :=
  existsb (fun m => py_eqb m (VStr "pomodoro")) methods.

Definition Zs (l : list Z) : list Q := map inject_Z l.

(** [x < c] on floats. *)
Definition lt (x c : Q) : bool := negb (Qle_bool c x).

Definition _calculate_risk_level (objects : object_arrays)
    (completion_rate quiz_score : Q) (tab_switches : list value) : result string :=
  let risk_score := 0 in
  let risk_score :=
    if lt completion_rate (1 # 2) then risk_score + 2
    else if lt completion_rate (7 # 10) then risk_score + 1
    else risk_score in
  let risk_score :=
    if lt quiz_score 60 then risk_score + 2
    else if lt quiz_score 75 then risk_score + 1
    else risk_score in
  let* avg_switches := mean_values objects tab_switches in
  let risk_score :=
    if gt_nan avg_switches 5 then risk_score + 1 else risk_score in
  Ok (if 4 <=? risk_score then "high"
      else if 2 <=? risk_score then "medium"
      else "low").

(** [int(started_at[11:13])] of the time-based rule; a failure is passed
    over. *)
Definition rule_hour (d : gmap string value) : list Z :=
  match get d "started_at" (VStr "") with
  | VStr s => match int (slice s 11 13) with
              | Ok h => [h]
              | Raise _ => []
              end
  | _ => []
  end.

Definition _generate_recommendations (completion_rate quiz_score : Q)
    (tab_switches : option Q) (methods : list value)
    (user_data : list (gmap string value)) : list string :=
  let recommendations := [] in
  let recommendations :=
    if lt completion_rate (6 # 10)
    then recommendations ++
         [ "Try shorter study sessions to improve completion rate";
           "Set specific goals before each study session" ]
    else recommendations in
  let recommendations :=
    if lt quiz_score 70
    then recommendations ++
         [ "Review material before taking quizzes";
           "Take notes during video lessons" ]
    else recommendations in
  let recommendations :=
    if gt_nan tab_switches 5
    then recommendations ++
         [ "Minimize distractions by closing unnecessary tabs";
           "Use website blockers during study sessions" ]
    else recommendations in
  let recommendations :=
    if negb (uses_pomodoro methods)
    then recommendations ++ [ "Try the Pomodoro technique for better focus" ]
    else recommendations in
  let recommendations :=
    if 5 <=? Z.of_nat (length user_data)
    then match mean (Zs (flat_map rule_hour user_data)) with
         | Some avg_hour =>
             if lt avg_hour 8 || negb (Qle_bool avg_hour 22)
             then recommendations ++
                  [ "Consider studying during daytime hours for better retention" ]
             else recommendations
         | None => recommendations
         end
    else recommendations in
  let recommendations :=
    match recommendations with
    | [] => [ "Keep up the good work!";
              "Try challenging yourself with advanced courses" ]
    | _ => recommendations
    end in
  firstn 5 recommendations.

Record prediction : Type := {
  predicted_completion_rate : Q;
  predicted_quiz_score : Q;
  risk_level : string;
  recommendations : list string
}.

Definition _default_prediction : prediction :=
  {| predicted_completion_rate := (1 # 2)%Q;
     predicted_quiz_score := 65%Q;
     risk_level := "medium";
     recommendations :=
       [ "Set a consistent study schedule";
         "Start with shorter study sessions";
         "Review material before quizzes";
         "Minimize distractions during study" ] |}.

(** What [save] stores and [_load_model] reads back: the two fitted
    regressors and the fitted scaler, as the functions they compute. *)
Record artifact : Type := {
  completion_model : list Q -> Q;
  score_model : list Q -> Q;
  scaler : list Q -> list Q
}.

Record model : Type := {
  fitted : option artifact;
  is_trained : bool
}.

Definition __init__ : model := {| fitted := None; is_trained := false |}.

(** [disk] is the artifact found at [MODEL_PATH], [None] when the file is
    absent or cannot be read. *)
Definition _load_model (self : model) (disk : option artifact) : bool * model :=
  match disk with
  | Some a => (true, {| fitted := Some a; is_trained := true |})
  | None => (false, self)
  end.

Definition load (disk : option artifact) : model :=
  snd (_load_model __init__ disk).

Section Predict.

(** [np.std], the population standard deviation of the numerical library on
    a numeric array, and the library's answers on arrays of objects. *)
Variable np_std : list Q -> Q.
Variable objects : object_arrays.

(** [np.std(l) / 3600 if len(l) > 1 else 0] *)
Definition spread (l : list value) : result Q :=
  if 1 <? Z.of_nat (length l)
  then let* s := std_values np_std objects l in Ok (s / 3600)%Q
  else Ok 0%Q.

(** The 8-entry aggregate vector over one list of sessions, given the mean
    and the spread of the durations and the mean of the tab switches. *)
Definition feature_vector (mean_durations : option Q) (spread_durations : Q)
    (mean_tab_switches : option Q) (completed hours : list Z)
    (methods : list value) (n_sessions : nat) : list Q :=
  [ (default 0 mean_durations / 3600)%Q;
    spread_durations;
    default 0%Q mean_tab_switches;
    default 0%Q (mean (Zs completed));
    (inject_Z (Z.of_nat (length (distinct methods))) / 4)%Q;
    (if 1 <? Z.of_nat (length hours) then np_std (Zs hours) else 0)%Q;
    (inject_Z (Z.of_nat n_sessions) / 100)%Q;
    if uses_pomodoro methods then 1%Q else 0%Q ].

Definition predict (self : model) (disk : option artifact)
    (user_data : list (gmap string value)) : result prediction * model :=
  let '(ready, self) :=
    if is_trained self then (true, self) else _load_model self disk in
  if negb ready then (Ok _default_prediction, self)
  else
    match user_data with
    | [] => (Ok _default_prediction, self)
    | _ =>
        let durations := map duration_of user_data in
        let tab_switches := map tab_switches_of user_data in
        let completed := map completed_of user_data in
        let methods := map method_of user_data in
        let hours := map hour_of user_data in
        (let* mean_durations := mean_values objects durations in
         let* spread_durations := spread durations in
         let* mean_tab_switches := mean_values objects tab_switches in
         let feature :=
           feature_vector mean_durations spread_durations mean_tab_switches
                          completed hours methods (length user_data) in
         (* a model flagged trained always carries its fitted parts *)
         let* a := match fitted self with
                   | Some a => Ok a
                   | None => Raise AttributeError
                   end in
         let feature_scaled := scaler a feature in
         let completion_rate := completion_model a feature_scaled in
         let quiz_score := score_model a feature_scaled in
         let completion_rate := pmax 0 (pmin 1 completion_rate) in
         let quiz_score := pmax 0 (pmin 100 quiz_score) in
         let* risk_level :=
           _calculate_risk_level objects completion_rate quiz_score tab_switches in
         let recommendations :=
           _generate_recommendations completion_rate quiz_score mean_tab_switches
                                     methods user_data in
         Ok {| predicted_completion_rate := completion_rate;
               predicted_quiz_score := quiz_score;
               risk_level := risk_level;
               recommendations := recommendations |},
         self)
    end.

End Predict.

(** *** The second loop of [prepare_features], and [train] *)

Section Training.

(** [np.std], the population standard deviation of the numerical library on
    a numeric array, and the library's answers on arrays of objects. *)
Variable np_std : list Q -> Q.
Variable objects : object_arrays.

(** The feature row and the two labels of one user. *)
Definition aggregate (st : stats) : result (list Q * (Q * Q)) :=
  let* mean_durations := mean_values objects (durations st) in
  let* spread_durations := spread np_std objects (durations st) in
  let* mean_tab_switches := mean_values objects (tab_switches st) in
  let feature :=
    feature_vector np_std mean_durations spread_durations mean_tab_switches
                   (completed st) (hours st) (methods st)
                   (length (sessions st)) in
  let mean_completed := default 0%Q (mean (Zs (completed st))) in
  let avg_focus := (1 - default 0 mean_tab_switches / 10)%Q in
  let estimated_score :=
    ((mean_completed * (6 # 10) + avg_focus * (4 # 10)) * 100)%Q in
  Ok (feature, (mean_completed, pmin 100 (pmax 0 estimated_score))).

Fixpoint aggregate_all (items : list (value * stats))
  : result (list (list Q) * (list Q * list Q)) :=
  match items with
  | [] => Ok ([], ([], []))
  | (_, st) :: rest =>
      if Z.of_nat (length (sessions st)) <? 3 then aggregate_all rest
      else
        let* row := aggregate st in
        let* rows := aggregate_all rest in
        Ok (fst row :: fst rows,
            (fst (snd row) :: fst (snd rows), snd (snd row) :: snd (snd rows)))
  end.

(** [prepare_features]: the features, the completion labels and the score
    labels. *)
Definition prepare_features (data : list (gmap string value))
  : result (list (list Q) * (list Q * list Q)) :=
  aggregate_all (collect_user_stats data).

(** Splitting, scaling, fitting the two regressors and evaluating them on
    the held-out part: the fitted parts and the four metrics. *)
Variable fit : list (list Q) -> list Q -> list Q -> artifact * list (string * Q).

Definition zero_metrics : list (string * Q) :=
  [ ("accuracy", 0%Q); ("precision", 0%Q); ("recall", 0%Q); ("f1Score", 0%Q) ].

Definition train (self : model) (data : list (gmap string value))
  : result (model * list (string * Q)) :=
  let* prepared := prepare_features data in
  let X := fst prepared in
  let y_completion := fst (snd prepared) in
  let y_score := snd (snd prepared) in
  if Z.of_nat (length X) <? 10 then Ok (self, zero_metrics)
  else
    let fitted_parts := fit X y_completion y_score in
    Ok ({| fitted := Some (fst fitted_parts); is_trained := true |},
        snd fitted_parts).

End Training.

End PerformanceModel.

(** ** [services/training_service.py] and [main.py] *)

Module Main.

(** The calls into the collaborators, in the order they are made. *)
Inductive event : Type :=
  | FetchTrainingData (model_type : string) (user_id : option string)
  | ModelTrain (model_type : string) (data : list (gmap string value))
  | ModelSave (model_type : string)
  | AddTask (model_type : string) (metrics : list (string * Q)) (samples : Z).

Record TrainRequest : Type := {
  model_type : string;
  user_id : option string;
  force_retrain : bool
}.

Record TrainResponse : Type := {
  success : bool;
  response_model_type : string;
  metrics : list (string * Q);
  training_samples : Z;
  trained_at : string;
  message : option string
}.

Definition model_types : list string := ["scheduling"; "recommendation"; "performance"].

Definition known_model_type (t : string) : bool := existsb (String.eqb t) model_types.

Section Service.

(** [DataService.fetch_training_data]; it answers with a list in every
    case (mock data when the datastore cannot be reached). *)
Variable fetch_training_data : string -> option string -> list (gmap string value).

(** [model.train(data)] of the model registered under a type: feature
    building and estimator fitting, returning the metrics or raising. *)
Variable model_train : string -> list (gmap string value) -> result (list (string * Q)).

(** [datetime.utcnow().isoformat()] *)
Variable now : string.

(** [TrainingService.train]; a failure of [model.save()] is logged and
    dropped. *)
Definition training_service_train (model_type : string)
    (data : list (gmap string value)) (trace : list event)
  : result (list (string * Q)) * list event :=
  if negb (known_model_type model_type) then (Raise ValueError, trace)
  else
    let trace := trace ++ [ModelTrain model_type data] in
    match model_train model_type data with
    | Raise e => (Raise e, trace)
    | Ok metrics => (Ok metrics, trace ++ [ModelSave model_type])
    end.

(** The [try] block of [train_model]. *)
Definition train_model_body (request : TrainRequest)
  : result TrainResponse * list event :=
  if negb (known_model_type (model_type request))
  then (Raise (HTTPException 400), [])
  else
    let training_data :=
      fetch_training_data (model_type request) (user_id request) in
    let trace := [FetchTrainingData (model_type request) (user_id request)] in
    if Z.of_nat (length training_data) <? 50
    then
      (Ok {| success := false;
             response_model_type := model_type request;
             metrics := [];
             training_samples := Z.of_nat (length training_data);
             trained_at := now;
             message := Some ("Insufficient data: "
                              ++ pretty (Z.of_nat (length training_data))
                              ++ " samples (minimum 50 required)")%string |},
       trace)
    else
      match training_service_train (model_type request) training_data trace with
      | (Raise e, trace) => (Raise e, trace)
      | (Ok result_metrics, trace) =>
          (Ok {| success := true;
                 response_model_type := model_type request;
                 metrics := result_metrics;
                 training_samples := Z.of_nat (length training_data);
                 trained_at := now;
                 message := Some "Model trained successfully" |},
           trace ++ [AddTask (model_type request) result_metrics
                             (Z.of_nat (length training_data))])
      end.

(** [train_model]: whatever the body raises is turned into a 500. *)
Definition train_model (request : TrainRequest)
  : result TrainResponse * list event :=
  match train_model_body request with
  | (Raise _, trace) => (Raise (HTTPException 500), trace)
  | (Ok response, trace) => (Ok response, trace)
  end.

(** [np.std] of the numerical library and its answers on arrays of
    objects, used by the performance model. *)
Variable np_std : list Q -> Q.
Variable objects : object_arrays.

(** [predict_performance], given the history [get_user_study_history]
    answered with and the artifact on disk. *)
Definition predict_performance (user_data : list (gmap string value))
    (disk : option PerformanceModel.artifact) : result PerformanceModel.prediction :=
  let body :=
    match user_data with
    | [] =>
        Ok {| PerformanceModel.predicted_completion_rate := (1 # 2)%Q;
              PerformanceModel.predicted_quiz_score := 65%Q;
              PerformanceModel.risk_level := "medium";
              PerformanceModel.recommendations :=
                [ "Set a consistent study schedule";
                  "Start with shorter study sessions";
                  "Review material before quizzes" ] |}
    | _ =>
        let model := PerformanceModel.load disk in
        fst (PerformanceModel.predict np_std objects model disk user_data)
    end in
  match body with
  | Raise _ => Raise (HTTPException 500)
  | Ok p => Ok p
  end.

End Service.

Section ScheduleRoute.

(** [f"{x:.0f}"], the text of a float rounded to no decimals. *)
Variable format_0f : Q -> string.


End ScheduleRoute.

End Main.

(** ** [services/data_service.py] *)

Module DataService.

Record course_statistics : Type := {
  course_id : string;
  total_enrollments : Z;
  completions : Z;
  completion_rate : Q
}.

(** [e.get('status') == 'completed'] *)
Definition is_completed_enrollment (e : gmap string value) : bool :=
  py_eqb (get e "status" VNone) (VStr "completed").

(** [get_course_statistics]: [connected] tells whether a datastore client
    exists and [query] is the outcome of the enrollment query; the empty
    dictionary is [None]. *)
Definition get_course_statistics (connected : bool) (course_id : string)
    (query : result (list (gmap string value))) : option course_statistics :=
  if negb connected then None
  else
    match query with
    | Raise _ => None
    | Ok rows =>
        let total := Z.of_nat (length rows) in
        let completed :=
          Z.of_nat (length (List.filter is_completed_enrollment rows)) in
        Some {| course_id := course_id;
                total_enrollments := total;
                completions := completed;
                completion_rate :=
                  if 0 <? total then (inject_Z completed / inject_Z total)%Q
                  else 0%Q |}
    end.

(** *** [analyze_user_behavior] *)

Module Behavior.

Record report : Type := {
  user_id : string;
  total_sessions : Z;
  completed_sessions : Z;
  completion_rate : Q;
  total_study_time_minutes : Q;
  avg_session_minutes : Q;
  avg_tab_switches : Q;
  method_distribution : list (value * Z);
  preferred_method : value;
  peak_study_hours : list value;
  focus_score : Q
}.

(** The four dictionaries the function can return: [{}], the one with a
    [message], the report, and the one with an [error]. *)
Inductive analysis : Type :=
  | Unavailable
  | NoStudyData (uid : string)
  | Report (r : report)
  | Error (uid : string) (e : exn).

(** [d[k] = d.get(k, 0) + 1] *)
Definition count_one (k : value) (d : list (value * Z)) : list (value * Z) :=
  dict_set k (default 0 (dict_get k d) + 1) d.

Definition count_methods (data : list (gmap string value)) : list (value * Z) :=
  fold_left (fun d r => count_one (get r "method_used" (VStr "unknown")) d) data [].

(** [int(d.get('started_at', '')[11:13])] *)
Definition read_hour (r : gmap string value) : result Z :=
  match get r "started_at" (VStr "") with
  | VStr s => int (slice s 11 13)
  | _ => Raise TypeError
  end.

Definition count_hours (data : list (gmap string value)) : list (value * Z) :=
  fold_left (fun d r => match read_hour r with
                        | Ok h => count_one (VInt h) d
                        | Raise _ => d
                        end) data [].

(** [sorted(hours.items(), key=lambda x: x[1], reverse=True)] *)
Definition sort_by_count (l : list (value * Z)) : list (value * Z) :=
  stable_sort (fun x y => snd y <=? snd x) l.

(** [max(methods, key=methods.get)] *)
Fixpoint max_count (best : value * Z) (l : list (value * Z)) : value * Z :=
  match l with
  | [] => best
  | x :: l' => max_count (if snd best <? snd x then x else best) l'
  end.

(** The analysis of a non-empty history.  The sums and the divisions are
    made in the order of the source: the two sums, the average of tab
    switches, then the minutes of the report. *)
Definition analyze (uid : string) (data : list (gmap string value)) : result report :=
  let total := Z.of_nat (length data) in
  let completed_count :=
    Z.of_nat (length (List.filter (fun d => truthy (get d "completed" VNone)) data)) in
  let* total_duration :=
    sum_values (map (fun d => get d "duration_seconds" (VInt 0)) data) in
  let* tab_switches :=
    sum_values (map (fun d => get d "tab_switch_count" (VInt 0)) data) in
  let* avg := div_int tab_switches total in
  let methods := count_methods data in
  let peak_hours := firstn 3 (sort_by_count (count_hours data)) in
  let* study_minutes := div_int total_duration 60 in
  let* session_seconds := div_int total_duration total in
  Ok {| user_id := uid;
        total_sessions := total;
        completed_sessions := completed_count;
        completion_rate := (inject_Z completed_count / inject_Z total)%Q;
        total_study_time_minutes := study_minutes;
        avg_session_minutes := (session_seconds / 60)%Q;
        avg_tab_switches := avg;
        method_distribution := methods;
        preferred_method :=
          match methods with
          | [] => VStr "none"
          | x :: l => fst (max_count x l)
          end;
        peak_study_hours := map fst peak_hours;
        focus_score := pmax 0 (100 - avg * 10)%Q |}.

(** [connected] tells whether a datastore client exists and [query] is the
    outcome of the session query. *)
Definition analyze_user_behavior (connected : bool) (uid : string)
    (query : result (list (gmap string value))) : analysis :=
  if negb connected then Unavailable
  else
    match query with
    | Raise e => Error uid e
    | Ok [] => NoStudyData uid
    | Ok data =>
        match analyze uid data with
        | Ok r => Report r
        | Raise e => Error uid e
        end
    end.

End Behavior.

(** *** [_fetch_performance_data] *)

(** The scores of the quiz submissions, by user. *)
Definition quiz_scores (quizzes : list (gmap string value))
  : list (value * list value) :=
  fold_left (fun d quiz =>
               let uid := get quiz "user_id" VNone in
               dict_set uid (default [] (dict_get uid d) ++ [get quiz "score" (VInt 0)]) d)
            quizzes [].

(** The second loop: a session of a user with quiz submissions gets the
    average of that user's scores under [avg_quiz_score]. *)
Definition with_quiz_average (scores : list (value * list value))
    (record : gmap string value) : result (gmap string value) :=
  let uid := get record "user_id" VNone in
  match dict_get uid scores with
  | Some l =>
      let* total := sum_values l in
      let* average := div_int total (Z.of_nat (length l)) in
      Ok (<[ "avg_quiz_score" := VFloat average ]> record)
  | None => Ok record
  end.

(** [sessions] and [quizzes] are the rows of the two queries. *)
Definition _fetch_performance_data (sessions quizzes : list (gmap string value))
  : result (list (gmap string value)) :=
  mapM (with_quiz_average (quiz_scores quizzes)) sessions.

End DataService.

(** ** Sample inputs *)

Module Samples.

Definition record_of (l : list (string * value)) : gmap string value := list_to_map l.

(** A weekday reader that answers Thursday for every date. *)
Definition thursday (s : string) : result Z := Ok 3.


Definition snake_record : gmap string value :=
  record_of [ ("method_used", VStr "blitz"); ("duration_seconds", VInt 3000);
              ("tab_switch_count", VInt 7) ].

Definition unknown_method_record : gmap string value :=
  record_of [ ("method_used", VStr "deep_work"); ("duration_seconds", VInt 1800);
              ("tab_switch_count", VInt 2); ("completed", VBool true);
              ("started_at", VStr "2024-03-05T09:30:00") ].

Definition short_timestamp_record : gmap string value :=
  record_of [ ("started_at", VStr "2024-03-05T09") ].

Definition session (user course : string) (done : bool) : gmap string value :=
  record_of [ ("user_id", VStr user); ("course_id", VStr course);
              ("completed", VBool done) ].

Definition session_at (hh : string) (done : bool) : gmap string value :=
  record_of [ ("started_at", VStr ("2024-03-05T" ++ hh ++ ":30:00")%string);
              ("completed", VBool done) ].

Definition learner : RecommendationModel.user_data :=
  {| RecommendationModel.fields := record_of [ ("id", VStr "ana") ];
     RecommendationModel.preferences_entry :=
       RecommendationModel.Present
         {| RecommendationModel.pref_fields :=
              record_of [ ("skill_level", VStr "advanced") ];
            RecommendationModel.interests :=
              RecommendationModel.Present [ VStr "Math" ] |} |}.

Definition geometry : gmap string value :=
  record_of [ ("id", VStr "geometry"); ("category", VStr "MATH");
              ("difficulty", VStr "advanced") ].

Definition enrolments : list (gmap string value) :=
  [ session "ana" "algebra" false; session "ana" "algebra" true;
    session "bo" "algebra" false; session "bo" "geometry" true ].

(** Two quiz submissions of one user, and the enrolments as
    [_fetch_performance_data] returns them with these submissions: the
    records of that user carry the average of the two scores. *)
Definition quiz_rows : list (gmap string value) :=
  [ record_of [ ("user_id", VStr "ana"); ("score", VInt 80) ];
    record_of [ ("user_id", VStr "ana"); ("score", VInt 90) ] ].

Definition with_average (r : gmap string value) : gmap string value :=
  <[ "avg_quiz_score" := VFloat (inject_Z 170 / inject_Z 2) ]> r.

Definition scored_enrolments : list (gmap string value) :=
  [ with_average (session "ana" "algebra" false);
    with_average (session "ana" "algebra" true);
    session "bo" "algebra" false; session "bo" "geometry" true ].

(** Seven hours with three sessions each. *)
Definition busy_history : list (gmap string value) :=
  flat_map (fun hh => [ session_at hh true; session_at hh false; session_at hh true ])
           [ "07"; "08"; "09"; "10"; "11"; "12"; "13" ].


(** A learner who completed algebra, and a catalogue of three courses, two
    of which score the same. *)
Definition applicant : RecommendationModel.request_user :=
  {| RecommendationModel.description := learner;
     RecommendationModel.completed_courses :=
       RecommendationModel.Present [ VStr "algebra" ];
     RecommendationModel.enrolled_courses := RecommendationModel.Absent |}.

Definition catalogue : list (gmap string value) :=
  [ record_of [ ("id", VStr "logic"); ("category", VStr "philosophy") ];
    record_of [ ("id", VStr "algebra"); ("category", VStr "math") ];
    record_of [ ("id", VStr "geometry"); ("category", VStr "math");
                ("difficulty", VStr "advanced") ];
    record_of [ ("id", VStr "rhetoric"); ("category", VStr "philosophy") ] ].

(** A numerical library that refuses every array of objects. *)
Definition refusing : object_arrays :=
  {| mean_of_objects := fun _ => Raise OverflowError;
     std_of_objects := fun _ => Raise TypeError |}.

(** Regressors whose raw outputs fall outside the valid ranges. *)
Definition wild_artifact : PerformanceModel.artifact :=
  {| PerformanceModel.completion_model := fun _ => (3 # 2)%Q;
     PerformanceModel.score_model := fun _ => (- (20))%Q;
     PerformanceModel.scaler := fun row => row |}.

(** A fitting routine standing for the numerical library. *)
Definition sample_fit (X : list (list Q)) (y_completion y_score : list Q)
  : PerformanceModel.artifact * list (string * Q) :=
  (wild_artifact, [ ("accuracy", (1 # 2)%Q) ]).

(** A data service with 60 records and a model whose training fails. *)
Definition sixty_records (model_type : string) (user_id : option string)
  : list (gmap string value) :=
  repeat snake_record 60.

Definition failing_train (model_type : string) (data : list (gmap string value))
  : result (list (string * Q)) :=
  Raise ValueError.

Definition history : list (gmap string value) :=
  [ session_at "09" true; session_at "09" true; session_at "09" false;
    session_at "08" true; session_at "08" true; session_at "08" true;
    session_at "10" false; record_of [ ("started_at", VNone) ] ].

End Samples.

(** ** Vocabulary of the stated properties *)

Module Spec.

(** The snake_case keys the scheduling builder reads. *)
Definition scheduling_keys : list string :=
  [ "started_at"; "method_used"; "duration_seconds"; "tab_switch_count"; "completed" ].


(** The order low < medium < high on risk levels. *)
Definition tier (level : string) : Z :=
  if String.eqb level "high" then 2
  else if String.eqb level "medium" then 1
  else 0.

(** The accumulation rule in words: +2 if completion < 0.5 else +1 if
    < 0.7; +2 if score < 60 else +1 if < 75; +1 if the mean number of tab
    switches exceeds 5; a total of 4 or more is high, 2 or more medium,
    anything else low. *)
Definition completion_points (c : Q) : Z :=
  if Qlt_le_dec c (1 # 2) then 2 else if Qlt_le_dec c (7 # 10) then 1 else 0.

Definition score_points (q : Q) : Z :=
  if Qlt_le_dec q 60 then 2 else if Qlt_le_dec q 75 then 1 else 0.

Definition switch_points (avg : option Q) : Z :=
  match avg with
  | Some a => if Qlt_le_dec 5 a then 1 else 0
  | None => 0
  end.

Definition level_of_points (p : Z) : string :=
  if Z_le_dec 4 p then "high" else if Z_le_dec 2 p then "medium" else "low".

Definition risk_rule (c q : Q) (avg : option Q) : string :=
  level_of_points (completion_points c + score_points q + switch_points avg).

(** The score stored for a (user, course) pair in the user-profile lookup. *)
Definition stored (u c : value) (profiles : list (value * list (value * Q))) : option Q :=
  match dict_get u profiles with
  | Some row => dict_get c row
  | None => None
  end.

(** The records that are observations of the pair (u, c): both identifiers
    are there and equal u and c. *)
Definition observes (u c : value) (r : gmap string value) : bool :=
  negb (RecommendationModel.lacks_ids r)
  && py_eqb (RecommendationModel.user_id_of r) u
  && py_eqb (RecommendationModel.course_id_of r) c.

Definition observations (u c : value) (data : list (gmap string value))
  : list (gmap string value) :=
  List.filter (observes u c) data.

Definition observed_completed (r : gmap string value) : bool :=
  truthy (get r "completed" (VBool false)).

(** The inputs of the scorer have the shape the datastore declares: the
    preferences are a dictionary or missing, the interests a list of text or
    missing, and the course category text or missing. *)
Definition is_text (v : value) : bool :=
  match v with
  | VStr _ => true
  | _ => false
  end.

Definition text_fields (u : RecommendationModel.user_data)
    (course : gmap string value) : bool :=
  match RecommendationModel.get_preferences u with
  | Ok prefs =>
      match RecommendationModel.get_interests prefs with
      | Ok user_interests =>
          is_text (get course "category" (VStr "")) && forallb is_text user_interests
      | Raise _ => false
      end
  | Raise _ => false
  end.

(** What training guarantees about the two lookups: every stored score is
    1.0 or 0.5, and no course has more completions than interactions. *)
Definition scores_ok (profiles : list (value * list (value * Q))) : Prop :=
  Forall (fun e => Forall (fun e' => e' = 1%Q \/ e' = (1 # 2)%Q) (map snd (snd e)))
         profiles.

Definition stats_ok (courses : list (value * RecommendationModel.course_stats)) : Prop :=
  Forall (fun e => 0 <= RecommendationModel.completed (snd e)
                   <= RecommendationModel.total (snd e)) courses.

(** The history seen hour by hour: the sessions whose start hour reads as
    [h], those of them that were completed, and the completion rate. *)
Definition starts_at (h : Z) (r : gmap string value) : bool :=
  match SchedulingModel.session_hour r with
  | Ok h' => h =? h'
  | Raise _ => false
  end.

Definition sessions_at (h : Z) (data : list (gmap string value)) : Z :=
  Z.of_nat (length (List.filter (starts_at h) data)).

Definition completed_at (h : Z) (data : list (gmap string value)) : Z :=
  Z.of_nat (length (List.filter
                      (fun r => starts_at h r && SchedulingModel.is_completed r) data)).

Definition completion_rate_at (h : Z) (data : list (gmap string value)) : Q :=
  (inject_Z (completed_at h data) / inject_Z (sessions_at h data))%Q.

(** An hour qualifies with at least 3 sessions. *)
Definition qualifies (h : Z) (data : list (gmap string value)) : Prop :=
  3 <= sessions_at h data.

(** The same effect, folded over a list of records. *)
Definition stored_after (u c : value) (acc : option Q)
    (data : list (gmap string value)) : option Q :=
  fold_left (fun a r =>
               if observes u c r
               then Some (pmax (default 0%Q a) (RecommendationModel.interaction_score r))
               else a) data acc.

(** An entry of [hour_stats] after [n] more sessions, [m] of them
    completed. *)
Definition tally (entry : option (Z * Z)) (n m : Z) : option (Z * Z) :=
  if n =? 0 then entry
  else Some (match entry with
             | Some (t, c) => (t + n, c + m)
             | None => (n, m)
             end).

End Spec.

Import Spec.

(** ** Vocabulary of the further properties *)

Module Notions.

(** A number, as division accepts it: a bool, an int or a float. *)
Definition is_number (v : value) : bool :=
  match as_number v with
  | Some _ => true
  | None => false
  end.



(** A number the numerical library stores in a numeric array: a bool, a
    float or an int of the 64-bit range. *)
Definition plain (v : value) : bool := is_number v && negb (wide v).

(** A session whose duration and tab-switch count, as the behaviour
    analysis reads them, are numbers, and one where they are plain
    numbers. *)
Definition numeric_session (r : gmap string value) : bool :=
  is_number (get r "duration_seconds" (VInt 0))
  && is_number (get r "tab_switch_count" (VInt 0)).

Definition plain_session (r : gmap string value) : bool :=
  plain (get r "duration_seconds" (VInt 0))
  && plain (get r "tab_switch_count" (VInt 0)).

(** A running total of [sum] after [k] plain numbers: an int total is at
    most [k] times the largest 64-bit magnitude. *)
Definition within (k : Z) (t : number) : Prop :=
  match t with
  | NInt a => Z.abs a <= k * 2 ^ 63
  | NFloat _ => True
  end.



(** The records that are observations of a course: both identifiers are
    there and the course identifier equals [c]. *)
Definition course_observes (c : value) (r : gmap string value) : bool :=
  negb (RecommendationModel.lacks_ids r)
  && py_eqb (RecommendationModel.course_id_of r) c.

Definition course_total (c : value) (data : list (gmap string value)) : Z :=
  Z.of_nat (length (List.filter (course_observes c) data)).

Definition course_completed (c : value) (data : list (gmap string value)) : Z :=
  Z.of_nat (length (List.filter
                      (fun r => course_observes c r && observed_completed r) data)).

(** A course entry after [n] more interactions, [m] of them completed. *)
Definition course_tally (entry : option RecommendationModel.course_stats) (n m : Z)
  : option RecommendationModel.course_stats :=
  if n =? 0 then entry
  else
    let old := default {| RecommendationModel.total := 0;
                          RecommendationModel.completed := 0 |} entry in
    Some {| RecommendationModel.total := RecommendationModel.total old + n;
            RecommendationModel.completed := RecommendationModel.completed old + m |}.

(** The records of one user, as the performance builder groups them: the
    identifier is there and equals [u]. *)
Definition of_user (u : value) (r : gmap string value) : bool :=
  truthy (PerformanceModel.user_id_of r) && py_eqb (PerformanceModel.user_id_of r) u.

(** What the builder keeps of a list of records. *)
Definition stats_of (records : list (gmap string value)) : PerformanceModel.stats :=
  {| PerformanceModel.sessions := records;
     PerformanceModel.durations := map PerformanceModel.duration_of records;
     PerformanceModel.tab_switches := map PerformanceModel.tab_switches_of records;
     PerformanceModel.completed := map PerformanceModel.completed_of records;
     PerformanceModel.methods := map PerformanceModel.method_of records;
     PerformanceModel.hours := map PerformanceModel.hour_of records |}.

(** One more record appended to a user's entry. *)
Definition extend (st : PerformanceModel.stats) (r : gmap string value)
  : PerformanceModel.stats :=
  {| PerformanceModel.sessions := PerformanceModel.sessions st ++ [r];
     PerformanceModel.durations :=
       PerformanceModel.durations st ++ [PerformanceModel.duration_of r];
     PerformanceModel.tab_switches :=
       PerformanceModel.tab_switches st ++ [PerformanceModel.tab_switches_of r];
     PerformanceModel.completed :=
       PerformanceModel.completed st ++ [PerformanceModel.completed_of r];
     PerformanceModel.methods :=
       PerformanceModel.methods st ++ [PerformanceModel.method_of r];
     PerformanceModel.hours :=
       PerformanceModel.hours st ++ [PerformanceModel.hour_of r] |}.

(** The users the builder keeps: those with at least 3 sessions. *)
Definition kept_users (user_stats : list (value * PerformanceModel.stats))
  : list (value * PerformanceModel.stats) :=
  List.filter (fun e => 3 <=? Z.of_nat (length (PerformanceModel.sessions (snd e))))
              user_stats.

(** The number of sessions held by a table of user entries. *)
Definition session_count (user_stats : list (value * PerformanceModel.stats)) : nat :=
  fold_right (fun e n => (length (PerformanceModel.sessions (snd e)) + n)%nat)
             0%nat user_stats.

(** The sum of the counts of a distribution. *)
Definition total_count (d : list (value * Z)) : Z :=
  fold_right Z.add 0 (map snd d).

(** A dictionary key that is an integer between -9 and 99. *)
Definition two_character_hour (k : value) : Prop :=
  exists h, k = VInt h /\ -9 <= h <= 99.

(** The sessions of [data] whose method equals [m] ("unknown" when the
    record has none), and those whose timestamp reads as hour [h]. *)
Definition sessions_with_method (m : value) (data : list (gmap string value)) : Z :=
  Z.of_nat (length (List.filter
                      (fun r => py_eqb (get r "method_used" (VStr "unknown")) m)
                      data)).

Definition sessions_read_at (h : Z) (data : list (gmap string value)) : Z :=
  Z.of_nat (length (List.filter
                      (fun r => match DataService.Behavior.read_hour r with
                                | Ok h' => h' =? h
                                | Raise _ => false
                                end)
                      data)).

(** Counting records under an optional key. *)
Definition tally_step {A : Type} (key : A -> option value)
    (d : list (value * Z)) (r : A) : list (value * Z) :=
  match key r with
  | Some k => DataService.Behavior.count_one k d
  | None => d
  end.

Definition matches {A : Type} (key : A -> option value) (k : value) (r : A) : bool :=
  match key r with
  | Some k' => py_eqb k' k
  | None => false
  end.

(** Two entries of [user_stats] that differ at most in the records kept
    under [sessions], of which they hold the same number. *)
Definition same_figures (st st' : PerformanceModel.stats) : Prop :=
  length (PerformanceModel.sessions st) = length (PerformanceModel.sessions st')
  /\ PerformanceModel.durations st = PerformanceModel.durations st'
  /\ PerformanceModel.tab_switches st = PerformanceModel.tab_switches st'
  /\ PerformanceModel.completed st = PerformanceModel.completed st'
  /\ PerformanceModel.methods st = PerformanceModel.methods st'
  /\ PerformanceModel.hours st = PerformanceModel.hours st'.

Definition same_entries (d d' : list (value * PerformanceModel.stats)) : Prop :=
  Forall2 (fun e e' => fst e = fst e' /\ same_figures (snd e) (snd e')) d d'.

(** No two keys of the dictionary are equal. *)
Definition distinct_keys {V : Type} (d : list (value * V)) : Prop :=
  StronglySorted (fun a b => py_eqb (fst a) (fst b) = false) d.

End Notions.

Import Notions.

(** ** Properties of the scheduling feature builder *)

Import SchedulingModel.

(** [int] on two-character slices and beyond. *)
Example int_examples :
  int "09" = Ok 9 /\ int " 7" = Ok 7 /\ int "-3" = Ok (-3) /\
  int "1_0" = Ok 10 /\ int "T1" = Raise ValueError /\ int "" = Raise ValueError /\
  int "3_" = Raise ValueError /\ int "+ " = Raise ValueError.
Proof. repeat split; reflexivity. Qed.

(** Equality of Python values is an equivalence. *)
Lemma py_eqb_refl (v : value) : py_eqb v v = true.
Proof.
  destruct v as [ | b | n | x | s ]; cbn;
    try reflexivity; try apply Qeq_bool_refl.
  apply String.eqb_refl.
Qed.

Lemma py_eqb_sym (v w : value) : py_eqb v w = py_eqb w v.
Proof.
  destruct v, w; cbn; try reflexivity; try apply Qeq_bool_comm.
  apply String.eqb_sym.
Qed.

Lemma py_eqb_trans (u v w : value) :
  py_eqb u v = true -> py_eqb v w = true -> py_eqb u w = true.
Proof.
  destruct u, v, w; cbn; try discriminate; try reflexivity;
    try apply Qeq_bool_trans.
  rewrite !String.eqb_eq. congruence.
Qed.

Lemma get_present (r : gmap string value) k d v :
  r !! k = Some v -> get r k d = v.
Proof. intros H. unfold get. now rewrite H. Qed.

Lemma get_absent (r : gmap string value) k d :
  r !! k = None -> get r k d = d.
Proof. intros H. unfold get. now rewrite H. Qed.

Lemma get_insert_other (r : gmap string value) k k' d v :
  k <> k' -> get (<[k := v]> r) k' d = get r k' d.
Proof. intros H. unfold get. now rewrite lookup_insert_ne. Qed.

(** C10. The label encoder fitted on the four methods at construction is a
    bijection between the methods and the labels 0..3: decoding the label of
    a method gives the method back, and encoding the method a label decodes
    to gives the label back. *)
Theorem label_encoder_round_trip (m : string) (y : Z) :
  In m METHODS -> 0 <= y < 4 ->
  (let* ys := transform (label_encoder __init__) [m] in
   inverse_transform (label_encoder __init__) ys) = Ok [m]
  /\ (let* ms := inverse_transform (label_encoder __init__) [y] in
      transform (label_encoder __init__) ms) = Ok [y].
Proof.
  intros Hm Hy. split.
  - simpl in Hm. destruct Hm as [<- | [<- | [<- | [<- | []]]]]; reflexivity.
  - assert (y = 0 \/ y = 1 \/ y = 2 \/ y = 3) as [-> | [-> | [-> | ->]]] by lia;
      reflexivity.
Qed.

Lemma label_encoder_round_trip_witness :
  (let* ys := transform (label_encoder __init__) ["blitz"] in
   inverse_transform (label_encoder __init__) ys) = Ok ["blitz"]
  /\ (let* ms := inverse_transform (label_encoder __init__) [2] in
      transform (label_encoder __init__) ms) = Ok [2].
Proof.
  apply (label_encoder_round_trip "blitz" 2).
  - simpl. tauto.
  - lia.
Defined.

(** Every label [prepare_labels] hands to the encoder is one of the four
    methods, so the encoding step cannot fail. *)
Lemma label_of_in_METHODS (record : gmap string value) :
  In (label_of record) METHODS.
Proof.
  unfold label_of.
  destruct (get record "method_used" (VStr "pomodoro")) as [ | b | n | x | s ];
    try (simpl; tauto).
  destruct (in_METHODS (VStr s)) eqn:E; simpl; [ | tauto ].
  unfold in_METHODS in E. cbn [existsb METHODS py_eqb] in E.
  rewrite !orb_true_iff, !String.eqb_eq in E.
  intuition discriminate.
Qed.

Lemma prepare_labels_total (data : list (gmap string value)) :
  exists ys, prepare_labels __init__ data = Ok ys /\ length ys = length data.
Proof.
  unfold prepare_labels, transform.
  induction data as [ | r data [ys [IH Hlen]] ].
  - now exists [].
  - cbn [map mapM]. rewrite IH.
    pose proof (label_of_in_METHODS r) as Hin. simpl in Hin.
    destruct Hin as [<- | [<- | [<- | [<- | []]]]];
      eexists; (split; [ reflexivity | simpl; now rewrite Hlen ]).
Qed.

(** C8. A record without a [started_at] entry gets hour 12 and weekday 0;
    a record whose [started_at] is a string of fewer than 14 characters gets
    hour 12.  The first two entries of the feature row are these two values
    divided by 24 and by 7. *)
Theorem missing_or_short_timestamp_defaults
    (iso_weekday : string -> result Z) (record : gmap string value) :
  (record !! "started_at" = None ->
   derive_hour (get record "started_at" (VStr "")) = 12
   /\ derive_day_of_week iso_weekday (get record "started_at" (VStr "")) = 0
   /\ forall row, feature_row iso_weekday record = Ok row ->
        firstn 2 row = [ (12 / 24)%Q; (0 / 7)%Q ])
  /\ (forall s, record !! "started_at" = Some (VStr s) ->
        (String.length s < 14)%nat ->
        derive_hour (get record "started_at" (VStr "")) = 12
        /\ forall row, feature_row iso_weekday record = Ok row ->
             firstn 1 row = [ (12 / 24)%Q ]).
Proof.
  split.
  - intros Hnone. rewrite (get_absent _ _ _ Hnone).
    split; [ reflexivity | split; [ reflexivity | ] ].
    intros row. unfold feature_row. rewrite (get_absent _ _ _ Hnone).
    destruct (METHODS_index _); [ | discriminate ].
    destruct (truediv _ 7200); [ | discriminate ].
    destruct (truediv _ 20); [ | discriminate ].
    cbn. now intros [= <-].
  - intros s Hs Hlen. rewrite (get_present _ _ _ _ Hs).
    assert (Hhour : derive_hour (VStr s) = 12).
    { unfold derive_hour. destruct (negb (String.eqb s "")); [ | reflexivity ].
      destruct (Z.ltb_spec 13 (Z.of_nat (String.length s))); [ lia | reflexivity ]. }
    split; [ exact Hhour | ].
    intros row. unfold feature_row. rewrite (get_present _ _ _ _ Hs), Hhour.
    destruct (METHODS_index _); [ | discriminate ].
    destruct (truediv _ 7200); [ | discriminate ].
    destruct (truediv _ 20); [ | discriminate ].
    cbn. now intros [= <-].
Qed.

Lemma missing_or_short_timestamp_defaults_witness :
  (derive_hour (get ∅ "started_at" (VStr "")) = 12
   /\ derive_day_of_week Samples.thursday (get ∅ "started_at" (VStr "")) = 0)
  /\ derive_hour
       (get Samples.short_timestamp_record "started_at" (VStr "")) = 12.
Proof.
  split.
  - pose proof (proj1 (missing_or_short_timestamp_defaults Samples.thursday ∅)
                      eq_refl) as H.
    split; [ apply H | apply H ].
  - apply (proj2 (missing_or_short_timestamp_defaults
                    Samples.thursday Samples.short_timestamp_record)
                 "2024-03-05T09").
    + reflexivity.
    + simpl. lia.
Defined.

(** C4. On a record whose [method_used] is a string outside the four
    methods, label extraction resolves the method to "pomodoro" (label 3)
    but feature extraction raises [ValueError] from [METHODS.index]: the
    guard of [prepare_labels] is missing from [prepare_features]. *)
Theorem unknown_method_raises_in_features :
  prepare_features Samples.thursday [Samples.unknown_method_record]
    = Raise ValueError
  /\ prepare_labels __init__ [Samples.unknown_method_record] = Ok [3]
  /\ label_of Samples.unknown_method_record = "pomodoro".
Proof. repeat split; reflexivity. Qed.


(** Whatever a record carries under the camelCase names leaves the
    scheduling row unchanged. *)
Lemma feature_row_ignores_camel_case
    (iso_weekday : string -> result Z) (r : gmap string value) (k : string) (v : value) :
  In k ["method"; "duration"; "tabSwitchCount"] ->
  feature_row iso_weekday (<[k := v]> r) = feature_row iso_weekday r.
Proof.
  intros Hk. unfold feature_row.
  assert (H : forall k' d, In k' scheduling_keys ->
                           get (<[k := v]> r) k' d = get r k' d).
  { intros k' d Hk'. apply get_insert_other.
    simpl in Hk, Hk'.
    destruct Hk as [<- | [<- | [<- | []]]];
      destruct Hk' as [<- | [<- | [<- | [<- | [<- | []]]]]]; discriminate. }
  rewrite !H; [ reflexivity | | | | | ]; simpl; tauto.
Qed.

Example feature_row_of_a_full_record :
  feature_row Samples.thursday
    (Samples.record_of
       [ ("method_used", VStr "blitz"); ("duration_seconds", VInt 3600);
         ("tab_switch_count", VInt 5); ("completed", VBool true);
         ("started_at", VStr "2024-03-07T18:45:00Z") ])
  = Ok [ (18 / 24)%Q; (3 / 7)%Q; (2 / 4)%Q; (3600 / 7200)%Q; (5 / 20)%Q; 1%Q ].
Proof. reflexivity. Qed.




(** ** Properties of the performance model *)

Lemma lt_true (x c : Q) : (x < c)%Q -> PerformanceModel.lt x c = true.
Proof.
  intros H. unfold PerformanceModel.lt.
  destruct (Qle_bool c x) eqn:E; [ | reflexivity ].
  apply Qle_bool_iff in E. lra.
Qed.

Lemma lt_false (x c : Q) : (c <= x)%Q -> PerformanceModel.lt x c = false.
Proof.
  intros H. unfold PerformanceModel.lt.
  apply Qle_bool_iff in H. now rewrite H.
Qed.

Lemma gt_nan_points (avg : option Q) :
  (if gt_nan avg 5 then 1 else 0) = switch_points avg.
Proof.
  destruct avg as [a | ]; [ | reflexivity ].
  unfold gt_nan, switch_points.
  destruct (Qlt_le_dec 5 a) as [H | H].
  - destruct (Qle_bool a 5) eqn:E; [ | reflexivity ].
    apply Qle_bool_iff in E. lra.
  - apply Qle_bool_iff in H. now rewrite H.
Qed.

(** [_calculate_risk_level] computes the accumulation rule on the mean of
    the tab-switch list, and fails only when that mean cannot be taken. *)
Lemma risk_level_follows_rule (objects : object_arrays) (c q : Q) (t : list value) :
  PerformanceModel._calculate_risk_level objects c q t
  = (let* avg := mean_values objects t in Ok (risk_rule c q avg)).
Proof.
  unfold PerformanceModel._calculate_risk_level, risk_rule.
  destruct (mean_values objects t) as [avg | e]; [ | reflexivity ].
  cbn [bind]. f_equal.
  pose proof (gt_nan_points avg) as Hs.
  unfold completion_points, score_points.
  destruct (Qlt_le_dec c (1 # 2)) as [Hc1 | Hc1];
    [ rewrite (lt_true _ _ Hc1) | rewrite (lt_false _ _ Hc1) ];
    (destruct (Qlt_le_dec c (7 # 10)) as [Hc2 | Hc2];
     [ try rewrite (lt_true _ _ Hc2) | try rewrite (lt_false _ _ Hc2) ]);
    (destruct (Qlt_le_dec q 60) as [Hq1 | Hq1];
     [ rewrite (lt_true _ _ Hq1) | rewrite (lt_false _ _ Hq1) ]);
    (destruct (Qlt_le_dec q 75) as [Hq2 | Hq2];
     [ try rewrite (lt_true _ _ Hq2) | try rewrite (lt_false _ _ Hq2) ]);
    destruct (gt_nan avg 5); rewrite <- Hs; reflexivity.
Qed.

Lemma risk_rule_antitone (c1 c2 q1 q2 : Q) (avg : option Q) :
  (c2 <= c1)%Q -> (q2 <= q1)%Q ->
  tier (risk_rule c1 q1 avg) <= tier (risk_rule c2 q2 avg).
Proof.
  intros Hc Hq. unfold risk_rule.
  assert (Hcp : completion_points c1 <= completion_points c2).
  { unfold completion_points.
    repeat match goal with
           | |- context [ Qlt_le_dec ?a ?b ] => destruct (Qlt_le_dec a b)
           end; try lia; lra. }
  assert (Hqp : score_points q1 <= score_points q2).
  { unfold score_points.
    repeat match goal with
           | |- context [ Qlt_le_dec ?a ?b ] => destruct (Qlt_le_dec a b)
           end; try lia; lra. }
  generalize dependent (completion_points c1).
  generalize dependent (completion_points c2).
  generalize dependent (score_points q1).
  generalize dependent (score_points q2).
  intros. unfold level_of_points.
  repeat match goal with
         | |- context [ Z_le_dec ?a ?b ] => destruct (Z_le_dec a b)
         end; cbn; lia.
Qed.

(** C6. With the tab-switch list held fixed, lowering the completion rate
    and the quiz score (or leaving them equal) never lowers the risk level
    in the order low < medium < high; the level is the one the accumulation
    rule gives on the mean of the tab switches, and the function fails, the
    same way for both inputs, only when that mean cannot be taken. *)
Theorem risk_level_monotone (objects : object_arrays)
    (c1 c2 q1 q2 : Q) (t : list value) :
  (c2 <= c1)%Q -> (q2 <= q1)%Q ->
  match PerformanceModel._calculate_risk_level objects c1 q1 t,
        PerformanceModel._calculate_risk_level objects c2 q2 t with
  | Ok l1, Ok l2 =>
      tier l1 <= tier l2
      /\ exists avg, mean_values objects t = Ok avg
                     /\ l1 = risk_rule c1 q1 avg /\ l2 = risk_rule c2 q2 avg
  | Raise e1, Raise e2 => mean_values objects t = Raise e1 /\ e1 = e2
  | _, _ => False
  end.
Proof.
  intros Hc Hq. rewrite !risk_level_follows_rule.
  destruct (mean_values objects t) as [avg | e]; cbn [bind].
  - split; [ now apply risk_rule_antitone | eauto ].
  - split; reflexivity.
Qed.

Lemma risk_level_monotone_witness :
  PerformanceModel._calculate_risk_level Samples.refusing (8 # 10) 80 [VInt 6; VInt 7]
    = Ok "low"
  /\ PerformanceModel._calculate_risk_level Samples.refusing (6 # 10) 50 [VInt 6; VInt 7]
    = Ok "high"
  /\ tier "low" <= tier "high".
Proof.
  assert (H1 : ((6 # 10) <= (8 # 10))%Q) by (unfold Qle; simpl; lia).
  assert (H2 : (50 <= 80)%Q) by (unfold Qle; simpl; lia).
  pose proof (risk_level_monotone Samples.refusing (8 # 10) (6 # 10) 80 50
                [VInt 6; VInt 7] H1 H2) as H.
  split; [ reflexivity | split; [ reflexivity | ] ].
  exact (proj1 H).
Defined.

(** Reading a list of 64-bit integers cannot fail. *)
Lemma mean_values_numeric (objects : object_arrays) (t : list Z) :
  forallb in_int64 t = true ->
  mean_values objects (map VInt t) = Ok (mean (map inject_Z t)).
Proof.
  intros Ht. unfold mean_values.
  assert (Hw : existsb wide (map VInt t) = false).
  { induction t as [ | n t IH ]; [ reflexivity | ].
    cbn [forallb] in Ht. apply andb_prop in Ht. destruct Ht as [Hn Ht].
    cbn [map existsb wide]. rewrite Hn. cbn [negb orb]. now apply IH. }
  assert (H : numbers (map VInt t) = Ok (map inject_Z t)).
  { clear. unfold numbers. induction t as [ | n t IH ]; [ reflexivity | ].
    cbn [map mapM as_number bind]. now rewrite IH. }
  now rewrite Hw, H.
Qed.

(** On a list of 64-bit counts the risk level is always computed. *)
Lemma risk_level_total_on_counts (objects : object_arrays) (c q : Q) (t : list Z) :
  forallb in_int64 t = true ->
  PerformanceModel._calculate_risk_level objects c q (map VInt t)
  = Ok (risk_rule c q (mean (map inject_Z t))).
Proof. intros Ht. now rewrite risk_level_follows_rule, mean_values_numeric. Qed.

(** C2, as the code has it.  [predict] answers [_default_prediction]
    (completion 0.5, score 65.0, risk "medium" and four fixed
    recommendations) whenever the model is untrained and nothing can be
    loaded, and whenever the history is empty; the [predict_performance]
    route answers an empty history itself, with the same figures and the
    first three of those recommendations, and passes any other history to
    [predict]. *)
Theorem default_prediction_cases
    (np_std : list Q -> Q) (objects : object_arrays) (self : PerformanceModel.model)
    (disk : option PerformanceModel.artifact)
    (user_data : list (gmap string value)) :
  (PerformanceModel.is_trained self = false /\ disk = None) \/ user_data = [] ->
  fst (PerformanceModel.predict np_std objects self disk user_data)
    = Ok PerformanceModel._default_prediction
  /\ PerformanceModel.predicted_completion_rate PerformanceModel._default_prediction
     = (1 # 2)%Q
  /\ PerformanceModel.predicted_quiz_score PerformanceModel._default_prediction = 65%Q
  /\ PerformanceModel.risk_level PerformanceModel._default_prediction = "medium"
  /\ PerformanceModel.recommendations PerformanceModel._default_prediction
     = [ "Set a consistent study schedule";
         "Start with shorter study sessions";
         "Review material before quizzes";
         "Minimize distractions during study" ]
  /\ (user_data = [] ->
      Main.predict_performance np_std objects user_data disk
      = Ok {| PerformanceModel.predicted_completion_rate := (1 # 2)%Q;
              PerformanceModel.predicted_quiz_score := 65%Q;
              PerformanceModel.risk_level := "medium";
              PerformanceModel.recommendations :=
                firstn 3 (PerformanceModel.recommendations
                            PerformanceModel._default_prediction) |})
  /\ (user_data <> [] ->
      Main.predict_performance np_std objects user_data disk
      = Ok PerformanceModel._default_prediction).
Proof.
  intros H.
  assert (Hp : fst (PerformanceModel.predict np_std objects self disk user_data)
               = Ok PerformanceModel._default_prediction).
  { unfold PerformanceModel.predict.
    destruct H as [[Hu ->] | ->].
    - rewrite Hu. reflexivity.
    - destruct (PerformanceModel.is_trained self); [ reflexivity | ].
      destruct disk; reflexivity. }
  repeat (split; [ first [ exact Hp | reflexivity ] | ]). split.
  - intros ->. reflexivity.
  - intros Hne. destruct H as [[_ ->] | ->]; [ | contradiction ].
    unfold Main.predict_performance.
    destruct user_data; [ contradiction | reflexivity ].
Qed.

Lemma default_prediction_cases_witness :
  fst (PerformanceModel.predict (fun _ => 0%Q) Samples.refusing
                                PerformanceModel.__init__ None [Samples.snake_record])
    = Ok PerformanceModel._default_prediction
  /\ Main.predict_performance (fun _ => 0%Q) Samples.refusing
                               [Samples.snake_record] None
     = Ok PerformanceModel._default_prediction.
Proof.
  pose proof (default_prediction_cases (fun _ => 0%Q) Samples.refusing
                PerformanceModel.__init__
                None [Samples.snake_record] (or_introl (conj eq_refl eq_refl))) as H.
  destruct H as (Hp & _ & _ & _ & _ & _ & Hroute).
  split; [ exact Hp | ].
  apply Hroute. discriminate.
Defined.

(** C2 as stated fails: for an untrained model with nothing to load,
    [predict] returns four recommendation strings, not three. *)
Lemma default_prediction_has_four_recommendations :
  exists p,
    fst (PerformanceModel.predict (fun _ => 0%Q) Samples.refusing
                                  PerformanceModel.__init__ None
                                  [Samples.snake_record]) = Ok p
    /\ length (PerformanceModel.recommendations p) = 4%nat
    /\ length (PerformanceModel.recommendations p) <> 3%nat.
Proof.
  exists PerformanceModel._default_prediction.
  repeat split; try reflexivity. discriminate.
Qed.

(** ** Properties of the training route *)

(** C1.  For a request of a known model type, when fewer than 50 records
    were fetched [train_model] answers [success = false] with
    [training_samples] the number of records fetched and no metrics, having
    only fetched: no model was trained or saved and no metrics were queued;
    49 records give [training_samples = 49]; with 50 records or more the
    next call is the model's [train] on the fetched records, and when that
    returns the answer is [success = true]. *)
Theorem training_needs_fifty_records
    (fetch_training_data : string -> option string -> list (gmap string value))
    (model_train : string -> list (gmap string value) -> result (list (string * Q)))
    (now : string) (request : Main.TrainRequest) :
  Main.known_model_type (Main.model_type request) = true ->
  let data := fetch_training_data (Main.model_type request) (Main.user_id request) in
  let n := Z.of_nat (length data) in
  let fetched := Main.FetchTrainingData (Main.model_type request) (Main.user_id request) in
  let outcome := Main.train_model fetch_training_data model_train now request in
  (n < 50 ->
   exists response,
     outcome = (Ok response, [fetched])
     /\ Main.success response = false
     /\ Main.training_samples response = n
     /\ Main.metrics response = [])
  /\ (n = 49 ->
      exists response,
        outcome = (Ok response, [fetched])
        /\ Main.success response = false
        /\ Main.training_samples response = 49)
  /\ (50 <= n ->
      exists rest,
        snd outcome = fetched :: Main.ModelTrain (Main.model_type request) data :: rest
        /\ forall m, model_train (Main.model_type request) data = Ok m ->
             exists response,
               fst outcome = Ok response
               /\ Main.success response = true
               /\ Main.training_samples response = n
               /\ Main.metrics response = m).
Proof.
  intros Hknown data n fetched outcome.
  assert (Hlow : n < 50 ->
                 exists response,
                   outcome = (Ok response, [fetched])
                   /\ Main.success response = false
                   /\ Main.training_samples response = n
                   /\ Main.metrics response = []).
  { intros Hn. subst outcome.
    unfold Main.train_model, Main.train_model_body. rewrite Hknown. cbn [negb].
    fold data. fold n. destruct (Z.ltb_spec n 50); [ | lia ].
    eexists. split; [ reflexivity | ]. repeat split. }
  split; [ exact Hlow | split ].
  - intros Hn. destruct Hlow as [response (Ho & Hs & Ht & _)]; [ lia | ].
    exists response. repeat split; try assumption. now rewrite Ht.
  - intros Hn. subst outcome.
    unfold Main.train_model, Main.train_model_body. rewrite Hknown. cbn [negb].
    fold data. fold n. destruct (Z.ltb_spec n 50); [ lia | ].
    unfold Main.training_service_train. rewrite Hknown. cbn [negb].
    destruct (model_train (Main.model_type request) data) as [m | e].
    + eexists. split; [ reflexivity | ].
      intros m' [= <-]. eexists. split; [ reflexivity | ]. repeat split.
    + eexists. split; [ reflexivity | ]. discriminate.
Qed.

Lemma training_needs_fifty_records_witness :
  exists response,
    Main.train_model (fun _ _ => repeat Samples.snake_record 49)
                     (fun _ _ => Ok []) "2024-03-05T10:00:00"
                     {| Main.model_type := "scheduling"; Main.user_id := None;
                        Main.force_retrain := false |}
    = (Ok response, [Main.FetchTrainingData "scheduling" None])
    /\ Main.success response = false
    /\ Main.training_samples response = 49.
Proof.
  apply (training_needs_fifty_records
           (fun _ _ => repeat Samples.snake_record 49) (fun _ _ => Ok [])
           "2024-03-05T10:00:00"
           {| Main.model_type := "scheduling"; Main.user_id := None;
              Main.force_retrain := false |}).
  - reflexivity.
  - reflexivity.
Defined.

(** ** Properties of the recommendation model *)

Section DictFacts.
Context {V : Type}.
Implicit Types (d : list (value * V)) (k : value).

Lemma dict_get_proper k k' d :
  py_eqb k k' = true -> dict_get k d = dict_get k' d.
Proof.
  intros Hk. induction d as [ | [k0 v0] d IH ]; [ reflexivity | ].
  cbn [dict_get]. rewrite IH.
  destruct (py_eqb k0 k) eqn:E1, (py_eqb k0 k') eqn:E2; try reflexivity.
  - rewrite (py_eqb_trans _ _ _ E1 Hk) in E2. discriminate.
  - rewrite py_eqb_sym in Hk. rewrite (py_eqb_trans _ _ _ E2 Hk) in E1. discriminate.
Qed.

Lemma dict_get_set k k' (v : V) d :
  dict_get k (dict_set k' v d)
  = if py_eqb k' k then Some v else dict_get k d.
Proof.
  induction d as [ | [k0 v0] d IH ]; cbn [dict_get dict_set].
  - destruct (py_eqb k' k); reflexivity.
  - destruct (py_eqb k0 k') eqn:E0; cbn [dict_get].
    + destruct (py_eqb k0 k) eqn:E1, (py_eqb k' k) eqn:E2; try reflexivity.
      * rewrite py_eqb_sym in E0. rewrite (py_eqb_trans _ _ _ E0 E1) in E2.
        discriminate.
      * rewrite (py_eqb_trans _ _ _ E0 E2) in E1. discriminate.
    + rewrite IH.
      destruct (py_eqb k0 k) eqn:E1, (py_eqb k' k) eqn:E2; try reflexivity.
      rewrite (py_eqb_sym k' k) in E2.
      rewrite (py_eqb_trans _ _ _ E1 E2) in E0. discriminate.
Qed.

Lemma dict_set_Forall (P : V -> Prop) k (v : V) d :
  Forall (fun e => P (snd e)) d -> P v ->
  Forall (fun e => P (snd e)) (dict_set k v d).
Proof.
  intros Hd Hv. induction Hd as [ | [k0 v0] d H0 Hd IH ]; cbn [dict_set].
  - constructor; [ exact Hv | constructor ].
  - destruct (py_eqb k0 k); constructor; auto.
Qed.

Lemma dict_get_Forall (P : V -> Prop) k (v : V) d :
  Forall (fun e => P (snd e)) d -> dict_get k d = Some v -> P v.
Proof.
  intros Hd. induction Hd as [ | [k0 v0] d H0 Hd IH ]; cbn [dict_get].
  - discriminate.
  - destruct (py_eqb k0 k); [ now intros [= <-] | exact IH ].
Qed.
End DictFacts.

(** What one iteration of [train] does to the score stored for (u, c). *)
Lemma stored_train_step (u c : value) ucm cc (r : gmap string value) :
  stored u c (fst (RecommendationModel.train_step (ucm, cc) r))
  = if observes u c r
    then Some (pmax (default 0%Q (stored u c ucm))
                    (RecommendationModel.interaction_score r))
    else stored u c ucm.
Proof.
  unfold RecommendationModel.train_step, observes.
  destruct (RecommendationModel.lacks_ids r); [ reflexivity | ].
  cbn [negb andb fst].
  set (uid := RecommendationModel.user_id_of r).
  set (cid := RecommendationModel.course_id_of r).
  set (ucm1 := if negb (dict_mem uid ucm) then dict_set uid [] ucm else ucm).
  assert (Hrow : forall k, dict_get k ucm1
                           = if py_eqb uid k
                             then Some (default [] (dict_get uid ucm))
                             else dict_get k ucm).
  { intros k. subst ucm1. unfold dict_mem.
    destruct (dict_get uid ucm) as [row | ] eqn:E; cbn [negb default].
    - destruct (py_eqb uid k) eqn:Ek; [ | reflexivity ].
      now rewrite <- (dict_get_proper _ _ _ Ek).
    - rewrite dict_get_set. reflexivity. }
  unfold stored. rewrite dict_get_set.
  destruct (py_eqb uid u) eqn:Eu; cbn [andb].
  - rewrite dict_get_set, (Hrow uid), py_eqb_refl. cbn [default].
    rewrite <- (dict_get_proper _ _ _ Eu).
    destruct (py_eqb cid c) eqn:Ec.
    + rewrite (dict_get_proper _ _ _ Ec).
      unfold RecommendationModel.interaction_score.
      destruct (dict_get uid ucm) as [row | ]; reflexivity.
    + destruct (dict_get uid ucm) as [row | ]; reflexivity.
  - rewrite (Hrow u), Eu. reflexivity.
Qed.

Lemma stored_fold (u c : value) (data : list (gmap string value)) st :
  stored u c (fst (fold_left RecommendationModel.train_step data st))
  = stored_after u c (stored u c (fst st)) data.
Proof.
  revert st. induction data as [ | r data IH ]; intros [ucm cc]; [ reflexivity | ].
  cbn [fold_left stored_after]. rewrite IH.
  unfold stored_after. f_equal. apply stored_train_step.
Qed.

Lemma stored_after_closed_form (u c : value) (data : list (gmap string value)) :
  stored_after u c None data
    = (match observations u c data with
       | [] => None
       | _ => Some (if existsb observed_completed (observations u c data)
                    then 1%Q else (1 # 2)%Q)
       end)
  /\ stored_after u c (Some (1 # 2)%Q) data
    = Some (if existsb observed_completed (observations u c data) then 1%Q else (1 # 2)%Q)
  /\ stored_after u c (Some 1%Q) data = Some 1%Q.
Proof.
  induction data as [ | r data (IH0 & IHh & IH1) ].
  - repeat split; reflexivity.
  - unfold observations in *. cbn [stored_after fold_left List.filter].
    fold (stored_after u c).
    destruct (observes u c r) eqn:Eo; [ | repeat split; assumption ].
    unfold RecommendationModel.interaction_score. cbn [existsb].
    unfold observed_completed at 1 3.
    destruct (truthy (get r "completed" (VBool false))); cbn [default orb].
    + change (pmax 0 1) with 1%Q. change (pmax (1 # 2) 1) with 1%Q.
      change (pmax 1 1) with 1%Q. repeat split; assumption.
    + change (pmax 0 (1 # 2)) with (1 # 2)%Q.
      change (pmax (1 # 2) (1 # 2)) with (1 # 2)%Q.
      change (pmax 1 (1 # 2)) with 1%Q. repeat split; assumption.
Qed.

Lemma train_profiles (self : RecommendationModel.model)
    (data : list (gmap string value)) :
  RecommendationModel.user_profiles (fst (RecommendationModel.train self data))
    = fst (fold_left RecommendationModel.train_step data ([], []))
  /\ RecommendationModel.course_profiles (fst (RecommendationModel.train self data))
    = snd (fold_left RecommendationModel.train_step data ([], [])).
Proof.
  unfold RecommendationModel.train.
  destruct (fold_left RecommendationModel.train_step data ([], [])) as [ucm cc].
  split; reflexivity.
Qed.

Lemma train_skips_records_lacking_ids (data : list (gmap string value)) st :
  fold_left RecommendationModel.train_step
            (List.filter (fun r => negb (RecommendationModel.lacks_ids r)) data) st
  = fold_left RecommendationModel.train_step data st.
Proof.
  revert st. induction data as [ | r data IH ]; intros st; [ reflexivity | ].
  cbn [List.filter fold_left].
  destruct (RecommendationModel.lacks_ids r) eqn:E; cbn [negb].
  - rewrite IH. f_equal. unfold RecommendationModel.train_step.
    destruct st as [ucm cc]. now rewrite E.
  - cbn [fold_left]. apply IH.
Qed.

(** C9.  After [train], the score stored for a pair (u, c) of the
    user-profile lookup is the maximum of the observation scores of that pair
    (1.0 for a completed observation, 0.5 otherwise): it bounds every
    observation's score and is the score of one of them; it is 1.0 exactly
    when some observation of the pair is completed and 0.5 otherwise; and
    dropping the records that lack a user or course identifier changes
    neither lookup. *)
Theorem trained_score_is_best_observation
    (self : RecommendationModel.model) (data : list (gmap string value))
    (u c : value) (s : Q) :
  stored u c (RecommendationModel.user_profiles
                (fst (RecommendationModel.train self data))) = Some s ->
  (forall r, In r (observations u c data) ->
             (RecommendationModel.interaction_score r <= s)%Q)
  /\ (exists r, In r (observations u c data)
                /\ RecommendationModel.interaction_score r = s)
  /\ s = (if existsb observed_completed (observations u c data) then 1%Q else (1 # 2)%Q)
  /\ (let kept := List.filter (fun r => negb (RecommendationModel.lacks_ids r)) data in
      RecommendationModel.user_profiles (fst (RecommendationModel.train self kept))
        = RecommendationModel.user_profiles (fst (RecommendationModel.train self data))
      /\ RecommendationModel.course_profiles (fst (RecommendationModel.train self kept))
        = RecommendationModel.course_profiles (fst (RecommendationModel.train self data))).
Proof.
  intros Hs.
  destruct (train_profiles self data) as [Hu Hc].
  rewrite Hu, stored_fold in Hs. cbn [fst stored dict_get] in Hs.
  rewrite (proj1 (stored_after_closed_form u c data)) in Hs.
  assert (Hscore : forall r, RecommendationModel.interaction_score r
                             = if observed_completed r then 1%Q else (1 # 2)%Q)
    by reflexivity.
  destruct (observations u c data) as [ | r0 obs ] eqn:Eobs; [ discriminate | ].
  remember (existsb observed_completed (r0 :: obs)) as anyc eqn:Ex. symmetry in Ex.
  injection Hs as <-.
  split; [ | split; [ | split ] ].
  - intros r Hr. rewrite Hscore.
    destruct anyc.
    + destruct (observed_completed r); lra.
    + destruct (observed_completed r) eqn:Er; [ | lra ].
      assert (existsb observed_completed (r0 :: obs) = true)
        by (apply existsb_exists; eauto).
      congruence.
  - destruct anyc.
    + apply existsb_exists in Ex as [r [Hr Hd]].
      exists r. split; [ exact Hr | ]. now rewrite Hscore, Hd.
    + exists r0. split; [ now left | ].
      cbn [existsb] in Ex. apply orb_false_iff in Ex as [Hd _].
      now rewrite Hscore, Hd.
  - reflexivity.
  - cbn zeta.
    destruct (train_profiles self
                (List.filter (fun r => negb (RecommendationModel.lacks_ids r)) data))
      as [Hu' Hc'].
    rewrite Hu, Hc, Hu', Hc', train_skips_records_lacking_ids. split; reflexivity.
Qed.

Lemma trained_score_is_best_observation_witness :
  (exists r,
      In r (observations (VStr "ana") (VStr "algebra")
              [ Samples.session "ana" "algebra" false;
                Samples.session "" "algebra" true;
                Samples.session "ana" "algebra" true;
                Samples.session "bo" "algebra" false ])
      /\ RecommendationModel.interaction_score r = 1%Q).
Proof.
  apply (trained_score_is_best_observation RecommendationModel.__init__
           [ Samples.session "ana" "algebra" false;
             Samples.session "" "algebra" true;
             Samples.session "ana" "algebra" true;
             Samples.session "bo" "algebra" false ]
           (VStr "ana") (VStr "algebra") 1%Q).
  reflexivity.
Defined.

Example train_on_sample_enrolments :
  RecommendationModel.user_profiles
    (fst (RecommendationModel.train RecommendationModel.__init__ Samples.enrolments))
  = [ (VStr "ana", [ (VStr "algebra", 1%Q) ]);
      (VStr "bo", [ (VStr "algebra", (1 # 2)%Q); (VStr "geometry", 1%Q) ]) ]
  /\ RecommendationModel.course_profiles
       (fst (RecommendationModel.train RecommendationModel.__init__ Samples.enrolments))
     = [ (VStr "algebra", {| RecommendationModel.total := 3;
                             RecommendationModel.completed := 1 |});
         (VStr "geometry", {| RecommendationModel.total := 1;
                              RecommendationModel.completed := 1 |}) ].
Proof. split; reflexivity. Qed.

(** A pair is in the lookup exactly when it has an observation. *)
Lemma trained_pair_present_iff_observed
    (self : RecommendationModel.model) (data : list (gmap string value))
    (u c : value) :
  stored u c (RecommendationModel.user_profiles
                (fst (RecommendationModel.train self data))) = None
  <-> observations u c data = [].
Proof.
  rewrite (proj1 (train_profiles self data)), stored_fold.
  cbn [fst stored dict_get].
  rewrite (proj1 (stored_after_closed_form u c data)).
  destruct (observations u c data); split; intros; congruence.
Qed.

(** *** Bounds on the recommendation score *)

Lemma train_step_keeps_invariants st (r : gmap string value) :
  scores_ok (fst st) /\ stats_ok (snd st) ->
  scores_ok (fst (RecommendationModel.train_step st r))
  /\ stats_ok (snd (RecommendationModel.train_step st r)).
Proof.
  destruct st as [ucm cc]. cbn [fst snd]. intros [Hu Hc].
  unfold RecommendationModel.train_step.
  destruct (RecommendationModel.lacks_ids r); [ now split | ].
  cbn [fst snd].
  set (uid := RecommendationModel.user_id_of r).
  set (cid := RecommendationModel.course_id_of r).
  set (P := fun row : list (value * Q) =>
              Forall (fun e' => e' = 1%Q \/ e' = (1 # 2)%Q) (map snd row)).
  assert (Hu' : Forall (fun e => P (snd e)) ucm) by exact Hu.
  set (ucm1 := if negb (dict_mem uid ucm) then dict_set uid [] ucm else ucm).
  assert (Hu1 : Forall (fun e => P (snd e)) ucm1).
  { subst ucm1. destruct (negb (dict_mem uid ucm)); [ | exact Hu' ].
    apply dict_set_Forall; [ exact Hu' | constructor ]. }
  assert (Hrow : P (default [] (dict_get uid ucm1))).
  { destruct (dict_get uid ucm1) as [row | ] eqn:E; cbn [default].
    - exact (dict_get_Forall P _ _ _ Hu1 E).
    - constructor. }
  set (row := default [] (dict_get uid ucm1)) in *.
  split.
  - unfold scores_ok. apply (dict_set_Forall P); [ exact Hu1 | ].
    unfold P in *. rewrite Forall_map in *.
    apply (dict_set_Forall (fun x => x = 1%Q \/ x = (1 # 2)%Q)); [ exact Hrow | ].
    destruct (dict_get cid row) as [x | ] eqn:E; cbn [default].
    + pose proof (dict_get_Forall (fun x => x = 1%Q \/ x = (1 # 2)%Q) _ _ _ Hrow E)
        as [-> | ->];
        destruct (truthy (get r "completed" (VBool false))); cbn; tauto.
    + destruct (truthy (get r "completed" (VBool false))); cbn; tauto.
  - set (Pc := fun st : RecommendationModel.course_stats =>
                 0 <= RecommendationModel.completed st <= RecommendationModel.total st).
    assert (Hc' : Forall (fun e => Pc (snd e)) cc) by exact Hc.
    set (cc1 := if negb (dict_mem cid cc)
                then dict_set cid {| RecommendationModel.total := 0;
                                     RecommendationModel.completed := 0 |} cc
                else cc).
    assert (Hc1 : Forall (fun e => Pc (snd e)) cc1).
    { subst cc1. destruct (negb (dict_mem cid cc)); [ | exact Hc' ].
      apply dict_set_Forall; [ exact Hc' | unfold Pc; cbn; lia ]. }
    unfold stats_ok. apply (dict_set_Forall Pc); [ exact Hc1 | ].
    assert (Hst : Pc (default {| RecommendationModel.total := 0;
                                 RecommendationModel.completed := 0 |}
                              (dict_get cid cc1))).
    { destruct (dict_get cid cc1) as [st | ] eqn:E; cbn [default].
      - exact (dict_get_Forall Pc _ _ _ Hc1 E).
      - unfold Pc; cbn; lia. }
    unfold Pc in *.
    destruct (truthy (get r "completed" (VBool false))); cbn; lia.
Qed.

Lemma train_invariants (self : RecommendationModel.model)
    (data : list (gmap string value)) :
  scores_ok (RecommendationModel.user_profiles (fst (RecommendationModel.train self data)))
  /\ stats_ok (RecommendationModel.course_profiles (fst (RecommendationModel.train self data))).
Proof.
  destruct (train_profiles self data) as [-> ->].
  assert (H : forall st, scores_ok (fst st) /\ stats_ok (snd st) ->
              scores_ok (fst (fold_left RecommendationModel.train_step data st))
              /\ stats_ok (snd (fold_left RecommendationModel.train_step data st))).
  { induction data as [ | r data IH ]; intros st Hst; [ exact Hst | ].
    cbn [fold_left]. apply IH. now apply train_step_keeps_invariants. }
  apply H. split; constructor.
Qed.

Lemma ratio_in_unit (a b : Z) :
  0 <= a <= b -> 0 < b -> (0 <= inject_Z a / inject_Z b <= 1)%Q.
Proof.
  intros Ha Hb.
  assert (Hb' : (0 < inject_Z b)%Q).
  { change 0%Q with (inject_Z 0). rewrite <- Zlt_Qlt. exact Hb. }
  split.
  - apply Qle_shift_div_l; [ exact Hb' | ].
    rewrite Qmult_0_l. change 0%Q with (inject_Z 0). rewrite <- Zle_Qle. lia.
  - apply Qle_shift_div_r; [ exact Hb' | ].
    rewrite Qmult_1_l. rewrite <- Zle_Qle. lia.
Qed.

Lemma popularity_bounds (course_id : value) courses :
  stats_ok courses ->
  (0 <= RecommendationModel.popularity_term course_id courses <= 3 # 10)%Q.
Proof.
  intros Hc. unfold RecommendationModel.popularity_term.
  destruct (dict_get course_id courses) as [st | ] eqn:E; [ | lra ].
  pose proof (dict_get_Forall
                (fun st => 0 <= RecommendationModel.completed st
                           <= RecommendationModel.total st) _ _ _ Hc E) as Hst.
  destruct (Z.ltb_spec 0 (RecommendationModel.total st)); [ | lra ].
  pose proof (ratio_in_unit _ _ Hst H) as Hr.
  unfold RecommendationModel.completion_rate.
  set (x := (inject_Z (RecommendationModel.completed st)
             / inject_Z (RecommendationModel.total st))%Q) in *.
  lra.
Qed.

Lemma level_match_bounds (user_level course_level : value) :
  (3 # 10 <= RecommendationModel.level_match_get user_level course_level <= 1)%Q.
Proof.
  unfold RecommendationModel.level_match_get.
  match goal with
  | |- context [ List.find ?f ?l ] => destruct (List.find f l) as [e | ] eqn:E
  end; [ | lra ].
  apply find_some in E as [Hin _].
  unfold RecommendationModel.level_match in Hin. simpl in Hin.
  repeat (destruct Hin as [<- | Hin]; [ cbn; lra | ]). contradiction.
Qed.

Lemma difficulty_bounds (u : RecommendationModel.user_data)
    (course : gmap string value) (d : Q) :
  RecommendationModel.difficulty_term u course = Ok d ->
  (0 <= d <= 2 # 10)%Q.
Proof.
  unfold RecommendationModel.difficulty_term.
  destruct (RecommendationModel.get_preferences u) as [prefs | ]; [ | discriminate ].
  cbn [bind]. intros [= <-].
  match goal with
  | |- context [ RecommendationModel.level_match_get ?a ?b ] =>
      pose proof (level_match_bounds a b);
      set (x := RecommendationModel.level_match_get a b) in *
  end.
  lra.
Qed.

Lemma category_bounds (u : RecommendationModel.user_data)
    (course : gmap string value) (bonus : Q) :
  RecommendationModel.category_term u course = Ok bonus ->
  bonus = 0%Q \/ bonus = (3 # 10)%Q.
Proof.
  unfold RecommendationModel.category_term.
  destruct (RecommendationModel.get_preferences u) as [prefs | ]; [ | discriminate ].
  cbn [bind].
  destruct (RecommendationModel.get_interests prefs) as [l | ]; [ | discriminate ].
  cbn [bind].
  destruct (RecommendationModel.str_lower _) as [c | ]; [ | discriminate ].
  cbn [bind]. destruct (mapM _ _) as [lowered | ]; [ | discriminate ].
  cbn [bind]. destruct (existsb _ _); intros [= <-]; tauto.
Qed.

Lemma lower_all_text (l : list value) :
  match mapM RecommendationModel.str_lower l with
  | Ok _ => forallb is_text l = true
  | Raise e => e = AttributeError /\ forallb is_text l = false
  end.
Proof.
  induction l as [ | v l IH ]; [ reflexivity | ].
  cbn [mapM forallb].
  destruct v; cbn [RecommendationModel.str_lower bind is_text andb];
    try (split; reflexivity).
  destruct (mapM RecommendationModel.str_lower l); cbn [bind]; exact IH.
Qed.

(** The two signals that read the user's preferences are computed exactly
    when the inputs have the declared shape. *)
Lemma preference_terms_total (u : RecommendationModel.user_data)
    (course : gmap string value) :
  match RecommendationModel.difficulty_term u course,
        RecommendationModel.category_term u course with
  | Ok _, Ok _ => text_fields u course = true
  | _, _ => text_fields u course = false
  end.
Proof.
  unfold RecommendationModel.difficulty_term, RecommendationModel.category_term,
    text_fields.
  destruct (RecommendationModel.get_preferences u) as [prefs | ]; [ | reflexivity ].
  cbn [bind].
  destruct (RecommendationModel.get_interests prefs) as [l | ]; [ | reflexivity ].
  cbn [bind].
  destruct (get course "category" (VStr ""));
    cbn [RecommendationModel.str_lower bind is_text andb]; try reflexivity.
  pose proof (lower_all_text l) as Hl.
  destruct (mapM RecommendationModel.str_lower l); cbn [bind];
    [ exact Hl | exact (proj2 Hl) ].
Qed.

Lemma Qsum_bounds (l : list Q) :
  Forall (fun x => 0 <= x <= 1)%Q l ->
  (0 <= Qsum l <= inject_Z (Z.of_nat (length l)))%Q.
Proof.
  induction 1 as [ | x l Hx Hl IH ]; cbn [Qsum fold_right length].
  - change (inject_Z (Z.of_nat 0)) with 0%Q. lra.
  - fold (Qsum l). rewrite Nat2Z.inj_succ, <- Z.add_1_r, inject_Z_plus.
    change (inject_Z 1) with 1%Q. lra.
Qed.

Lemma mean_Some (l : list Q) (m : Q) :
  mean l = Some m ->
  m = (Qsum l / inject_Z (Z.of_nat (length l)))%Q /\ (0 < length l)%nat.
Proof.
  destruct l as [ | x l ]; [ discriminate | ].
  unfold mean. intros [= <-]. split; [ reflexivity | cbn [length]; lia ].
Qed.

Lemma mean_bounds (l : list Q) (m : Q) :
  Forall (fun x => 0 <= x <= 1)%Q l -> mean l = Some m -> (0 <= m <= 1)%Q.
Proof.
  intros Hl [-> Hlen]%mean_Some. pose proof (Qsum_bounds _ Hl) as Hs.
  set (n := inject_Z (Z.of_nat (length l))) in *.
  assert (Hn : (0 < n)%Q).
  { subst n. change 0%Q with (inject_Z 0). rewrite <- Zlt_Qlt. lia. }
  split.
  - apply Qle_shift_div_l; [ exact Hn | lra ].
  - apply Qle_shift_div_r; [ exact Hn | lra ].
Qed.

Lemma similar_scores_bounds (user_id course_id : value) mine profiles :
  scores_ok profiles ->
  Forall (fun x => 0 <= x <= 1)%Q
         (RecommendationModel.similar_scores user_id course_id mine profiles).
Proof.
  intros Hp. unfold RecommendationModel.similar_scores.
  induction Hp as [ | [other_id other_courses] profiles Hrow Hp IH ];
    cbn [flat_map]; [ constructor | ].
  apply Forall_app. split; [ | exact IH ].
  cbn [fst snd] in *.
  destruct (py_eqb other_id user_id); [ constructor | ].
  destruct (dict_get course_id other_courses) as [s | ] eqn:E; [ | constructor ].
  destruct (Z.ltb_spec 0 (RecommendationModel.overlap_size mine other_courses));
    [ | constructor ].
  constructor; [ | constructor ].
  assert (Hs : s = 1%Q \/ s = (1 # 2)%Q).
  { rewrite Forall_map in Hrow.
    exact (dict_get_Forall (fun x => x = 1%Q \/ x = (1 # 2)%Q) _ _ _ Hrow E). }
  assert (Hle : RecommendationModel.overlap_size mine other_courses
                <= RecommendationModel.union_size mine other_courses).
  { unfold RecommendationModel.union_size, RecommendationModel.overlap_size.
    pose proof (filter_length_le (fun e => dict_mem (fst e) other_courses) mine).
    lia. }
  pose proof (ratio_in_unit _ _ (conj (Z.lt_le_incl _ _ H) Hle)
                            ltac:(lia)) as Hr.
  set (x := (inject_Z (RecommendationModel.overlap_size mine other_courses)
             / inject_Z (RecommendationModel.union_size mine other_courses))%Q) in *.
  destruct Hs as [-> | ->]; lra.
Qed.

Lemma collaborative_bounds (u : RecommendationModel.user_data)
    (course_id : value) profiles :
  scores_ok profiles ->
  (0 <= RecommendationModel.collaborative_term u course_id profiles <= 2 # 10)%Q.
Proof.
  intros Hp.
  unfold RecommendationModel.collaborative_term,
    RecommendationModel._calculate_collaborative_score.
  destruct (dict_get _ profiles) as [mine | ]; [ | lra ].
  destruct (mean _) as [m | ] eqn:E; unfold default, id; [ | lra ].
  pose proof (mean_bounds _ _ (similar_scores_bounds _ _ _ _ Hp) E). lra.
Qed.

Lemma pmin_one (x : Q) :
  (0 <= x)%Q -> (0 <= pmin 1 x <= 1)%Q /\ (pmin 1 x == Qmin 1 x)%Q.
Proof.
  intros Hx. unfold pmin.
  destruct (Qle_bool 1 x) eqn:E; cbn [negb].
  - apply Qle_bool_iff in E. split; [ lra | ]. symmetry. now apply Q.min_l.
  - assert (x < 1)%Q.
    { apply Qnot_le_lt. intros H. apply Qle_bool_iff in H. congruence. }
    split; [ lra | ]. symmetry. apply Q.min_r. lra.
Qed.

(** The score is the capped sum of four bounded signals. *)
Lemma course_score_decomposition
    (self : RecommendationModel.model) (data : list (gmap string value))
    (u : RecommendationModel.user_data) (course : gmap string value) :
  let m := fst (RecommendationModel.train self data) in
  let profiles := RecommendationModel.user_profiles m in
  let courses := RecommendationModel.course_profiles m in
  let course_id := get course "id" VNone in
  let popularity := RecommendationModel.popularity_term course_id courses in
  let collaborative := RecommendationModel.collaborative_term u course_id profiles in
  (0 <= popularity <= 3 # 10)%Q
  /\ (0 <= collaborative <= 2 # 10)%Q
  /\ (forall s,
        RecommendationModel._calculate_course_score u course profiles courses = Ok s ->
        (0 <= s <= 1)%Q
        /\ exists difficulty bonus,
             RecommendationModel.difficulty_term u course = Ok difficulty
             /\ RecommendationModel.category_term u course = Ok bonus
             /\ (0 <= difficulty <= 2 # 10)%Q
             /\ (0 <= bonus <= 3 # 10)%Q
             /\ (s == Qmin 1 (popularity + difficulty + bonus + collaborative))%Q)
  /\ (text_fields u course = true ->
      exists s,
        RecommendationModel._calculate_course_score u course profiles courses = Ok s)
  /\ (text_fields u course = false ->
      exists e,
        RecommendationModel._calculate_course_score u course profiles courses = Raise e).
Proof.
  intros m profiles courses course_id popularity collaborative.
  destruct (train_invariants self data) as [Hscores Hstats].
  fold m in Hscores, Hstats. fold profiles in Hscores. fold courses in Hstats.
  pose proof (popularity_bounds course_id courses Hstats) as Hp.
  pose proof (collaborative_bounds u course_id profiles Hscores) as Hc.
  fold popularity in Hp. fold collaborative in Hc.
  pose proof (preference_terms_total u course) as Htotal.
  pose proof (difficulty_bounds u course) as Hd.
  pose proof (category_bounds u course) as Hb.
  unfold RecommendationModel._calculate_course_score.
  fold course_id. fold popularity. fold collaborative.
  destruct (RecommendationModel.difficulty_term u course) as [difficulty | e1];
    cbn [bind];
    [ destruct (RecommendationModel.category_term u course) as [bonus | e2];
      cbn [bind] | ].
  - specialize (Hd difficulty eq_refl).
    assert (Hb' : (0 <= bonus <= 3 # 10)%Q)
      by (destruct (Hb bonus eq_refl) as [-> | ->]; lra).
    destruct (pmin_one (0 + popularity + difficulty + bonus + collaborative))
      as [Hrange Hmin]; [ lra | ].
    split; [ exact Hp | split; [ exact Hc | split; [ | split ] ] ].
    + intros s [= <-]. split; [ exact Hrange | ].
      exists difficulty, bonus. repeat split; try tauto.
      rewrite Hmin. apply Q.min_compat; [ reflexivity | ring ].
    + eauto.
    + congruence.
  - split; [ exact Hp | split; [ exact Hc | split; [ | split ] ] ].
    + discriminate.
    + congruence.
    + eauto.
  - split; [ exact Hp | split; [ exact Hc | split; [ | split ] ] ].
    + discriminate.
    + congruence.
    + eauto.
Qed.

(** C5.  With the lookups produced by [train] on any records, every score
    the scorer returns for a candidate course lies in [0,1]: it is the sum,
    capped at 1.0, of four signals lying between 0 and their weights (0.30
    for the completion rate of the course, 0.20 for the difficulty match,
    0.30 for the interest bonus, 0.20 for the collaborative signal).  A
    score is returned whenever the preferences, the interests and the course
    category have their declared shape. *)
Theorem recommendation_score_in_unit_interval
    (self : RecommendationModel.model) (data : list (gmap string value))
    (u : RecommendationModel.user_data) (course : gmap string value) (s : Q) :
  let m := fst (RecommendationModel.train self data) in
  let profiles := RecommendationModel.user_profiles m in
  let courses := RecommendationModel.course_profiles m in
  let course_id := get course "id" VNone in
  let popularity := RecommendationModel.popularity_term course_id courses in
  let collaborative := RecommendationModel.collaborative_term u course_id profiles in
  (RecommendationModel._calculate_course_score u course profiles courses = Ok s ->
   (0 <= s <= 1)%Q
   /\ (0 <= popularity <= 3 # 10)%Q
   /\ (0 <= collaborative <= 2 # 10)%Q
   /\ exists difficulty bonus,
        RecommendationModel.difficulty_term u course = Ok difficulty
        /\ RecommendationModel.category_term u course = Ok bonus
        /\ (0 <= difficulty <= 2 # 10)%Q
        /\ (0 <= bonus <= 3 # 10)%Q
        /\ (s == Qmin 1 (popularity + difficulty + bonus + collaborative))%Q)
  /\ (text_fields u course = true ->
      exists s',
        RecommendationModel._calculate_course_score u course profiles courses = Ok s').
Proof.
  intros m profiles courses course_id popularity collaborative.
  destruct (course_score_decomposition self data u course)
    as (Hp & Hc & Hs & Htotal & _).
  split.
  - intros Hscore. destruct (Hs s Hscore) as [Hrange Hparts].
    split; [ exact Hrange | split; [ exact Hp | split; [ exact Hc | exact Hparts ] ] ].
  - exact Htotal.
Qed.

Lemma recommendation_score_in_unit_interval_witness :
  RecommendationModel._calculate_course_score Samples.learner Samples.geometry
    (RecommendationModel.user_profiles
       (fst (RecommendationModel.train RecommendationModel.__init__
                                       Samples.enrolments)))
    (RecommendationModel.course_profiles
       (fst (RecommendationModel.train RecommendationModel.__init__
                                       Samples.enrolments)))
  = Ok (18000 # 20000)%Q
  /\ (0 <= 18000 # 20000 <= 1)%Q.
Proof.
  split; [ reflexivity | ].
  apply (proj1 (recommendation_score_in_unit_interval RecommendationModel.__init__
                  Samples.enrolments Samples.learner Samples.geometry
                  (18000 # 20000)%Q)).
  reflexivity.
Defined.

(** The scorer fails exactly when the inputs lack their declared shape. *)
Lemma recommendation_score_failure
    (self : RecommendationModel.model) (data : list (gmap string value))
    (u : RecommendationModel.user_data) (course : gmap string value) :
  text_fields u course = false ->
  exists e,
    RecommendationModel._calculate_course_score u course
      (RecommendationModel.user_profiles (fst (RecommendationModel.train self data)))
      (RecommendationModel.course_profiles (fst (RecommendationModel.train self data)))
    = Raise e.
Proof.
  intros H.
  destruct (course_score_decomposition self data u course) as (_ & _ & _ & _ & Hf).
  exact (Hf H).
Qed.

(** ** Properties of the optimal-hours computation *)

Section SortFacts.
Context {A : Type} (ord : A -> A -> bool).
Hypothesis ord_total : forall x y, ord x y = false -> ord y x = true.
Hypothesis ord_trans : forall x y z, ord x y = true -> ord y z = true -> ord x z = true.

Lemma insert_sorted_perm (x : A) (l : list A) :
  Permutation (insert_sorted ord x l) (x :: l).
Proof.
  induction l as [ | y l IH ]; cbn [insert_sorted]; [ reflexivity | ].
  destruct (ord x y); [ reflexivity | ].
  rewrite IH. apply perm_swap.
Qed.

Lemma stable_sort_perm (l : list A) : Permutation (stable_sort ord l) l.
Proof.
  induction l as [ | x l IH ]; cbn; [ reflexivity | ].
  fold (stable_sort ord l). rewrite insert_sorted_perm. now constructor.
Qed.

Lemma insert_sorted_sorted (x : A) (l : list A) :
  StronglySorted (fun a b => ord a b = true) l ->
  StronglySorted (fun a b => ord a b = true) (insert_sorted ord x l).
Proof.
  induction 1 as [ | y l Hl IH Hy ]; cbn [insert_sorted].
  - constructor; constructor.
  - destruct (ord x y) eqn:E.
    + constructor; [ now constructor | ].
      constructor; [ exact E | ].
      rewrite List.Forall_forall in *. intros z Hz. eauto.
    + constructor; [ exact IH | ].
      rewrite List.Forall_forall in *. intros z Hz.
      apply (Permutation_in _ (insert_sorted_perm x l)) in Hz.
      destruct Hz as [<- | Hz]; auto.
Qed.

Lemma stable_sort_sorted (l : list A) :
  StronglySorted (fun a b => ord a b = true) (stable_sort ord l).
Proof.
  induction l as [ | x l IH ]; cbn; [ constructor | ].
  now apply insert_sorted_sorted.
Qed.
End SortFacts.

Lemma sorted_prefix_dominates {A : Type} (R : A -> A -> Prop) (l : list A) (n : nat) :
  StronglySorted R l ->
  forall x y, In x (firstn n l) -> In y (skipn n l) -> R x y.
Proof.
  intros Hl. revert n. induction Hl as [ | a l Hl IH Ha ]; intros n x y Hx Hy.
  - destruct n; contradiction.
  - destruct n as [ | n ]; [ contradiction | ].
    cbn [firstn skipn] in *. destruct Hx as [<- | Hx].
    + rewrite List.Forall_forall in Ha. apply Ha.
      rewrite <- (firstn_skipn n l). apply in_or_app. now right.
    + eauto.
Qed.

(** The table [hour_stats] after one more session. *)
Lemma lookup_record_session (k h : Z) (done : bool) (st : hour_stats) :
  lookup_hour k (record_session h done st)
  = if k =? h
    then Some (match lookup_hour h st with
               | Some (t, c) => (t + 1, if done then c + 1 else c)
               | None => (1, if done then 1 else 0)
               end)
    else lookup_hour k st.
Proof.
  induction st as [ | [h' [t c]] st IH ]; cbn [record_session lookup_hour].
  - rewrite Z.eqb_sym. destruct (h =? k) eqn:E; [ | reflexivity ].
    reflexivity.
  - destruct (Z.eqb_spec h h') as [<- | Hne]; cbn [lookup_hour].
    + destruct (Z.eqb_spec k h); reflexivity.
    + rewrite IH. destruct (Z.eqb_spec k h) as [-> | Hk].
      * destruct (Z.eqb_spec h h'); [ contradiction | reflexivity ].
      * reflexivity.
Qed.

Lemma keys_record_session (h : Z) (done : bool) (st : hour_stats) :
  map fst (record_session h done st)
  = if existsb (Z.eqb h) (map fst st) then map fst st else map fst st ++ [h].
Proof.
  induction st as [ | [h' [t c]] st IH ]; cbn [record_session map fst existsb];
    [ reflexivity | ].
  destruct (h =? h'); cbn [orb map fst]; [ reflexivity | ].
  rewrite IH. destruct (existsb (Z.eqb h) (map fst st)); reflexivity.
Qed.

Lemma keys_count_session (st : hour_stats) (r : gmap string value) :
  NoDup (map fst st) -> NoDup (map fst (count_session st r)).
Proof.
  intros Hst. unfold count_session.
  destruct (session_hour r) as [h | ]; [ | exact Hst ].
  rewrite keys_record_session.
  destruct (existsb (Z.eqb h) (map fst st)) eqn:E; [ exact Hst | ].
  apply NoDup_app. split; [ exact Hst | split ].
  - intros x Hx [-> | []]%list_elem_of_In.
    apply list_elem_of_In in Hx.
    assert (existsb (Z.eqb x) (map fst st) = true)
      by (apply existsb_exists; exists x; split; [ exact Hx | apply Z.eqb_refl ]).
    congruence.
  - constructor; [ | constructor ]. intros []%list_elem_of_In.
Qed.

Lemma keys_collect (data : list (gmap string value)) (st : hour_stats) :
  NoDup (map fst st) -> NoDup (map fst (fold_left count_session data st)).
Proof.
  revert st. induction data as [ | r data IH ]; intros st Hst; [ exact Hst | ].
  cbn [fold_left]. apply IH. now apply keys_count_session.
Qed.

Lemma lookup_hour_In (h : Z) (tc : Z * Z) (st : hour_stats) :
  NoDup (map fst st) -> In (h, tc) st -> lookup_hour h st = Some tc.
Proof.
  induction st as [ | [h' tc'] st IH ]; [ contradiction | ].
  cbn [map fst]. intros Hnd%NoDup_cons [[= -> ->] | Hin]; cbn [lookup_hour].
  - now rewrite Z.eqb_refl.
  - destruct Hnd as [Hnot Hnd].
    destruct (Z.eqb_spec h h') as [-> | _]; [ | now apply IH ].
    exfalso. apply Hnot. apply list_elem_of_In.
    change h' with (fst (h', tc)). now apply in_map.
Qed.

Lemma lookup_hour_Some_In (h : Z) (tc : Z * Z) (st : hour_stats) :
  lookup_hour h st = Some tc -> In (h, tc) st.
Proof.
  induction st as [ | [h' tc'] st IH ]; cbn [lookup_hour]; [ discriminate | ].
  destruct (Z.eqb_spec h h') as [-> | _].
  - intros [= ->]. now left.
  - intros H. right. now apply IH.
Qed.

Lemma sessions_at_cons (k : Z) (r : gmap string value) data :
  sessions_at k (r :: data)
  = (if starts_at k r then 1 else 0) + sessions_at k data.
Proof.
  unfold sessions_at. cbn [List.filter].
  destruct (starts_at k r); cbn [length]; lia.
Qed.

Lemma completed_at_cons (k : Z) (r : gmap string value) data :
  completed_at k (r :: data)
  = (if starts_at k r && SchedulingModel.is_completed r then 1 else 0)
    + completed_at k data.
Proof.
  unfold completed_at. cbn [List.filter].
  destruct (starts_at k r && SchedulingModel.is_completed r); cbn [length]; lia.
Qed.

Lemma counts_bounds (k : Z) data :
  0 <= completed_at k data <= sessions_at k data.
Proof.
  induction data as [ | r data IH ].
  - unfold completed_at, sessions_at. cbn. lia.
  - rewrite sessions_at_cons, completed_at_cons.
    destruct (starts_at k r), (SchedulingModel.is_completed r); cbn [andb]; lia.
Qed.

(** The table built by the loop holds, for every hour, the number of sessions
    and of completed sessions read at that hour. *)
Lemma lookup_collect (k : Z) (data : list (gmap string value)) (st : hour_stats) :
  lookup_hour k (fold_left count_session data st)
  = tally (lookup_hour k st) (sessions_at k data) (completed_at k data).
Proof.
  revert st. induction data as [ | r data IH ]; intros st; [ reflexivity | ].
  cbn [fold_left]. rewrite IH, sessions_at_cons, completed_at_cons.
  pose proof (counts_bounds k data) as Hb.
  unfold count_session, starts_at.
  destruct (session_hour r) as [h | ]; cbn [andb]; [ | reflexivity ].
  rewrite lookup_record_session.
  destruct (Z.eqb_spec k h) as [<- | _]; cbn [andb]; [ | reflexivity ].
  unfold tally.
  destruct (Z.eqb_spec (1 + sessions_at k data) 0); [ lia | ].
  destruct (Z.eqb_spec (sessions_at k data) 0) as [H0 | _].
  - assert (Hc : completed_at k data = 0) by lia. rewrite H0, Hc.
    destruct (lookup_hour k st) as [[t c] | ];
      destruct (SchedulingModel.is_completed r); do 2 f_equal; lia.
  - destruct (lookup_hour k st) as [[t c] | ];
      destruct (SchedulingModel.is_completed r); do 2 f_equal; lia.
Qed.

Lemma collect_entry (h : Z) (tc : Z * Z) (data : list (gmap string value)) :
  In (h, tc) (collect_hour_stats data)
  <-> 0 < sessions_at h data /\ tc = (sessions_at h data, completed_at h data).
Proof.
  unfold collect_hour_stats.
  pose proof (lookup_collect h data []) as Hl. cbn [lookup_hour] in Hl.
  pose proof (counts_bounds h data) as Hb.
  unfold tally in Hl.
  split.
  - intros Hin.
    rewrite (lookup_hour_In _ _ _
               (keys_collect data [] (NoDup_nil_2 : NoDup (map fst ([] : hour_stats))))
               Hin) in Hl.
    destruct (Z.eqb_spec (sessions_at h data) 0); [ discriminate | ].
    injection Hl as ->. split; [ lia | reflexivity ].
  - intros [Hpos ->]. apply lookup_hour_Some_In. rewrite Hl.
    destruct (Z.eqb_spec (sessions_at h data) 0); [ lia | reflexivity ].
Qed.

(** The candidate list: the qualifying hours with their completion rates. *)
Lemma hour_rates_entry (h : Z) (q : Q) (data : list (gmap string value)) :
  In (h, q) (hour_rates (collect_hour_stats data))
  <-> qualifies h data /\ q = completion_rate_at h data.
Proof.
  unfold hour_rates, qualifies, completion_rate_at. rewrite in_map_iff. split.
  - intros [[h' tc] [[= -> <-] [Hin Hq]%filter_In]].
    apply collect_entry in Hin as [_ ->]. cbn [fst snd] in *.
    split; [ lia | reflexivity ].
  - intros [Hq ->].
    exists (h, (sessions_at h data, completed_at h data)).
    split; [ reflexivity | ]. apply filter_In. split.
    + apply collect_entry. split; [ lia | reflexivity ].
    + cbn [fst snd]. lia.
Qed.

Lemma sort_by_rate_perm (l : list (Z * Q)) : Permutation (sort_by_rate l) l.
Proof. apply stable_sort_perm. Qed.

Lemma sort_by_rate_sorted (l : list (Z * Q)) :
  StronglySorted (fun x y => (snd y <= snd x)%Q) (sort_by_rate l).
Proof.
  unfold sort_by_rate.
  assert (H : StronglySorted (fun x y : Z * Q => Qle_bool (snd y) (snd x) = true)
                (stable_sort (fun x y => Qle_bool (snd y) (snd x)) l)).
  { apply stable_sort_sorted.
    - intros x y Hxy. apply Qle_bool_iff.
      destruct (Qlt_le_dec (snd y) (snd x)) as [Hlt | Hle].
      + apply Qlt_le_weak in Hlt. apply Qle_bool_iff in Hlt. congruence.
      + exact Hle.
    - intros x y z Hxy Hyz. apply Qle_bool_iff in Hxy, Hyz. apply Qle_bool_iff.
      lra. }
  induction H as [ | a l' Hl IH Ha ]; constructor; [ exact IH | ].
  rewrite List.Forall_forall in *. intros z Hz. apply Qle_bool_iff. auto.
Qed.

Lemma sort_hours_sorted (l : list Z) : StronglySorted Z.le (stable_sort Z.leb l).
Proof.
  assert (H : StronglySorted (fun x y => Z.leb x y = true) (stable_sort Z.leb l)).
  { apply stable_sort_sorted.
    - intros x y. rewrite Z.leb_gt, Z.leb_le. lia.
    - intros x y z. rewrite !Z.leb_le. lia. }
  induction H as [ | a l' Hl IH Ha ]; constructor; [ exact IH | ].
  rewrite List.Forall_forall in *. intros z Hz. apply Z.leb_le. auto.
Qed.

Lemma optimal_hours_parts (user_data : list (gmap string value)) :
  let rates := sort_by_rate (hour_rates (collect_hour_stats user_data)) in
  exists optimal,
    Permutation (_find_optimal_hours user_data) optimal
    /\ ((rates = [] /\ optimal = default_hours)
        \/ (rates <> [] /\ optimal = map fst (firstn 6 rates))).
Proof.
  intros rates. unfold _find_optimal_hours. fold rates.
  destruct rates as [ | e rates' ] eqn:E.
  - exists default_hours. split; [ apply stable_sort_perm | now left ].
  - exists (map fst (firstn 6 (e :: rates'))).
    split; [ apply stable_sort_perm | right; split; [ discriminate | reflexivity ] ].
Qed.

(** C7.  [_find_optimal_hours] returns at most 6 hours in ascending order.
    When some hour has at least 3 sessions, every hour returned has at
    least 3 sessions and a completion rate no lower than that of any hour
    with at least 3 sessions that was left out; when no hour has 3 sessions
    the answer is the fixed window 9, 10, 11, 14, 15, 16. *)
Theorem optimal_hours_properties (user_data : list (gmap string value)) :
  let hours := _find_optimal_hours user_data in
  (length hours <= 6)%nat
  /\ StronglySorted Z.le hours
  /\ ((exists h, qualifies h user_data) ->
      (forall h, In h hours -> qualifies h user_data)
      /\ (forall h h', In h hours -> qualifies h' user_data -> ~ In h' hours ->
            (completion_rate_at h' user_data <= completion_rate_at h user_data)%Q))
  /\ ((forall h, ~ qualifies h user_data) -> hours = default_hours).
Proof.
  intros hours.
  destruct (optimal_hours_parts user_data) as (optimal & Hperm & Hcases).
  fold hours in Hperm.
  set (rates := sort_by_rate (hour_rates (collect_hour_stats user_data))) in *.
  assert (Hrates : forall h q, In (h, q) rates
                               <-> qualifies h user_data
                                   /\ q = completion_rate_at h user_data).
  { intros h q. rewrite <- hour_rates_entry. split; intros H.
    - exact (Permutation_in _ (sort_by_rate_perm _) H).
    - exact (Permutation_in _ (Permutation_sym (sort_by_rate_perm _)) H). }
  split; [ | split; [ | split ] ].
  - rewrite (Permutation_length Hperm).
    destruct Hcases as [[_ ->] | [_ ->]]; [ cbn; lia | ].
    rewrite length_map, length_firstn. lia.
  - apply sort_hours_sorted.
  - intros [h0 Hq0].
    destruct Hcases as [[Hnil _] | [_ ->]].
    { exfalso. assert (Hin : In (h0, completion_rate_at h0 user_data) rates)
        by (apply Hrates; split; [ exact Hq0 | reflexivity ]).
      rewrite Hnil in Hin. contradiction. }
    assert (Hsel : forall h, In h hours ->
                             In (h, completion_rate_at h user_data) (firstn 6 rates)).
    { intros h Hh. apply (Permutation_in _ Hperm) in Hh.
      apply in_map_iff in Hh as [[h' q] [Hfst Hin]]. cbn [fst] in Hfst. subst h'.
      assert (Hq : In (h, q) rates).
      { rewrite <- (firstn_skipn 6 rates). apply in_or_app. now left. }
      apply Hrates in Hq as [_ ->]. exact Hin. }
    split.
    + intros h Hh. apply Hsel in Hh.
      assert (Hq : In (h, completion_rate_at h user_data) rates).
      { rewrite <- (firstn_skipn 6 rates). apply in_or_app. now left. }
      now apply Hrates in Hq.
    + intros h h' Hh Hq' Hout.
      assert (Hin' : In (h', completion_rate_at h' user_data) rates)
        by (apply Hrates; split; [ exact Hq' | reflexivity ]).
      rewrite <- (firstn_skipn 6 rates) in Hin'.
      apply in_app_or in Hin' as [Hfirst | Hrest].
      * exfalso. apply Hout.
        apply (Permutation_in _ (Permutation_sym Hperm)).
        change h' with (fst (h', completion_rate_at h' user_data)).
        now apply in_map.
      * exact (sorted_prefix_dominates _ rates 6 (sort_by_rate_sorted _)
                 _ _ (Hsel h Hh) Hrest).
  - intros Hnone.
    destruct Hcases as [[Hnil Hopt] | [Hne _]].
    + subst hours. unfold _find_optimal_hours. fold rates. rewrite Hnil.
      reflexivity.
    + exfalso. destruct rates as [ | [h q] rates' ] eqn:E; [ now apply Hne | ].
      apply (Hnone h). apply (Hrates h q). now left.
Qed.

Lemma optimal_hours_properties_witness :
  _find_optimal_hours Samples.history = [8; 9]
  /\ (forall h, In h (_find_optimal_hours Samples.history) ->
                qualifies h Samples.history)
  /\ _find_optimal_hours [Samples.session_at "09" true] = default_hours.
Proof.
  split; [ reflexivity | split ].
  - apply (proj1 (proj2 (proj2 (optimal_hours_properties Samples.history)))).
    exists 9. unfold qualifies. vm_compute. discriminate.
  - apply (proj2 (proj2 (proj2 (optimal_hours_properties
                                  [Samples.session_at "09" true])))).
    intros h. unfold qualifies, sessions_at. cbn [List.filter].
    destruct (starts_at h (Samples.session_at "09" true)); cbn [length]; lia.
Defined.

(** * Further properties *)

(** ** Scheduling: labels and features *)

Lemma position_of_method (m : string) :
  In m METHODS ->
  exists y, position 0 m (classes_ (label_encoder __init__)) = Ok y /\ 0 <= y <= 3.
Proof.
  simpl. intros [<- | [<- | [<- | [<- | []]]]]; eexists; (split; [ reflexivity | lia ]).
Qed.

(** X1.  [prepare_labels] never fails: it gives one label per record, each
    between 0 and 3, and a record whose method is missing or is not one of
    the four gets 3, the label of "pomodoro". *)
Theorem prepare_labels_always_labels (data : list (gmap string value)) :
  exists ys,
    prepare_labels __init__ data = Ok ys
    /\ length ys = length data
    /\ forall i r y,
         nth_error data i = Some r -> nth_error ys i = Some y ->
         0 <= y <= 3
         /\ (in_METHODS (get r "method_used" (VStr "pomodoro")) = false -> y = 3)
         /\ (r !! "method_used" = None -> y = 3).
Proof.
  unfold prepare_labels, transform.
  induction data as [ | r0 data (ys & IH & Hlen & Hall) ].
  - exists []. repeat split; try reflexivity;
      match goal with H : nth_error [] _ = Some _ |- _ => destruct i; discriminate H end.
  - cbn [map mapM].
    destruct (position_of_method _ (label_of_in_METHODS r0)) as (y0 & Hy0 & Hr0).
    rewrite Hy0. cbn [bind]. rewrite IH. cbn [bind].
    exists (y0 :: ys). split; [ reflexivity | split; [ cbn; now rewrite Hlen | ] ].
    intros i r y. destruct i as [ | i ]; cbn [nth_error]; [ | apply Hall ].
    intros [= <-] [= <-]. split; [ exact Hr0 | ].
    assert (Hout : in_METHODS (get r0 "method_used" (VStr "pomodoro")) = false ->
                   y0 = 3).
    { intros Hm. assert (Hl : label_of r0 = "pomodoro")
        by (unfold label_of; now rewrite Hm).
      rewrite Hl in Hy0. vm_compute in Hy0. congruence. }
    split; [ exact Hout | ].
    intros Hnone. assert (Hl : label_of r0 = "pomodoro")
      by (unfold label_of; now rewrite (get_absent _ _ _ Hnone)).
    rewrite Hl in Hy0. vm_compute in Hy0. congruence.
Qed.

Lemma prepare_labels_always_labels_witness :
  exists ys,
    prepare_labels __init__ [ Samples.unknown_method_record ] = Ok ys
    /\ ys = [ 3 ].
Proof.
  destruct (prepare_labels_always_labels [ Samples.unknown_method_record ])
    as (ys & E & Hlen & Hall).
  exists ys. split; [ exact E | ].
  destruct ys as [ | y [ | y' ys ] ]; try discriminate Hlen.
  destruct (Hall 0%nat Samples.unknown_method_record y eq_refl eq_refl)
    as (_ & Hout & _).
  rewrite Hout; reflexivity.
Defined.



(** ** The hour read from a timestamp *)

Lemma digit_of_range (c : ascii) (d : Z) : digit_of c = Some d -> 0 <= d <= 9.
Proof.
  unfold digit_of.
  destruct (48 <=? nat_of_ascii c)%nat eqn:E1; [ | discriminate ].
  destruct (nat_of_ascii c <=? 57)%nat eqn:E2; [ | discriminate ].
  cbn [andb]. intros [= <-].
  apply Nat.leb_le in E1. apply Nat.leb_le in E2. lia.
Qed.

Lemma digits_bound (s : string) :
  forall acc b n,
    0 <= acc -> digits acc b s = Some n ->
    0 <= n < (acc + 1) * 10 ^ Z.of_nat (String.length s).
Proof.
  induction s as [ | c s IH ]; intros acc b n Hacc; cbn [digits String.length].
  - destruct b; [ | discriminate ]. intros [= <-]. cbn. lia.
  - rewrite Nat2Z.inj_succ, Z.pow_succ_r by lia.
    destruct (digit_of c) as [d | ] eqn:Ed.
    + apply digit_of_range in Ed. intros H.
      apply IH in H; [ | lia ]. nia.
    + destruct (Ascii.eqb c "_" && b)%bool; [ | discriminate ].
      destruct s as [ | c' s' ]; [ discriminate | ].
      destruct (digit_of c'); [ | discriminate ].
      intros H. apply IH in H; [ | exact Hacc ].
      assert (0 < 10 ^ Z.of_nat (String.length (String c' s'))) by (apply Z.pow_pos_nonneg; lia).
      nia.
Qed.

Lemma lstrip_length (s : string) : (String.length (lstrip s) <= String.length s)%nat.
Proof.
  induction s as [ | c s IH ]; cbn [lstrip String.length]; [ lia | ].
  destruct (is_space c); cbn [String.length]; lia.
Qed.

Lemma rstrip_length (s : string) : (String.length (rstrip s) <= String.length s)%nat.
Proof.
  induction s as [ | c s IH ]; cbn [rstrip String.length]; [ lia | ].
  destruct (rstrip s); [ destruct (is_space c) | ]; cbn [String.length] in *; lia.
Qed.

(** [int] of a string of at most [k] characters, [k >= 1]: fewer than [k]
    digits after a sign, at most [k] without. *)
Lemma int_range (s : string) (n : Z) (k : nat) :
  (String.length s <= k)%nat -> (1 <= k)%nat -> int s = Ok n ->
  - 10 ^ Z.of_nat (k - 1) < n < 10 ^ Z.of_nat k.
Proof.
  intros Hk Hk1. unfold int.
  pose proof (lstrip_length s) as H1.
  pose proof (rstrip_length (lstrip s)) as H2.
  set (body := rstrip (lstrip s)) in *.
  assert (Hb : (String.length body <= k)%nat) by lia. clearbody body. clear H1 H2 Hk.
  assert (Hmono : forall a b : nat, (a <= b)%nat -> 10 ^ Z.of_nat a <= 10 ^ Z.of_nat b)
    by (intros a b Hab; apply Z.pow_le_mono_r; lia).
  assert (Hpos : forall a : nat, 0 < 10 ^ Z.of_nat a)
    by (intros a; apply Z.pow_pos_nonneg; lia).
  assert (Hplain : forall t m, (String.length t <= k)%nat ->
                               digits 0 false t = Some m ->
                               - 10 ^ Z.of_nat (k - 1) < m < 10 ^ Z.of_nat k).
  { intros t m Ht Hd. apply digits_bound in Hd; [ | lia ].
    pose proof (Hmono _ _ Ht). pose proof (Hpos (k - 1)%nat). lia. }
  assert (Hsigned : forall t m, (S (String.length t) <= k)%nat ->
                                digits 0 false t = Some m ->
                                - 10 ^ Z.of_nat (k - 1) < - m
                                /\ m < 10 ^ Z.of_nat k).
  { intros t m Ht Hd. apply digits_bound in Hd; [ | lia ].
    assert (Ht' : (String.length t <= k - 1)%nat) by lia.
    pose proof (Hmono _ _ Ht'). pose proof (Hmono (k - 1)%nat k ltac:(lia)). lia. }
  destruct body as [ | c t ].
  - cbn. discriminate.
  - cbn [String.length] in Hb.
    destruct c as [[] [] [] [] [] [] [] []]; cbv beta iota zeta;
      first
        [ destruct (digits 0 false (String _ t)) as [m | ] eqn:Ed;
          [ intros [= <-]; eapply Hplain; [ | exact Ed ]; exact Hb | discriminate ]
        | destruct (digits 0 false t) as [m | ] eqn:Ed; cbn [option_map];
          [ intros [= <-]; pose proof (Hsigned _ _ Hb Ed);
            pose proof (digits_bound t 0 false m ltac:(lia) Ed);
            pose proof (Hpos k); pose proof (Hpos (k - 1)%nat); lia
          | discriminate ] ].
Qed.

Lemma substring_length (s : string) (i m : nat) :
  (String.length (substring i m s) <= m)%nat.
Proof.
  revert i m. induction s as [ | c s IH ]; intros i m.
  - destruct i, m; cbn; lia.
  - destruct i as [ | i ]; [ destruct m as [ | m ] | ];
      cbn [substring String.length]; [ lia | | apply IH ].
    pose proof (IH 0%nat m). lia.
Qed.

(** X3.  The hour a builder derives from any [started_at] value is an
    integer between -9 and 99: two characters are read, with no check that
    they name an hour of the day.  The scheduling builder and the
    performance builder derive the same hour for every record, and it is the
    hour [_find_optimal_hours] counts the record under, when that function
    counts it at all. *)
Theorem derived_hour_range_and_agreement (r : gmap string value) :
  -9 <= derive_hour (get r "started_at" (VStr "")) <= 99
  /\ PerformanceModel.hour_of r = derive_hour (get r "started_at" (VStr ""))
  /\ forall h, session_hour r = Ok h -> PerformanceModel.hour_of r = h.
Proof.
  assert (Hslice : forall s n, int (slice s 11 13) = Ok n -> -9 <= n <= 99).
  { intros s n Hn.
    pose proof (int_range (slice s 11 13) n 2 (substring_length s 11 2)
                          ltac:(lia) Hn) as H.
    cbn in H. lia. }
  split; [ | split ].
  - unfold derive_hour.
    destruct (get r "started_at" (VStr "")) as [ | b | n | x | s ]; try lia.
    destruct (negb (String.eqb s "")); [ | lia ].
    destruct (13 <? Z.of_nat (String.length s)); cbn [catch]; [ | lia ].
    destruct (int (slice s 11 13)) as [n | ] eqn:E; cbn [catch]; [ | lia ].
    exact (Hslice _ _ E).
  - unfold PerformanceModel.hour_of, derive_hour.
    destruct (get r "started_at" (VStr "")) as [ | b | n | x | s ];
      try reflexivity.
    cbn [len bind].
    destruct (String.eqb_spec s "") as [-> | Hne]; cbn [negb]; reflexivity.
  - intros h. unfold session_hour, PerformanceModel.hour_of.
    destruct (get r "started_at" (VStr "")) as [ | b | n | x | s ];
      try discriminate.
    cbn [len bind]. intros H. rewrite H. reflexivity.
Qed.

Lemma derived_hour_range_and_agreement_witness :
  session_hour Samples.unknown_method_record = Ok 9
  /\ PerformanceModel.hour_of Samples.unknown_method_record = 9.
Proof.
  split; [ reflexivity | ].
  apply (proj2 (proj2 (derived_hour_range_and_agreement Samples.unknown_method_record))).
  reflexivity.
Defined.

(** ** Scheduling: more on the optimal hours *)

Lemma NoDup_keys_filter {V : Type} (p : Z * V -> bool) (st : list (Z * V)) :
  NoDup (map fst st) -> NoDup (map fst (List.filter p st)).
Proof.
  induction st as [ | e st IH ]; cbn [List.filter map]; [ trivial | ].
  intros [Hnot Hnd]%NoDup_cons. destruct (p e); cbn [map]; [ | now apply IH ].
  apply NoDup_cons. split; [ | now apply IH ].
  intros Hin. apply Hnot. apply list_elem_of_In in Hin. apply list_elem_of_In.
  apply in_map_iff in Hin as [e' [He' Hin]]. apply in_map_iff.
  exists e'. split; [ exact He' | ]. now apply filter_In in Hin.
Qed.

Lemma NoDup_firstn {A : Type} (n : nat) (l : list A) : NoDup l -> NoDup (firstn n l).
Proof.
  intros H. rewrite <- (firstn_skipn n l) in H. now apply NoDup_app in H.
Qed.

(** X4.  The hours [_find_optimal_hours] returns are pairwise distinct, and
    an hour with at least 3 sessions is left out only when 6 hours are
    returned. *)
Theorem optimal_hours_distinct_and_full (user_data : list (gmap string value)) :
  NoDup (_find_optimal_hours user_data)
  /\ forall h, qualifies h user_data -> ~ In h (_find_optimal_hours user_data) ->
               length (_find_optimal_hours user_data) = 6%nat.
Proof.
  destruct (optimal_hours_parts user_data) as (optimal & Hperm & Hcases).
  set (rates := sort_by_rate (hour_rates (collect_hour_stats user_data))) in *.
  assert (Hnd : NoDup (map fst rates)).
  { assert (P : Permutation (map fst rates)
                            (map fst (hour_rates (collect_hour_stats user_data))))
      by apply Permutation_map, sort_by_rate_perm.
    rewrite P. unfold hour_rates. rewrite map_map. cbn [fst].
    apply NoDup_keys_filter. unfold collect_hour_stats.
    apply keys_collect. constructor. }
  split.
  - rewrite Hperm.
    destruct Hcases as [[_ ->] | [_ ->]].
    + unfold default_hours.
      repeat (apply NoDup_cons_2; [ rewrite list_elem_of_In; simpl; lia | ]).
      constructor.
    + rewrite <- firstn_map. now apply NoDup_firstn.
  - intros h Hq Hout.
    assert (Hin : In (h, completion_rate_at h user_data) rates).
    { apply (Permutation_in _ (Permutation_sym (sort_by_rate_perm _))).
      apply hour_rates_entry. now split. }
    destruct Hcases as [[Hnil _] | [_ Hopt]]; [ rewrite Hnil in Hin; contradiction | ].
    rewrite (Permutation_length Hperm), Hopt, length_map, length_firstn.
    rewrite <- (firstn_skipn 6 rates) in Hin.
    apply in_app_or in Hin as [Hfirst | Hrest].
    + exfalso. apply Hout. apply (Permutation_in _ (Permutation_sym Hperm)).
      rewrite Hopt. change h with (fst (h, completion_rate_at h user_data)).
      now apply in_map.
    + destruct (Nat.le_gt_cases 6 (length rates)) as [Hlen | Hlen]; [ lia | ].
      rewrite skipn_all2 in Hrest by lia. contradiction.
Qed.

Lemma optimal_hours_distinct_and_full_witness :
  length (_find_optimal_hours Samples.busy_history) = 6%nat.
Proof.
  apply (proj2 (optimal_hours_distinct_and_full Samples.busy_history) 13).
  - unfold qualifies. vm_compute. discriminate.
  - vm_compute. intuition discriminate.
Defined.

(** ** Scheduling: [predict] *)











(** ** Recommendation: the course lookup and the metrics of [train] *)

Lemma course_train_step (c : value) ucm cc (r : gmap string value) :
  dict_get c (snd (RecommendationModel.train_step (ucm, cc) r))
  = course_tally (dict_get c cc)
                 (if course_observes c r then 1 else 0)
                 (if course_observes c r && observed_completed r then 1 else 0).
Proof.
  unfold RecommendationModel.train_step, course_observes, course_tally, observed_completed.
  destruct (RecommendationModel.lacks_ids r); [ reflexivity | ].
  cbn [negb andb snd].
  set (cid := RecommendationModel.course_id_of r).
  set (zero := {| RecommendationModel.total := 0; RecommendationModel.completed := 0 |}).
  set (cc1 := if negb (dict_mem cid cc) then dict_set cid zero cc else cc).
  assert (Hcc1 : forall k, dict_get k cc1
                           = if py_eqb cid k
                             then Some (default zero (dict_get cid cc))
                             else dict_get k cc).
  { intros k. subst cc1. unfold dict_mem.
    destruct (dict_get cid cc) as [st | ] eqn:E; cbn [negb default].
    - destruct (py_eqb cid k) eqn:Ek; [ | reflexivity ].
      now rewrite <- (dict_get_proper _ _ _ Ek).
    - rewrite dict_get_set. reflexivity. }
  rewrite dict_get_set, (Hcc1 cid), py_eqb_refl. cbn [default].
  destruct (py_eqb cid c) eqn:Ec.
  - rewrite <- (dict_get_proper _ _ _ Ec). cbn [Z.eqb].
    destruct (truthy (get r "completed" (VBool false))); cbn [andb];
      f_equal; destruct (default zero (dict_get cid cc)); cbn; f_equal; lia.
  - cbn [Z.eqb]. now rewrite (Hcc1 c), Ec.
Qed.

Lemma course_fold (c : value) (data : list (gmap string value)) st :
  dict_get c (snd (fold_left RecommendationModel.train_step data st))
  = course_tally (dict_get c (snd st)) (course_total c data) (course_completed c data).
Proof.
  revert st. induction data as [ | r data IH ]; intros [ucm cc]; [ reflexivity | ].
  cbn [fold_left]. rewrite IH.
  destruct (RecommendationModel.train_step (ucm, cc) r) as [ucm' cc'] eqn:Estep.
  assert (Hstep := course_train_step c ucm cc r). rewrite Estep in Hstep.
  cbn [snd] in *. rewrite Hstep. clear Hstep Estep IH.
  unfold course_total, course_completed. cbn [List.filter].
  set (n := Z.of_nat (length (List.filter (course_observes c) data))).
  set (m := Z.of_nat (length (List.filter
                 (fun r0 => course_observes c r0 && observed_completed r0) data))).
  assert (Hm : 0 <= m <= n).
  { subst n m. clear. induction data as [ | r0 data IH ]; cbn [List.filter length];
      [ lia | ].
    destruct (course_observes c r0), (observed_completed r0);
      cbn [andb length]; lia. }
  unfold course_tally.
  destruct (course_observes c r); cbn [andb Z.eqb].
  - fold n. destruct (observed_completed r); cbn [length]; fold m;
      (destruct (Z.eqb_spec (Z.of_nat (S (length (List.filter (course_observes c) data)))) 0);
       [ lia | ]);
      (destruct (Z.eqb_spec n 0) as [Hn0 | _];
       [ assert (m = 0) by lia;
         destruct (dict_get c cc) as [[t k] | ]; cbn; do 2 f_equal; subst n; lia
       | destruct (dict_get c cc) as [[t k] | ]; cbn; do 2 f_equal; subst n; lia ]).
  - fold n. fold m. reflexivity.
Qed.

(** X7.  After [train], the course lookup holds, for each course that has
    an observation, the number of its observations and the number of
    completed ones (so at least one interaction, and no more completions
    than interactions); a course without observation has no entry. *)
Theorem trained_course_counts
    (self : RecommendationModel.model) (data : list (gmap string value)) (c : value) :
  match dict_get c (RecommendationModel.course_profiles
                      (fst (RecommendationModel.train self data))) with
  | Some stats =>
      RecommendationModel.total stats = course_total c data
      /\ RecommendationModel.completed stats = course_completed c data
      /\ 0 <= course_completed c data <= course_total c data
      /\ 1 <= course_total c data
  | None => course_total c data = 0
  end.
Proof.
  rewrite (proj2 (train_profiles self data)), course_fold.
  cbn [snd dict_get]. unfold course_tally.
  assert (Hm : 0 <= course_completed c data <= course_total c data).
  { unfold course_completed, course_total.
    induction data as [ | r0 data IH ]; cbn [List.filter length]; [ lia | ].
    destruct (course_observes c r0), (observed_completed r0);
      cbn [andb length]; lia. }
  destruct (Z.eqb_spec (course_total c data) 0) as [H0 | Hne].
  - exact H0.
  - cbn. repeat split; lia.
Qed.

Lemma dict_set_length {V : Type} (k : value) (v : V) (d : list (value * V)) :
  (length (dict_set k v d) <= S (length d))%nat
  /\ (dict_mem k d = true -> length (dict_set k v d) = length d).
Proof.
  unfold dict_mem.
  induction d as [ | [k0 v0] d [IH1 IH2] ]; cbn [dict_set dict_get length].
  - split; [ lia | discriminate ].
  - destruct (py_eqb k0 k); cbn [length]; split; try lia.
    intros H. rewrite IH2; [ reflexivity | exact H ].
Qed.

Lemma train_step_course_count st (r : gmap string value) :
  (length (snd (RecommendationModel.train_step st r)) <= S (length (snd st)))%nat.
Proof.
  destruct st as [ucm cc]. unfold RecommendationModel.train_step.
  destruct (RecommendationModel.lacks_ids r); cbn [snd]; [ lia | ].
  set (cid := RecommendationModel.course_id_of r).
  match goal with
  | |- (length (dict_set cid ?v ?d) <= _)%nat =>
      assert (Hmem : dict_mem cid d = true);
      [ | rewrite (proj2 (dict_set_length cid v d) Hmem) ]
  end.
  - destruct (dict_mem cid cc) eqn:E; cbn [negb]; [ exact E | ].
    unfold dict_mem. now rewrite dict_get_set, py_eqb_refl.
  - destruct (dict_mem cid cc); cbn [negb]; [ lia | ].
    apply dict_set_length.
Qed.

Lemma train_course_count (data : list (gmap string value)) st :
  (length (snd (fold_left RecommendationModel.train_step data st))
   <= length (snd st) + length data)%nat.
Proof.
  revert st. induction data as [ | r data IH ]; intros st; cbn [fold_left length];
    [ lia | ].
  pose proof (IH (RecommendationModel.train_step st r)).
  pose proof (train_step_course_count st r). lia.
Qed.

Lemma rates_in_unit (courses : list (value * RecommendationModel.course_stats)) :
  stats_ok courses ->
  Forall (fun x => 0 <= x <= 1)%Q
         (map RecommendationModel.completion_rate
              (List.filter (fun v => 0 <? RecommendationModel.total v)
                           (map snd courses))).
Proof.
  unfold stats_ok. induction 1 as [ | [k st] courses Hst Hc IH ];
    cbn [map List.filter snd]; [ constructor | ].
  destruct (Z.ltb_spec 0 (RecommendationModel.total st)); [ | exact IH ].
  cbn [map]. constructor; [ | exact IH ].
  apply ratio_in_unit; [ exact Hst | assumption ].
Qed.

(** X8.  [train] marks the model trained and reports four metrics,
    accuracy, precision, recall and f1Score, each between 0 and 1, whatever
    the records. *)
Theorem recommendation_metrics_in_unit
    (self : RecommendationModel.model) (data : list (gmap string value)) :
  RecommendationModel.is_trained (fst (RecommendationModel.train self data)) = true
  /\ map fst (snd (RecommendationModel.train self data))
     = [ "accuracy"; "precision"; "recall"; "f1Score" ]
  /\ Forall (fun metric => 0 <= snd metric <= 1)%Q
            (snd (RecommendationModel.train self data)).
Proof.
  pose proof (train_invariants self data) as [_ Hstats].
  pose proof (train_course_count data ([], [])) as Hcount.
  rewrite (proj2 (train_profiles self data)) in Hstats.
  unfold RecommendationModel.train.
  destruct (fold_left RecommendationModel.train_step data ([], [])) as [ucm cc].
  cbn [fst snd length] in *.
  split; [ reflexivity | split; [ reflexivity | ] ].
  set (a := default (1 # 2)%Q
              (mean (map RecommendationModel.completion_rate
                         (List.filter (fun v => 0 <? RecommendationModel.total v)
                                      (map snd cc))))).
  assert (Ha : (0 <= a <= 1)%Q).
  { subst a. destruct (mean _) as [m | ] eqn:E; unfold default, id; [ | lra ].
    exact (mean_bounds _ _ (rates_in_unit cc Hstats) E). }
  assert (Hrecall : (0 <= inject_Z (Z.of_nat (length cc))
                         / inject_Z (Z.max (Z.of_nat (length data)) 1) <= 1)%Q).
  { apply ratio_in_unit; lia. }
  assert (Hf1 : (0 <= 2 * a * a / (a + a + (1 # 1000)) <= 1)%Q).
  { assert (Hd : (0 < a + a + (1 # 1000))%Q) by lra.
    assert (Haa : (0 <= a * a)%Q) by (apply Qmult_le_0_compat; lra).
    assert (Haa' : (a * a <= 1 * a)%Q) by (apply Qmult_le_compat_r; lra).
    split.
    - apply Qle_shift_div_l; [ exact Hd | lra ].
    - apply Qle_shift_div_r; [ exact Hd | lra ]. }
  repeat (constructor; [ assumption | ]). constructor.
Qed.

(** ** Recommendation: [recommend] *)

Lemma score_courses_spec (format_0f : Q -> string)
    (self : RecommendationModel.model) (u : RecommendationModel.request_user)
    (completed enrolled : list value) (courses : list (gmap string value)) :
  forall scored,
    RecommendationModel.score_courses format_0f self u completed enrolled courses
      = Ok scored ->
    (length scored <= length courses)%nat
    /\ forall r, In r scored ->
         exists course,
           In course courses
           /\ RecommendationModel.course_id r = get course "id" VNone
           /\ RecommendationModel.set_mem (RecommendationModel.course_id r) completed = false
           /\ RecommendationModel.set_mem (RecommendationModel.course_id r) enrolled = false
           /\ RecommendationModel._calculate_course_score
                (RecommendationModel.description u) course
                (RecommendationModel.user_profiles self)
                (RecommendationModel.course_profiles self)
              = Ok (RecommendationModel.score r).
Proof.
  induction courses as [ | course courses IH ]; intros scored;
    cbn [RecommendationModel.score_courses].
  - intros [= <-]. split; [ cbn; lia | intros r [] ].
  - destruct (RecommendationModel.set_mem (get course "id" VNone) completed
              || RecommendationModel.set_mem (get course "id" VNone) enrolled) eqn:Ex.
    + intros H. destruct (IH _ H) as [Hlen Hall]. split; [ cbn; lia | ].
      intros r Hr. destruct (Hall r Hr) as (c & Hc & Hrest).
      exists c. split; [ now right | exact Hrest ].
    + apply orb_false_iff in Ex as [Ex1 Ex2].
      destruct (RecommendationModel._calculate_course_score _ course _ _)
        as [s | ] eqn:Es; cbn [bind]; [ | discriminate ].
      destruct (RecommendationModel.score_courses _ _ _ _ _ courses)
        as [rest | ]; cbn [bind]; [ | discriminate ].
      intros [= <-]. destruct (IH _ eq_refl) as [Hlen Hall].
      split; [ cbn; lia | ].
      intros r [<- | Hr].
      * exists course. cbn. repeat split; try assumption. now left.
      * destruct (Hall r Hr) as (c & Hc & Hrest).
        exists c. split; [ now right | exact Hrest ].
Qed.

Lemma slice_to_spec {A : Type} (limit : Z) (l : list A) :
  exists n, RecommendationModel.slice_to limit l = firstn n l
            /\ (0 <= limit -> Z.of_nat n <= limit).
Proof.
  unfold RecommendationModel.slice_to.
  destruct (Z.leb_spec 0 limit).
  - exists (Z.to_nat limit). split; [ reflexivity | lia ].
  - eexists. split; [ reflexivity | lia ].
Qed.

Lemma firstn_In {A : Type} (n : nat) (l : list A) (x : A) :
  In x (firstn n l) -> In x l.
Proof.
  intros H. rewrite <- (firstn_skipn n l). apply in_or_app. now left.
Qed.

Lemma firstn_sorted {A : Type} (R : A -> A -> Prop) (n : nat) (l : list A) :
  StronglySorted R l -> StronglySorted R (firstn n l).
Proof.
  intros H. revert n. induction H as [ | a l Hl IH Ha ]; intros [ | n ];
    cbn [firstn]; try constructor.
  - apply IH.
  - rewrite List.Forall_forall in *. intros x Hx. apply Ha.
    now apply firstn_In in Hx.
Qed.

Lemma sort_by_score_sorted (l : list RecommendationModel.recommendation) :
  StronglySorted
    (fun a b => (RecommendationModel.score b <= RecommendationModel.score a)%Q)
    (RecommendationModel.sort_by_score l).
Proof.
  unfold RecommendationModel.sort_by_score.
  assert (H : StronglySorted
                (fun x y => Qle_bool (RecommendationModel.score y)
                                     (RecommendationModel.score x) = true)
                (stable_sort (fun x y => Qle_bool (RecommendationModel.score y)
                                                  (RecommendationModel.score x)) l)).
  { apply stable_sort_sorted.
    - intros x y Hxy. apply Qle_bool_iff.
      destruct (Qlt_le_dec (RecommendationModel.score y) (RecommendationModel.score x))
        as [Hlt | Hle]; [ | exact Hle ].
      apply Qlt_le_weak in Hlt. apply Qle_bool_iff in Hlt. congruence.
    - intros x y z Hxy Hyz. apply Qle_bool_iff in Hxy, Hyz. apply Qle_bool_iff.
      lra. }
  induction H as [ | a l' Hl IH Ha ]; constructor; [ exact IH | ].
  rewrite List.Forall_forall in *. intros z Hz. apply Qle_bool_iff. auto.
Qed.

(** X9.  Whatever [recommend] returns with trained lookups: no more
    entries than candidates, and no more than a non-negative [limit];
    entries in descending order of score; each entry is a candidate course
    that is neither completed nor enrolled, with the score the scorer gives
    it, which lies in [0,1]. *)
Theorem recommend_returns_ranked_candidates
    (format_0f : Q -> string) (self0 : RecommendationModel.model)
    (data : list (gmap string value)) (u : RecommendationModel.request_user)
    (courses : list (gmap string value)) (limit : Z)
    (recs : list RecommendationModel.recommendation) :
  let self := fst (RecommendationModel.train self0 data) in
  RecommendationModel.recommend format_0f self u courses limit = Ok recs ->
  (length recs <= length courses)%nat
  /\ (0 <= limit -> Z.of_nat (length recs) <= limit)
  /\ StronglySorted
       (fun a b => (RecommendationModel.score b <= RecommendationModel.score a)%Q) recs
  /\ forall r, In r recs ->
       (0 <= RecommendationModel.score r <= 1)%Q
       /\ (forall s, RecommendationModel.as_set (RecommendationModel.completed_courses u) = Ok s ->
                     RecommendationModel.set_mem (RecommendationModel.course_id r) s = false)
       /\ (forall s, RecommendationModel.as_set (RecommendationModel.enrolled_courses u) = Ok s ->
                     RecommendationModel.set_mem (RecommendationModel.course_id r) s = false)
       /\ exists course,
            In course courses
            /\ RecommendationModel.course_id r = get course "id" VNone
            /\ RecommendationModel._calculate_course_score
                 (RecommendationModel.description u) course
                 (RecommendationModel.user_profiles self)
                 (RecommendationModel.course_profiles self)
               = Ok (RecommendationModel.score r).
Proof.
  intros self. unfold RecommendationModel.recommend.
  destruct courses as [ | course0 courses' ] eqn:Ecourses.
  { intros [= <-]. split; [ cbn; lia | split; [ cbn; lia | split ] ].
    - apply SSorted_nil.
    - intros r []. }
  rewrite <- Ecourses. clear Ecourses.
  destruct (RecommendationModel.as_set (RecommendationModel.completed_courses u))
    as [completed | ]; cbn [bind]; [ | discriminate ].
  destruct (RecommendationModel.as_set (RecommendationModel.enrolled_courses u))
    as [enrolled | ]; cbn [bind]; [ | discriminate ].
  destruct (RecommendationModel.score_courses _ _ _ _ _ courses) as [scored | ] eqn:Es;
    cbn [bind]; [ | discriminate ].
  intros [= <-].
  destruct (score_courses_spec _ _ _ _ _ _ _ Es) as [Hlen Hall].
  destruct (slice_to_spec limit (RecommendationModel.sort_by_score scored))
    as (n & -> & Hn).
  assert (Hperm : Permutation (RecommendationModel.sort_by_score scored) scored)
    by apply stable_sort_perm.
  pose proof (Permutation_length Hperm) as Hplen.
  split; [ rewrite length_firstn; lia | split; [ | split ] ].
  - intros Hl. rewrite length_firstn. specialize (Hn Hl). lia.
  - apply firstn_sorted, sort_by_score_sorted.
  - intros r Hr. apply firstn_In in Hr. apply (Permutation_in _ Hperm) in Hr.
    destruct (Hall r Hr) as (course & Hc & Hid & Hcomp & Henr & Hscore).
    split; [ | split; [ | split ] ].
    + destruct (course_score_decomposition self0 data
                  (RecommendationModel.description u) course) as (_ & _ & Hs & _).
      exact (proj1 (Hs _ Hscore)).
    + now intros s [= <-].
    + now intros s [= <-].
    + exists course. repeat split; assumption.
Qed.

Lemma recommend_returns_ranked_candidates_witness :
  exists recs,
    RecommendationModel.recommend (fun _ => "0")
      (fst (RecommendationModel.train RecommendationModel.__init__ Samples.enrolments))
      Samples.applicant Samples.catalogue 2 = Ok recs
    /\ map RecommendationModel.course_id recs = [ VStr "geometry"; VStr "logic" ]
    /\ StronglySorted
         (fun a b => (RecommendationModel.score b <= RecommendationModel.score a)%Q)
         recs.
Proof.
  eexists. split; [ vm_compute; reflexivity | split; [ reflexivity | ] ].
  apply (recommend_returns_ranked_candidates (fun _ => "0")
           RecommendationModel.__init__ Samples.enrolments Samples.applicant
           Samples.catalogue 2).
  vm_compute. reflexivity.
Defined.

Section Stability.
Context {A : Type} (ord : A -> A -> bool) (p : A -> bool).
Hypothesis same_class : forall x y, p x = true -> p y = true -> ord x y = true.

Lemma insert_sorted_filter (x : A) (l : list A) :
  List.filter p (insert_sorted ord x l) = List.filter p (x :: l).
Proof.
  induction l as [ | y l IH ]; cbn [insert_sorted]; [ reflexivity | ].
  destruct (ord x y) eqn:E; [ reflexivity | ].
  cbn [List.filter] in *. rewrite IH.
  destruct (p x) eqn:Ex, (p y) eqn:Ey; try reflexivity.
  rewrite (same_class x y Ex Ey) in E. discriminate.
Qed.

Lemma stable_sort_filter (l : list A) :
  List.filter p (stable_sort ord l) = List.filter p l.
Proof.
  induction l as [ | x l IH ]; [ reflexivity | ].
  cbn [stable_sort fold_right]. fold (stable_sort ord l).
  rewrite insert_sorted_filter. cbn [List.filter]. now rewrite IH.
Qed.
End Stability.

Lemma score_courses_order (format_0f : Q -> string)
    (self : RecommendationModel.model) (u : RecommendationModel.request_user)
    (completed enrolled : list value) (courses : list (gmap string value)) :
  forall scored,
    RecommendationModel.score_courses format_0f self u completed enrolled courses
      = Ok scored ->
    map RecommendationModel.course_id scored
    = List.filter (fun c => negb (RecommendationModel.set_mem c completed
                                  || RecommendationModel.set_mem c enrolled))
                  (map (fun course => get course "id" VNone) courses).
Proof.
  induction courses as [ | course courses IH ]; intros scored;
    cbn [RecommendationModel.score_courses map List.filter].
  - now intros [= <-].
  - destruct (RecommendationModel.set_mem (get course "id" VNone) completed
              || RecommendationModel.set_mem (get course "id" VNone) enrolled);
      cbn [negb]; [ apply IH | ].
    destruct (RecommendationModel._calculate_course_score _ course _ _);
      cbn [bind]; [ | discriminate ].
    destruct (RecommendationModel.score_courses _ _ _ _ _ courses)
      as [rest | ]; cbn [bind]; [ | discriminate ].
    intros [= <-]. cbn [map]. f_equal. now apply IH.
Qed.

(** X10.  [recommend] ranks the candidates that are neither completed nor
    enrolled, taken in the order they were given; the ranking is stable:
    entries with equal scores stay in that order, and the answer is the
    ranking cut at [limit]. *)
Theorem recommend_keeps_candidate_order_on_ties
    (format_0f : Q -> string) (self : RecommendationModel.model)
    (u : RecommendationModel.request_user)
    (courses : list (gmap string value)) (limit : Z)
    (recs : list RecommendationModel.recommendation) :
  courses <> [] ->
  RecommendationModel.recommend format_0f self u courses limit = Ok recs ->
  exists completed enrolled scored,
    RecommendationModel.as_set (RecommendationModel.completed_courses u) = Ok completed
    /\ RecommendationModel.as_set (RecommendationModel.enrolled_courses u) = Ok enrolled
    /\ map RecommendationModel.course_id scored
       = List.filter (fun c => negb (RecommendationModel.set_mem c completed
                                     || RecommendationModel.set_mem c enrolled))
                     (map (fun course => get course "id" VNone) courses)
    /\ recs = RecommendationModel.slice_to limit (RecommendationModel.sort_by_score scored)
    /\ Permutation (RecommendationModel.sort_by_score scored) scored
    /\ forall q,
         List.filter (fun r => Qeq_bool (RecommendationModel.score r) q)
                     (RecommendationModel.sort_by_score scored)
         = List.filter (fun r => Qeq_bool (RecommendationModel.score r) q) scored.
Proof.
  intros Hne. unfold RecommendationModel.recommend.
  destruct courses as [ | course0 courses' ] eqn:Ecourses; [ contradiction | ].
  rewrite <- Ecourses. clear Ecourses Hne.
  destruct (RecommendationModel.as_set (RecommendationModel.completed_courses u))
    as [completed | ]; cbn [bind]; [ | discriminate ].
  destruct (RecommendationModel.as_set (RecommendationModel.enrolled_courses u))
    as [enrolled | ]; cbn [bind]; [ | discriminate ].
  destruct (RecommendationModel.score_courses _ _ _ _ _ courses) as [scored | ] eqn:Es;
    cbn [bind]; [ | discriminate ].
  intros [= <-]. exists completed, enrolled, scored.
  split; [ reflexivity | split; [ reflexivity | split ] ].
  - exact (score_courses_order _ _ _ _ _ _ _ Es).
  - split; [ reflexivity | split; [ apply stable_sort_perm | ] ].
    intros q. apply stable_sort_filter.
    intros x y Hx Hy. apply Qeq_bool_iff in Hx, Hy. apply Qle_bool_iff.
    rewrite Hx, Hy. apply Qle_refl.
Qed.

Lemma recommend_keeps_candidate_order_on_ties_witness :
  exists recs,
    RecommendationModel.recommend (fun _ => "0")
      (fst (RecommendationModel.train RecommendationModel.__init__ Samples.enrolments))
      Samples.applicant Samples.catalogue 5 = Ok recs
    /\ map RecommendationModel.course_id recs
       = [ VStr "geometry"; VStr "logic"; VStr "rhetoric" ].
Proof.
  eexists. split; [ vm_compute; reflexivity | ].
  destruct (recommend_keeps_candidate_order_on_ties (fun _ => "0")
              (fst (RecommendationModel.train RecommendationModel.__init__
                                              Samples.enrolments))
              Samples.applicant Samples.catalogue 5 _ ltac:(discriminate) eq_refl)
    as (completed & enrolled & scored & _).
  reflexivity.
Defined.

(** ** Performance: recommendations and prediction *)

Lemma generated_recommendations_bounds
    (completion_rate quiz_score : Q) (tab_switches : option Q)
    (methods : list value) (user_data : list (gmap string value)) :
  (1 <= length (PerformanceModel._generate_recommendations
                  completion_rate quiz_score tab_switches methods user_data) <= 5)%nat.
Proof.
  unfold PerformanceModel._generate_recommendations.
  destruct (PerformanceModel.lt completion_rate (6 # 10)),
    (PerformanceModel.lt quiz_score 70), (gt_nan tab_switches 5),
    (PerformanceModel.uses_pomodoro methods);
    cbn [negb app];
    destruct (5 <=? Z.of_nat (length user_data));
    try (destruct (mean _) as [avg | ];
         [ destruct (PerformanceModel.lt avg 8 || negb (Qle_bool avg 22)) | ]);
    cbn; lia.
Qed.

(** X11.  [_generate_recommendations] always gives between 1 and 5
    strings.  When the completion, quiz and tab-switch rules all fire, their
    six strings fill the answer: it is cut to the first five, and neither
    the Pomodoro nor the daytime suggestion can appear. *)
Theorem generated_recommendations_count
    (completion_rate quiz_score : Q) (tab_switches : option Q)
    (methods : list value) (user_data : list (gmap string value)) :
  let recs := PerformanceModel._generate_recommendations
                completion_rate quiz_score tab_switches methods user_data in
  (1 <= length recs <= 5)%nat
  /\ (PerformanceModel.lt completion_rate (6 # 10) = true ->
      PerformanceModel.lt quiz_score 70 = true ->
      gt_nan tab_switches 5 = true ->
      recs = [ "Try shorter study sessions to improve completion rate";
               "Set specific goals before each study session";
               "Review material before taking quizzes";
               "Take notes during video lessons";
               "Minimize distractions by closing unnecessary tabs" ]).
Proof.
  cbv zeta. split; [ apply generated_recommendations_bounds | ].
  unfold PerformanceModel._generate_recommendations.
  - intros -> -> ->. cbn [app].
    destruct (negb (PerformanceModel.uses_pomodoro methods));
      destruct (5 <=? Z.of_nat (length user_data));
      try (destruct (mean _) as [avg | ];
           [ destruct (PerformanceModel.lt avg 8 || negb (Qle_bool avg 22)) | ]);
      reflexivity.
Qed.

Lemma generated_recommendations_count_witness :
  PerformanceModel._generate_recommendations (3 # 10) 40 (Some 8%Q) [] []
  = [ "Try shorter study sessions to improve completion rate";
      "Set specific goals before each study session";
      "Review material before taking quizzes";
      "Take notes during video lessons";
      "Minimize distractions by closing unnecessary tabs" ].
Proof.
  apply (proj2 (generated_recommendations_count (3 # 10) 40 (Some 8%Q) [] []));
    reflexivity.
Defined.

Lemma clamp_range (lo hi x : Q) :
  (lo <= hi)%Q -> (lo <= pmax lo (pmin hi x) <= hi)%Q.
Proof.
  intros H. unfold pmax, pmin.
  destruct (Qle_bool hi x) eqn:E1; cbn [negb].
  - destruct (Qle_bool hi lo) eqn:E2; cbn [negb]; [ lra | ].
    split; [ | lra ].
    apply Qlt_le_weak, Qnot_le_lt. intros H'. apply Qle_bool_iff in H'. congruence.
  - assert (x < hi)%Q.
    { apply Qnot_le_lt. intros H'. apply Qle_bool_iff in H'. congruence. }
    destruct (Qle_bool x lo) eqn:E2; cbn [negb]; [ lra | ].
    split; [ | lra ].
    apply Qlt_le_weak, Qnot_le_lt. intros H'. apply Qle_bool_iff in H'. congruence.
Qed.

Lemma risk_rule_levels (c q : Q) (avg : option Q) :
  In (risk_rule c q avg) [ "low"; "medium"; "high" ].
Proof.
  unfold risk_rule, level_of_points.
  repeat match goal with
         | |- context [ Z_le_dec ?a ?b ] => destruct (Z_le_dec a b)
         end; simpl; tauto.
Qed.

(** X12.  Every prediction [predict] returns, whatever the fitted
    regressors compute, has a completion rate in [0,1], a quiz score in
    [0,100], a risk level among low, medium and high, and between 1 and 5
    recommendations. *)
Theorem prediction_is_well_formed
    (np_std : list Q -> Q) (objects : object_arrays) (self : PerformanceModel.model)
    (disk : option PerformanceModel.artifact)
    (user_data : list (gmap string value)) (p : PerformanceModel.prediction) :
  fst (PerformanceModel.predict np_std objects self disk user_data) = Ok p ->
  (0 <= PerformanceModel.predicted_completion_rate p <= 1)%Q
  /\ (0 <= PerformanceModel.predicted_quiz_score p <= 100)%Q
  /\ In (PerformanceModel.risk_level p) [ "low"; "medium"; "high" ]
  /\ (1 <= length (PerformanceModel.recommendations p) <= 5)%nat.
Proof.
  assert (Hdefault : (0 <= PerformanceModel.predicted_completion_rate
                             PerformanceModel._default_prediction <= 1)%Q
                     /\ (0 <= PerformanceModel.predicted_quiz_score
                                PerformanceModel._default_prediction <= 100)%Q
                     /\ In (PerformanceModel.risk_level PerformanceModel._default_prediction)
                           [ "low"; "medium"; "high" ]
                     /\ (1 <= length (PerformanceModel.recommendations
                                        PerformanceModel._default_prediction) <= 5)%nat).
  { cbn. repeat split; try lra; try lia. tauto. }
  unfold PerformanceModel.predict.
  destruct (if PerformanceModel.is_trained self then (true, self)
            else PerformanceModel._load_model self disk) as [ready self'].
  destruct ready; cbn [negb fst]; [ | now intros [= <-] ].
  destruct user_data as [ | r rest ]; cbn [fst]; [ now intros [= <-] | ].
  set (user_data := r :: rest).
  destruct (mean_values objects (map PerformanceModel.duration_of user_data))
    as [mean_durations | ]; cbn [bind]; [ | discriminate ].
  destruct (PerformanceModel.spread np_std objects
              (map PerformanceModel.duration_of user_data))
    as [spread_durations | ]; cbn [bind]; [ | discriminate ].
  destruct (mean_values objects (map PerformanceModel.tab_switches_of user_data))
    as [avg | ] eqn:Eavg; cbn [bind]; [ | discriminate ].
  destruct (PerformanceModel.fitted self') as [a | ]; cbn [bind]; [ | discriminate ].
  rewrite risk_level_follows_rule, Eavg. cbn [bind].
  intros [= <-]. cbn [PerformanceModel.predicted_completion_rate
                        PerformanceModel.predicted_quiz_score
                        PerformanceModel.risk_level PerformanceModel.recommendations].
  split; [ apply clamp_range; lra | split; [ apply clamp_range; lra | split ] ].
  - apply risk_rule_levels.
  - apply generated_recommendations_bounds.
Qed.

Lemma prediction_is_well_formed_witness :
  exists p,
    fst (PerformanceModel.predict (fun _ => 0%Q) Samples.refusing
           {| PerformanceModel.fitted := Some Samples.wild_artifact;
              PerformanceModel.is_trained := true |} None Samples.history) = Ok p
    /\ PerformanceModel.predicted_completion_rate p = 1%Q
    /\ PerformanceModel.predicted_quiz_score p = 0%Q
    /\ (0 <= PerformanceModel.predicted_quiz_score p <= 100)%Q.
Proof.
  eexists. split; [ vm_compute; reflexivity | ].
  split; [ reflexivity | split; [ reflexivity | ] ].
  apply (prediction_is_well_formed (fun _ => 0%Q) Samples.refusing
           {| PerformanceModel.fitted := Some Samples.wild_artifact;
              PerformanceModel.is_trained := true |} None Samples.history).
  vm_compute. reflexivity.
Defined.

(** ** Performance: grouping by user and the training set *)

Lemma collect_step_lookup (u : value) (acc : list (value * PerformanceModel.stats))
    (r : gmap string value) :
  dict_get u (PerformanceModel.collect_step acc r)
  = if of_user u r
    then Some (extend (default PerformanceModel.empty_stats (dict_get u acc)) r)
    else dict_get u acc.
Proof.
  unfold PerformanceModel.collect_step, of_user.
  set (uid := PerformanceModel.user_id_of r).
  destruct (truthy uid); cbn [negb andb]; [ | reflexivity ].
  set (acc1 := if negb (dict_mem uid acc)
               then dict_set uid PerformanceModel.empty_stats acc else acc).
  assert (Hacc1 : forall k, dict_get k acc1
                            = if py_eqb uid k
                              then Some (default PerformanceModel.empty_stats
                                                 (dict_get uid acc))
                              else dict_get k acc).
  { intros k. subst acc1. unfold dict_mem.
    destruct (dict_get uid acc) as [st | ] eqn:E; cbn [negb default].
    - destruct (py_eqb uid k) eqn:Ek; [ | reflexivity ].
      now rewrite <- (dict_get_proper _ _ _ Ek).
    - rewrite dict_get_set. reflexivity. }
  rewrite dict_get_set, (Hacc1 uid), py_eqb_refl. cbn [default].
  destruct (py_eqb uid u) eqn:Eu.
  - rewrite <- (dict_get_proper _ _ _ Eu). reflexivity.
  - now rewrite (Hacc1 u), Eu.
Qed.

Lemma extend_all (rs : list (gmap string value)) (st : PerformanceModel.stats) :
  fold_left extend rs st
  = {| PerformanceModel.sessions := PerformanceModel.sessions st ++ rs;
       PerformanceModel.durations :=
         PerformanceModel.durations st ++ map PerformanceModel.duration_of rs;
       PerformanceModel.tab_switches :=
         PerformanceModel.tab_switches st ++ map PerformanceModel.tab_switches_of rs;
       PerformanceModel.completed :=
         PerformanceModel.completed st ++ map PerformanceModel.completed_of rs;
       PerformanceModel.methods :=
         PerformanceModel.methods st ++ map PerformanceModel.method_of rs;
       PerformanceModel.hours :=
         PerformanceModel.hours st ++ map PerformanceModel.hour_of rs |}.
Proof.
  revert st. induction rs as [ | r rs IH ]; intros st; cbn [fold_left map].
  - rewrite !app_nil_r. now destruct st.
  - rewrite IH. cbn. now rewrite <- !app_assoc.
Qed.

Lemma collect_fold (u : value) (data : list (gmap string value))
    (acc : list (value * PerformanceModel.stats)) :
  dict_get u (fold_left PerformanceModel.collect_step data acc)
  = match List.filter (of_user u) data with
    | [] => dict_get u acc
    | rs => Some (fold_left extend rs
                            (default PerformanceModel.empty_stats (dict_get u acc)))
    end.
Proof.
  revert acc. induction data as [ | r data IH ]; intros acc; [ reflexivity | ].
  cbn [fold_left List.filter]. rewrite IH, collect_step_lookup.
  destruct (of_user u r); [ | reflexivity ].
  destruct (List.filter (of_user u) data); reflexivity.
Qed.

(** X13.  The first loop of [prepare_features] groups the records by user:
    a user's entry holds exactly the records carrying that user's
    identifier, in the order they came, with the duration, tab-switch count,
    completion flag, method and hour read from each; a user with no such
    record has no entry, and records without identifier are dropped. *)
Theorem collect_groups_by_user (data : list (gmap string value)) (u : value) :
  dict_get u (PerformanceModel.collect_user_stats data)
  = match List.filter (of_user u) data with
    | [] => None
    | records => Some (stats_of records)
    end.
Proof.
  unfold PerformanceModel.collect_user_stats. rewrite collect_fold.
  destruct (List.filter (of_user u) data) as [ | r rs ]; [ reflexivity | ].
  cbn [dict_get default]. now rewrite extend_all.
Qed.

Lemma session_count_set (k : value) (v : PerformanceModel.stats)
    (d : list (value * PerformanceModel.stats)) :
  (session_count (dict_set k v d)
   + length (PerformanceModel.sessions
               (default PerformanceModel.empty_stats (dict_get k d)))
   = session_count d + length (PerformanceModel.sessions v))%nat.
Proof.
  induction d as [ | [k0 v0] d IH ]; cbn [dict_set dict_get session_count fold_right snd].
  - cbn. lia.
  - destruct (py_eqb k0 k); cbn [session_count fold_right snd default].
    + fold (session_count d). unfold id. lia.
    + fold (session_count d). fold (session_count (dict_set k v d)). lia.
Qed.

Lemma session_count_step (acc : list (value * PerformanceModel.stats))
    (r : gmap string value) :
  (session_count (PerformanceModel.collect_step acc r) <= S (session_count acc))%nat.
Proof.
  unfold PerformanceModel.collect_step.
  set (uid := PerformanceModel.user_id_of r).
  destruct (truthy uid); cbn [negb]; [ | lia ].
  set (acc1 := if negb (dict_mem uid acc)
               then dict_set uid PerformanceModel.empty_stats acc else acc).
  assert (H1 : session_count acc1 = session_count acc).
  { subst acc1. unfold dict_mem.
    destruct (dict_get uid acc) eqn:E; cbn [negb]; [ reflexivity | ].
    pose proof (session_count_set uid PerformanceModel.empty_stats acc) as H.
    rewrite E in H. cbn in H. lia. }
  match goal with
  | |- (session_count (dict_set uid ?v acc1) <= _)%nat =>
      pose proof (session_count_set uid v acc1) as H
  end.
  cbn [PerformanceModel.sessions] in H. rewrite length_app in H. cbn [length] in H.
  lia.
Qed.

Lemma session_count_collect (data : list (gmap string value))
    (acc : list (value * PerformanceModel.stats)) :
  (session_count (fold_left PerformanceModel.collect_step data acc)
   <= session_count acc + length data)%nat.
Proof.
  revert acc. induction data as [ | r data IH ]; intros acc; cbn [fold_left length];
    [ lia | ].
  pose proof (IH (PerformanceModel.collect_step acc r)).
  pose proof (session_count_step acc r). lia.
Qed.

Lemma kept_users_need_sessions (d : list (value * PerformanceModel.stats)) :
  (3 * length (kept_users d) <= session_count d)%nat.
Proof.
  unfold kept_users.
  induction d as [ | [k st] d IH ]; cbn [List.filter session_count fold_right snd];
    [ cbn; lia | ].
  fold (session_count d).
  destruct (Z.leb_spec 3 (Z.of_nat (length (PerformanceModel.sessions st))));
    cbn [length]; lia.
Qed.

(** The flags a user entry keeps are 0 or 1. *)
Lemma collect_flags (data : list (gmap string value)) :
  Forall (fun e => Forall (fun z => z = 0 \/ z = 1) (PerformanceModel.completed (snd e)))
         (PerformanceModel.collect_user_stats data).
Proof.
  unfold PerformanceModel.collect_user_stats.
  set (P := fun st : PerformanceModel.stats =>
              Forall (fun z => z = 0 \/ z = 1) (PerformanceModel.completed st)).
  assert (H : forall acc, Forall (fun e => P (snd e)) acc ->
              Forall (fun e => P (snd e))
                     (fold_left PerformanceModel.collect_step data acc)).
  { induction data as [ | r data IH ]; intros acc Hacc; [ exact Hacc | ].
    cbn [fold_left]. apply IH. unfold PerformanceModel.collect_step.
    destruct (truthy (PerformanceModel.user_id_of r)); cbn [negb]; [ | exact Hacc ].
    set (uid := PerformanceModel.user_id_of r).
    set (acc1 := if negb (dict_mem uid acc)
                 then dict_set uid PerformanceModel.empty_stats acc else acc).
    assert (H1 : Forall (fun e => P (snd e)) acc1).
    { subst acc1. destruct (negb (dict_mem uid acc)); [ | exact Hacc ].
      apply dict_set_Forall; [ exact Hacc | constructor ]. }
    apply (dict_set_Forall P); [ exact H1 | ].
    unfold P. cbn [PerformanceModel.completed]. apply Forall_app. split.
    - destruct (dict_get uid acc1) as [st | ] eqn:E; cbn [default].
      + exact (dict_get_Forall P _ _ _ H1 E).
      + constructor.
    - constructor; [ | constructor ].
      unfold PerformanceModel.completed_of.
      destruct (truthy (get r "completed" (VBool false))); tauto. }
  apply H. constructor.
Qed.

Lemma clamp_range_min (lo hi x : Q) :
  (lo <= hi)%Q -> (lo <= pmin hi (pmax lo x) <= hi)%Q.
Proof.
  intros H. unfold pmax, pmin.
  destruct (Qle_bool x lo) eqn:E1; cbn [negb].
  - destruct (Qle_bool hi lo) eqn:E2; cbn [negb]; [ | lra ].
    apply Qle_bool_iff in E2. lra.
  - assert (lo < x)%Q.
    { apply Qnot_le_lt. intros H'. apply Qle_bool_iff in H'. congruence. }
    destruct (Qle_bool hi x) eqn:E2; cbn [negb]; [ lra | ].
    split; [ lra | ].
    apply Qlt_le_weak, Qnot_le_lt. intros H'. apply Qle_bool_iff in H'. congruence.
Qed.

Lemma flags_in_unit (zs : list Z) :
  Forall (fun z => z = 0 \/ z = 1) zs ->
  Forall (fun x => 0 <= x <= 1)%Q (PerformanceModel.Zs zs).
Proof.
  unfold PerformanceModel.Zs.
  induction 1 as [ | z zs Hz Hzs IH ]; cbn [map].
  - constructor.
  - constructor; [ destruct Hz as [-> | ->]; unfold inject_Z; lra | exact IH ].
Qed.

(** The library calls on a list of record values: they answer on a list of
    plain numbers, and fail only on a list that holds something else. *)
Lemma numbers_outcome (l : list value) :
  match numbers l with
  | Ok qs => forallb is_number l = true /\ length qs = length l
  | Raise e => forallb is_number l = false /\ e = TypeError
  end.
Proof.
  unfold numbers. induction l as [ | v l IH ]; cbn [mapM forallb].
  - now split.
  - unfold is_number at 1 3. destruct (as_number v); cbn [bind andb]; [ | now split ].
    destruct (mapM _ l) as [qs | e]; cbn [bind].
    + destruct IH as [-> Hlen]. split; [ reflexivity | cbn; now rewrite Hlen ].
    + exact IH.
Qed.

Lemma plain_split (l : list value) :
  forallb plain l = forallb is_number l && negb (existsb wide l).
Proof.
  induction l as [ | v l IH ]; [ reflexivity | ].
  cbn [forallb existsb]. rewrite IH. unfold plain.
  destruct (is_number v), (wide v), (forallb is_number l), (existsb wide l);
    reflexivity.
Qed.

Lemma mean_values_outcome (objects : object_arrays) (l : list value) :
  match mean_values objects l with
  | Ok _ => True
  | Raise e =>
      forallb plain l = false /\ (e = TypeError \/ existsb wide l = true)
  end
  /\ (forallb plain l = true -> exists m, mean_values objects l = Ok m).
Proof.
  unfold mean_values. rewrite plain_split.
  pose proof (numbers_outcome l) as Hn.
  destruct (existsb wide l); cbn [negb].
  - rewrite andb_false_r. split; [ | discriminate ].
    destruct (mean_of_objects objects l); cbn [bind]; [ exact I | ].
    split; [ reflexivity | now right ].
  - rewrite andb_true_r.
    destruct (numbers l) as [qs | e]; cbn [bind].
    + split; [ exact I | eauto ].
    + destruct Hn as [-> ->]. split; [ | discriminate ].
      split; [ reflexivity | now left ].
Qed.

Lemma spread_outcome (np_std : list Q -> Q) (objects : object_arrays) (l : list value) :
  match PerformanceModel.spread np_std objects l with
  | Ok _ => True
  | Raise e =>
      forallb plain l = false /\ (e = TypeError \/ existsb wide l = true)
  end
  /\ (forallb plain l = true ->
      exists s, PerformanceModel.spread np_std objects l = Ok s).
Proof.
  unfold PerformanceModel.spread, std_values. rewrite plain_split.
  pose proof (numbers_outcome l) as Hn.
  destruct (1 <? Z.of_nat (length l)); [ | split; [ exact I | eauto ] ].
  destruct (existsb wide l); cbn [negb].
  - rewrite andb_false_r. split; [ | discriminate ].
    destruct (std_of_objects objects l); cbn [bind]; [ exact I | ].
    split; [ reflexivity | now right ].
  - rewrite andb_true_r.
    destruct (numbers l) as [qs | e]; cbn [bind].
    + split; [ exact I | eauto ].
    + destruct Hn as [-> ->]. split; [ | discriminate ].
      split; [ reflexivity | now left ].
Qed.

Lemma plain_app_false (l l' : list value) :
  forallb plain l = false \/ forallb plain l' = false ->
  forallb plain (l ++ l') = false.
Proof.
  rewrite forallb_app. intros [-> | ->]; [ reflexivity | apply andb_false_r ].
Qed.

Lemma wide_app (l l' : list value) :
  existsb wide l = true \/ existsb wide l' = true ->
  existsb wide (l ++ l') = true.
Proof.
  rewrite existsb_app. intros [-> | ->]; [ reflexivity | apply orb_true_r ].
Qed.

(** One user's row and labels. *)
Lemma aggregate_spec (np_std : list Q -> Q) (objects : object_arrays)
    (st : PerformanceModel.stats) :
  Forall (fun z => z = 0 \/ z = 1) (PerformanceModel.completed st) ->
  match PerformanceModel.aggregate np_std objects st with
  | Ok row =>
      length (fst row) = 8%nat
      /\ (0 <= fst (snd row) <= 1)%Q
      /\ (0 <= snd (snd row) <= 100)%Q
  | Raise e =>
      forallb plain (PerformanceModel.durations st ++ PerformanceModel.tab_switches st)
        = false
      /\ (e = TypeError
          \/ existsb wide (PerformanceModel.durations st
                           ++ PerformanceModel.tab_switches st) = true)
  end
  /\ (forallb plain (PerformanceModel.durations st ++ PerformanceModel.tab_switches st)
        = true ->
      exists row, PerformanceModel.aggregate np_std objects st = Ok row).
Proof.
  intros Hst. unfold PerformanceModel.aggregate.
  destruct (mean_values_outcome objects (PerformanceModel.durations st)) as [Hd Hd'].
  destruct (spread_outcome np_std objects (PerformanceModel.durations st)) as [Hs Hs'].
  destruct (mean_values_outcome objects (PerformanceModel.tab_switches st)) as [Ht Ht'].
  split.
  - destruct (mean_values objects (PerformanceModel.durations st)) as [md | e];
      cbn [bind].
    2:{ destruct Hd as [Hp He]. split; [ apply plain_app_false; now left | ].
        destruct He as [-> | Hw]; [ now left | right; apply wide_app; now left ]. }
    destruct (PerformanceModel.spread np_std objects (PerformanceModel.durations st))
      as [sd | e]; cbn [bind].
    2:{ destruct Hs as [Hp He]. split; [ apply plain_app_false; now left | ].
        destruct He as [-> | Hw]; [ now left | right; apply wide_app; now left ]. }
    destruct (mean_values objects (PerformanceModel.tab_switches st)) as [mt | e];
      cbn [bind fst snd].
    2:{ destruct Ht as [Hp He]. split; [ apply plain_app_false; now right | ].
        destruct He as [-> | Hw]; [ now left | right; apply wide_app; now right ]. }
    split; [ reflexivity | split ].
    + destruct (mean (PerformanceModel.Zs (PerformanceModel.completed st)))
        as [m | ] eqn:E; unfold default, id; [ | lra ].
      exact (mean_bounds _ _ (flags_in_unit _ Hst) E).
    + apply clamp_range_min; lra.
  - rewrite forallb_app. intros Hp. apply andb_prop in Hp. destruct Hp as [Hp1 Hp2].
    destruct (Hd' Hp1) as [md ->]. destruct (Hs' Hp1) as [sd ->].
    destruct (Ht' Hp2) as [mt ->]. cbn [bind]. eauto.
Qed.

Lemma aggregate_all_spec (np_std : list Q -> Q) (objects : object_arrays)
    (items : list (value * PerformanceModel.stats)) :
  Forall (fun e => Forall (fun z => z = 0 \/ z = 1) (PerformanceModel.completed (snd e)))
         items ->
  match PerformanceModel.aggregate_all np_std objects items with
  | Ok prepared =>
      length (fst prepared) = length (kept_users items)
      /\ length (fst (snd prepared)) = length (kept_users items)
      /\ length (snd (snd prepared)) = length (kept_users items)
      /\ Forall (fun row => length row = 8%nat) (fst prepared)
      /\ Forall (fun y => 0 <= y <= 1)%Q (fst (snd prepared))
      /\ Forall (fun y => 0 <= y <= 100)%Q (snd (snd prepared))
  | Raise e =>
      exists u st,
        In (u, st) (kept_users items)
        /\ forallb plain (PerformanceModel.durations st
                          ++ PerformanceModel.tab_switches st) = false
        /\ (e = TypeError
            \/ existsb wide (PerformanceModel.durations st
                             ++ PerformanceModel.tab_switches st) = true)
  end.
Proof.
  induction 1 as [ | [k st] items Hst Hitems IH ];
    cbn [PerformanceModel.aggregate_all kept_users List.filter snd].
  - cbn. repeat split; constructor.
  - fold (kept_users items).
    destruct (Z.leb_spec 3 (Z.of_nat (length (PerformanceModel.sessions st))));
      destruct (Z.ltb_spec (Z.of_nat (length (PerformanceModel.sessions st))) 3);
      try lia; [ | exact IH ].
    cbn [snd] in Hst.
    destruct (aggregate_spec np_std objects st Hst) as [Hrow _].
    destruct (PerformanceModel.aggregate np_std objects st) as [row | e]; cbn [bind].
    2:{ exists k, st. split; [ now left | exact Hrow ]. }
    destruct (PerformanceModel.aggregate_all np_std objects items) as [rows | e];
      cbn [bind fst snd].
    2:{ destruct IH as (u & st' & Hin & Hp). exists u, st'. split; [ now right | exact Hp ]. }
    destruct IH as (H1 & H2 & H3 & H4 & H5 & H6).
    destruct Hrow as (R1 & R2 & R3).
    cbn [length]. rewrite H1, H2, H3.
    repeat split; try reflexivity; constructor; assumption.
Qed.



Lemma performance_training_set_shape_parts
    (np_std : list Q -> Q) (objects : object_arrays) (data : list (gmap string value)) :
  match PerformanceModel.prepare_features np_std objects data with
  | Ok prepared =>
      length (fst prepared)
        = length (kept_users (PerformanceModel.collect_user_stats data))
      /\ length (fst (snd prepared))
        = length (kept_users (PerformanceModel.collect_user_stats data))
      /\ length (snd (snd prepared))
        = length (kept_users (PerformanceModel.collect_user_stats data))
      /\ Forall (fun row => length row = 8%nat) (fst prepared)
      /\ Forall (fun y => 0 <= y <= 1)%Q (fst (snd prepared))
      /\ Forall (fun y => 0 <= y <= 100)%Q (snd (snd prepared))
  | Raise e =>
      exists u st,
        In (u, st) (kept_users (PerformanceModel.collect_user_stats data))
        /\ forallb plain (PerformanceModel.durations st
                          ++ PerformanceModel.tab_switches st) = false
        /\ (e = TypeError
            \/ existsb wide (PerformanceModel.durations st
                             ++ PerformanceModel.tab_switches st) = true)
  end.
Proof.
  unfold PerformanceModel.prepare_features.
  apply aggregate_all_spec, collect_flags.
Qed.



Lemma few_records_few_users (data : list (gmap string value)) :
  (3 * length (kept_users (PerformanceModel.collect_user_stats data))
   <= length data)%nat.
Proof.
  pose proof (kept_users_need_sessions (PerformanceModel.collect_user_stats data)).
  pose proof (session_count_collect data []) as H1.
  unfold PerformanceModel.collect_user_stats in *. cbn [session_count fold_right] in H1.
  lia.
Qed.

(** X15.  [train] fits nothing unless at least 10 users have 3 sessions:
    below that it returns four zero metrics and leaves the model as it was;
    from 10 users on the model comes back trained, with the fitted parts.
    In particular fewer than 30 records always give the zero metrics.
    [train] raises only what [prepare_features] raises. *)
Theorem performance_training_floor
    (np_std : list Q -> Q) (objects : object_arrays)
    (fit : list (list Q) -> list Q -> list Q ->
           PerformanceModel.artifact * list (string * Q))
    (self : PerformanceModel.model) (data : list (gmap string value)) :
  let users := length (kept_users (PerformanceModel.collect_user_stats data)) in
  match PerformanceModel.train np_std objects fit self data with
  | Ok outcome =>
      ((users < 10)%nat ->
       fst outcome = self /\ snd outcome = PerformanceModel.zero_metrics)
      /\ ((10 <= users)%nat ->
          PerformanceModel.is_trained (fst outcome) = true
          /\ exists a, PerformanceModel.fitted (fst outcome) = Some a)
      /\ ((length data < 30)%nat ->
          fst outcome = self /\ snd outcome = PerformanceModel.zero_metrics)
  | Raise e => PerformanceModel.prepare_features np_std objects data = Raise e
  end.
Proof.
  cbv zeta. unfold PerformanceModel.train.
  pose proof (performance_training_set_shape_parts np_std objects data) as Hshape.
  pose proof (few_records_few_users data) as Hfew.
  destruct (PerformanceModel.prepare_features np_std objects data) as [prepared | e];
    cbn [bind]; [ | reflexivity ].
  destruct Hshape as (Hlen & _).
  destruct (Z.ltb_spec (Z.of_nat (length (fst prepared))) 10); cbn [fst snd].
  - repeat split; try reflexivity; intros; lia.
  - split; [ intros; lia | split; [ intros; split; [ reflexivity | eauto ] | ] ].
    intros. lia.
Qed.

Lemma performance_training_floor_witness :
  exists outcome,
    PerformanceModel.train (fun _ => 0%Q) Samples.refusing Samples.sample_fit
                           PerformanceModel.__init__ Samples.enrolments = Ok outcome
    /\ fst outcome = PerformanceModel.__init__
    /\ snd outcome = PerformanceModel.zero_metrics.
Proof.
  assert (E : PerformanceModel.train (fun _ => 0%Q) Samples.refusing Samples.sample_fit
                PerformanceModel.__init__ Samples.enrolments
              = Ok (PerformanceModel.__init__, PerformanceModel.zero_metrics))
    by (vm_compute; reflexivity).
  pose proof (performance_training_floor (fun _ => 0%Q) Samples.refusing
                Samples.sample_fit PerformanceModel.__init__ Samples.enrolments) as H.
  cbv zeta in H. rewrite E in H. destruct H as (_ & _ & H).
  eexists. split; [ exact E | ]. apply H. cbn. lia.
Defined.

(** ** The training route: failures *)

(** X16.  [train_model] fails only with a 500.  A request for an unknown
    model type fails before anything is fetched (the 400 raised inside the
    [try] block is caught by its own handler); from 50 records on, a
    training that raises fails the request after the fetch and the call to
    the model, with nothing saved and no metrics queued; a training that
    returns is followed by the save and by one metrics task carrying the
    metrics and the number of records. *)
Theorem train_model_failures
    (fetch_training_data : string -> option string -> list (gmap string value))
    (model_train : string -> list (gmap string value) -> result (list (string * Q)))
    (now : string) (request : Main.TrainRequest) :
  let mt := Main.model_type request in
  let data := fetch_training_data mt (Main.user_id request) in
  let n := Z.of_nat (length data) in
  let fetched := Main.FetchTrainingData mt (Main.user_id request) in
  let outcome := Main.train_model fetch_training_data model_train now request in
  (forall e, fst outcome = Raise e -> e = HTTPException 500)
  /\ (Main.known_model_type mt = false ->
      outcome = (Raise (HTTPException 500), []))
  /\ (Main.known_model_type mt = true -> 50 <= n ->
      (forall e, model_train mt data = Raise e ->
                 outcome = (Raise (HTTPException 500),
                            [fetched; Main.ModelTrain mt data]))
      /\ (forall m, model_train mt data = Ok m ->
                    snd outcome = [fetched; Main.ModelTrain mt data;
                                   Main.ModelSave mt; Main.AddTask mt m n])).
Proof.
  intros mt data n fetched outcome. subst outcome.
  unfold Main.train_model, Main.train_model_body. fold mt.
  destruct (Main.known_model_type mt) eqn:Hk; cbn [negb].
  - fold data. fold n.
    destruct (Z.ltb_spec n 50).
    + split; [ discriminate | split; [ discriminate | intros _ ?; lia ] ].
    + unfold Main.training_service_train. rewrite Hk. cbn [negb].
      destruct (model_train mt data) as [m | e] eqn:Em.
      * split; [ discriminate | split; [ discriminate | intros _ _ ] ].
        split; [ discriminate | intros m' [= <-]; reflexivity ].
      * split; [ now intros e' [= <-] | split; [ discriminate | intros _ _ ] ].
        split; [ reflexivity | discriminate ].
  - split; [ now intros e [= <-] | split; [ reflexivity | discriminate ] ].
Qed.

Lemma train_model_failures_witness :
  Main.train_model Samples.sixty_records Samples.failing_train "2024-03-05T10:00:00"
    {| Main.model_type := "performance"; Main.user_id := None;
       Main.force_retrain := false |}
  = (Raise (HTTPException 500),
     [ Main.FetchTrainingData "performance" None;
       Main.ModelTrain "performance" (repeat Samples.snake_record 60) ])
  /\ Main.train_model Samples.sixty_records Samples.failing_train "2024-03-05T10:00:00"
       {| Main.model_type := "clustering"; Main.user_id := None;
          Main.force_retrain := false |}
     = (Raise (HTTPException 500), []).
Proof.
  split.
  - apply (proj1 (proj2 (proj2 (train_model_failures Samples.sixty_records
                                  Samples.failing_train "2024-03-05T10:00:00"
                                  {| Main.model_type := "performance";
                                     Main.user_id := None;
                                     Main.force_retrain := false |}))
                        eq_refl ltac:(vm_compute; discriminate))
                 ValueError).
    reflexivity.
  - apply (proj1 (proj2 (train_model_failures Samples.sixty_records
                           Samples.failing_train "2024-03-05T10:00:00"
                           {| Main.model_type := "clustering";
                              Main.user_id := None;
                              Main.force_retrain := false |}))).
    reflexivity.
Defined.

(** ** The data service: course statistics *)

(** X17.  When [get_course_statistics] answers with figures, the
    completions are the enrollments whose status is "completed": between 0
    and the number of enrollments, and the completion rate is their share,
    between 0 and 1, and 0 for a course without enrollment.  It answers
    with the empty dictionary exactly when there is no datastore client or
    the query failed. *)
Theorem course_statistics_bounds (connected : bool) (course_id : string)
    (query : result (list (gmap string value))) :
  match DataService.get_course_statistics connected course_id query with
  | Some st =>
      0 <= DataService.completions st <= DataService.total_enrollments st
      /\ (0 <= DataService.completion_rate st <= 1)%Q
      /\ (DataService.total_enrollments st = 0 -> DataService.completion_rate st = 0%Q)
      /\ (DataService.completion_rate st * inject_Z (DataService.total_enrollments st)
          == inject_Z (DataService.completions st))%Q
      /\ exists rows,
           query = Ok rows /\ connected = true
           /\ DataService.total_enrollments st = Z.of_nat (length rows)
  | None => connected = false \/ exists e, query = Raise e
  end.
Proof.
  unfold DataService.get_course_statistics.
  destruct connected; cbn [negb]; [ | now left ].
  destruct query as [rows | e]; [ | right; eauto ].
  cbn [DataService.completions DataService.total_enrollments
         DataService.completion_rate].
  pose proof (filter_length_le DataService.is_completed_enrollment rows) as Hle.
  set (k := Z.of_nat (length (List.filter DataService.is_completed_enrollment rows))) in *.
  set (t := Z.of_nat (length rows)) in *.
  assert (Hk : 0 <= k <= t) by (subst k t; lia).
  split; [ exact Hk | ].
  destruct (Z.ltb_spec 0 t) as [Ht | Ht].
  - split; [ now apply ratio_in_unit | split; [ lia | split ] ].
    + field. change 0%Q with (inject_Z 0). rewrite inject_Z_injective. lia.
    + exists rows. repeat split.
  - assert (t = 0) by lia. assert (k = 0) by lia.
    split; [ lra | split; [ reflexivity | split ] ].
    + subst. now rewrite H, H0.
    + exists rows. repeat split.
Qed.

Lemma course_statistics_bounds_witness :
  exists st,
    DataService.get_course_statistics true "algebra" (Ok []) = Some st
    /\ DataService.completion_rate st = 0%Q.
Proof.
  pose proof (course_statistics_bounds true "algebra" (Ok [])) as H.
  destruct (DataService.get_course_statistics true "algebra" (Ok []))
    as [st | ] eqn:E.
  - exists st. split; [ reflexivity | ].
    destruct H as (_ & _ & H0 & _). apply H0.
    injection E as <-. reflexivity.
  - discriminate E.
Defined.

(** ** The data service: behaviour analysis *)

Lemma count_one_total (k : value) (d : list (value * Z)) :
  total_count (DataService.Behavior.count_one k d) = total_count d + 1.
Proof.
  unfold DataService.Behavior.count_one, total_count.
  induction d as [ | [k0 v0] d IH ]; cbn [dict_get dict_set map fold_right snd].
  - cbn. lia.
  - destruct (py_eqb k0 k); cbn [map fold_right snd default id]; [ lia | ].
    rewrite IH. lia.
Qed.

Lemma count_one_positive (k : value) (d : list (value * Z)) :
  Forall (fun e => 1 <= snd e) d ->
  Forall (fun e => 1 <= snd e) (DataService.Behavior.count_one k d).
Proof.
  intros Hd. unfold DataService.Behavior.count_one.
  apply (dict_set_Forall (fun n => 1 <= n)); [ exact Hd | ].
  destruct (dict_get k d) as [n | ] eqn:E; cbn [default id]; [ | lia ].
  pose proof (dict_get_Forall (fun n => 1 <= n) k n d Hd E). cbn in H. lia.
Qed.

Lemma count_one_keys (P : value -> Prop) (k : value) (n : Z) (d : list (value * Z)) :
  Forall (fun e => P (fst e)) d -> P k ->
  Forall (fun e => P (fst e)) (dict_set k n d).
Proof.
  intros Hd Hk. induction Hd as [ | [k0 v0] d H0 Hd IH ]; cbn [dict_set].
  - constructor; [ exact Hk | constructor ].
  - destruct (py_eqb k0 k); constructor; auto.
Qed.

Lemma count_methods_total (data : list (gmap string value)) :
  total_count (DataService.Behavior.count_methods data) = Z.of_nat (length data)
  /\ Forall (fun e => 1 <= snd e) (DataService.Behavior.count_methods data).
Proof.
  unfold DataService.Behavior.count_methods.
  assert (H : forall acc,
             Forall (fun e => 1 <= snd e) acc ->
             total_count
               (fold_left (fun d r => DataService.Behavior.count_one
                                        (get r "method_used" (VStr "unknown")) d)
                          data acc)
             = total_count acc + Z.of_nat (length data)
             /\ Forall (fun e => 1 <= snd e)
                  (fold_left (fun d r => DataService.Behavior.count_one
                                           (get r "method_used" (VStr "unknown")) d)
                             data acc)).
  { induction data as [ | r data IH ]; intros acc Hacc; cbn [fold_left length].
    - split; [ lia | exact Hacc ].
    - destruct (IH _ (count_one_positive (get r "method_used" (VStr "unknown"))
                                         acc Hacc)) as [IH1 IH2].
      split; [ | exact IH2 ].
      rewrite IH1, count_one_total. lia. }
  destruct (H [] ltac:(constructor)) as [H1 H2]. split; [ | exact H2 ].
  rewrite H1. reflexivity.
Qed.

Lemma max_count_spec (l : list (value * Z)) (best : value * Z) :
  In (DataService.Behavior.max_count best l) (best :: l)
  /\ forall x, In x (best :: l) ->
               snd x <= snd (DataService.Behavior.max_count best l).
Proof.
  revert best. induction l as [ | x l IH ]; intros best;
    cbn [DataService.Behavior.max_count].
  - split; [ now left | intros y [<- | []]; lia ].
  - destruct (Z.ltb_spec (snd best) (snd x)) as [Hlt | Hge].
    + destruct (IH x) as [Hin Hmax]. split.
      * right. exact Hin.
      * intros y [<- | Hy]; [ | now apply Hmax ].
        pose proof (Hmax x (or_introl eq_refl)). lia.
    + destruct (IH best) as [Hin Hmax]. split.
      * destruct Hin as [<- | Hin]; [ now left | right; now right ].
      * intros y [<- | [<- | Hy]].
        -- apply Hmax. now left.
        -- pose proof (Hmax best (or_introl eq_refl)). lia.
        -- apply Hmax. now right.
Qed.

Lemma read_hour_range (r : gmap string value) (h : Z) :
  DataService.Behavior.read_hour r = Ok h -> -9 <= h <= 99.
Proof.
  unfold DataService.Behavior.read_hour.
  destruct (get r "started_at" (VStr "")) as [ | b | n | x | s ]; try discriminate.
  intros Hn.
  pose proof (int_range (slice s 11 13) h 2 (substring_length s 11 2)
                        ltac:(lia) Hn) as H.
  cbn in H. lia.
Qed.

Lemma count_hours_keys (data : list (gmap string value)) :
  Forall (fun e => two_character_hour (fst e)) (DataService.Behavior.count_hours data).
Proof.
  unfold DataService.Behavior.count_hours.
  assert (H : forall acc,
             Forall (fun e => two_character_hour (fst e)) acc ->
             Forall (fun e => two_character_hour (fst e))
               (fold_left (fun d r => match DataService.Behavior.read_hour r with
                                      | Ok h => DataService.Behavior.count_one (VInt h) d
                                      | Raise _ => d
                                      end) data acc)).
  { induction data as [ | r data IH ]; intros acc Hacc; cbn [fold_left];
      [ exact Hacc | ].
    apply IH. destruct (DataService.Behavior.read_hour r) as [h | e] eqn:E;
      [ | exact Hacc ].
    apply count_one_keys; [ exact Hacc | ].
    exists h. split; [ reflexivity | exact (read_hour_range r h E) ]. }
  apply H. constructor.
Qed.

Lemma sort_by_count_spec (l : list (value * Z)) :
  Permutation (DataService.Behavior.sort_by_count l) l
  /\ StronglySorted (fun x y => snd y <= snd x) (DataService.Behavior.sort_by_count l).
Proof.
  unfold DataService.Behavior.sort_by_count. split; [ apply stable_sort_perm | ].
  assert (H : StronglySorted (fun a b => (snd b <=? snd a) = true)
                (stable_sort (fun x y : value * Z => snd y <=? snd x) l)).
  { apply stable_sort_sorted.
    - intros x y Hxy. apply Z.leb_le. apply Z.leb_gt in Hxy. lia.
    - intros x y z Hxy Hyz. apply Z.leb_le. apply Z.leb_le in Hxy, Hyz. lia. }
  induction H as [ | a t Ht IH Ha ]; constructor; [ exact IH | ].
  rewrite List.Forall_forall in *. intros y Hy. apply Z.leb_le. now apply Ha.
Qed.

(** [sum] fails exactly on a list that holds something that is not a
    number, or where an integer has to become a float and has none. *)
Lemma add_outcome (total : number) (v : value) :
  match add total v with
  | Ok _ => is_number v = true
  | Raise e =>
      (is_number v = false /\ e = TypeError)
      \/ (is_number v = true /\ e = OverflowError)
  end.
Proof.
  unfold add, float_of_int, is_number.
  destruct total as [a | a], v as [ | b | n | x | s ]; cbn [as_number bind]; auto;
    match goal with
    | |- context [ ?c <? FLOAT_LIMIT ] => destruct (c <? FLOAT_LIMIT); cbn [bind]; auto
    end.
Qed.

Lemma sum_from_outcome (l : list value) (total : number) :
  match sum_from total l with
  | Ok _ => forallb is_number l = true
  | Raise e => e = TypeError \/ e = OverflowError
  end.
Proof.
  revert total. induction l as [ | v l IH ]; intros total; cbn [sum_from forallb];
    [ reflexivity | ].
  pose proof (add_outcome total v) as Hv.
  destruct (add total v) as [t | e]; cbn [bind].
  - rewrite Hv. cbn [andb]. apply IH.
  - destruct Hv as [[_ ->] | [_ ->]]; auto.
Qed.

Lemma div_int_outcome (x : number) (d : Z) :
  match div_int x d with
  | Ok _ => True
  | Raise e => e = OverflowError
  end.
Proof.
  unfold div_int, float_of_int. destruct x as [a | a].
  - destruct (Z.abs a <? d * FLOAT_LIMIT); auto.
  - destruct (Z.abs d <? FLOAT_LIMIT); cbn [bind]; auto.
Qed.

Lemma forallb_map {A B : Type} (p : B -> bool) (f : A -> B) (l : list A) :
  forallb p (map f l) = forallb (fun a => p (f a)) l.
Proof. induction l as [ | a l IH ]; [ reflexivity | ]. cbn. now rewrite IH. Qed.

Lemma forallb_and {A : Type} (p q : A -> bool) (l : list A) :
  forallb (fun a => p a && q a) l = forallb p l && forallb q l.
Proof.
  induction l as [ | a l IH ]; [ reflexivity | ]. cbn [forallb]. rewrite IH.
  destruct (p a), (q a), (forallb p l), (forallb q l); reflexivity.
Qed.

(** The analysis of a non-empty history answers only when every duration
    and tab-switch count is a number, and fails only with a [TypeError] or
    an [OverflowError]. *)
Lemma analyze_outcome (uid : string) (data : list (gmap string value)) :
  match DataService.Behavior.analyze uid data with
  | Ok _ => forallb numeric_session data = true
  | Raise e => e = TypeError \/ e = OverflowError
  end.
Proof.
  unfold DataService.Behavior.analyze, sum_values.
  pose proof (sum_from_outcome
                (map (fun d => get d "duration_seconds" (VInt 0)) data) (NInt 0)) as H1.
  destruct (sum_from (NInt 0) (map (fun d => get d "duration_seconds" (VInt 0)) data))
    as [td | e]; cbn [bind]; [ | exact H1 ].
  pose proof (sum_from_outcome
                (map (fun d => get d "tab_switch_count" (VInt 0)) data) (NInt 0)) as H2.
  destruct (sum_from (NInt 0) (map (fun d => get d "tab_switch_count" (VInt 0)) data))
    as [ts | e]; cbn [bind]; [ | exact H2 ].
  pose proof (div_int_outcome ts (Z.of_nat (length data))) as H3.
  destruct (div_int ts (Z.of_nat (length data))) as [avg | e]; cbn [bind];
    [ | right; exact H3 ].
  pose proof (div_int_outcome td 60) as H4.
  destruct (div_int td 60) as [sm | e]; cbn [bind]; [ | right; exact H4 ].
  pose proof (div_int_outcome td (Z.of_nat (length data))) as H5.
  destruct (div_int td (Z.of_nat (length data))) as [ss | e]; cbn [bind];
    [ | right; exact H5 ].
  rewrite forallb_map in H1, H2.
  unfold numeric_session. rewrite forallb_and, H1, H2. reflexivity.
Qed.

(** Sums and quotients of plain numbers. *)
Lemma FLOAT_LIMIT_large : 2 ^ 63 * 2 ^ 63 <= FLOAT_LIMIT.
Proof. apply Z.leb_le. vm_compute. reflexivity. Qed.

Lemma product_bound (B L k a : Z) :
  0 < B -> B * B <= L -> 0 <= k < B -> Z.abs a <= k * B -> Z.abs a < L.
Proof.
  intros HB HL Hk Ha.
  assert (k * B <= (B - 1) * B) by (apply Z.mul_le_mono_nonneg_r; lia).
  lia.
Qed.

Lemma in_int64_abs (n : Z) : in_int64 n = true -> Z.abs n <= 2 ^ 63.
Proof.
  unfold in_int64. intros H. apply andb_prop in H. destruct H as [H1 H2].
  apply Z.leb_le in H1. apply Z.ltb_lt in H2.
  generalize dependent (2 ^ 63). intros B H1 H2. lia.
Qed.

Lemma add_plain (k : Z) (t : number) (v : value) :
  0 <= k < 2 ^ 63 -> within k t -> plain v = true ->
  exists t', add t v = Ok t' /\ within (k + 1) t'.
Proof.
  intros Hk Ht Hv. unfold plain, is_number in Hv.
  pose proof FLOAT_LIMIT_large as HL.
  assert (HB : 0 < 2 ^ 63) by reflexivity.
  assert (Hconv : forall a, Z.abs a <= k * 2 ^ 63 -> float_of_int a = Ok (inject_Z a)).
  { intros a Ha. unfold float_of_int.
    destruct (Z.ltb_spec (Z.abs a) FLOAT_LIMIT) as [ | Hge ]; [ reflexivity | ].
    pose proof (product_bound _ _ _ _ HB HL Hk Ha). lia. }
  assert (Hsmall : forall n, in_int64 n = true -> float_of_int n = Ok (inject_Z n)).
  { intros n Hn. apply in_int64_abs in Hn. unfold float_of_int.
    destruct (Z.ltb_spec (Z.abs n) FLOAT_LIMIT) as [ | Hge ]; [ reflexivity | ].
    assert (HB2 : 2 <= 2 ^ 63) by (apply Z.leb_le; reflexivity).
    generalize dependent (2 ^ 63). intros B. intros.
    assert (B * 2 <= B * B) by (apply Z.mul_le_mono_nonneg_l; lia).
    lia. }
  destruct t as [a | a], v as [ | b | n | x | s ]; cbn [as_number wide negb andb] in Hv;
    try discriminate; cbn [add within] in *.
  - eexists. split; [ reflexivity | ]. cbn [within].
    generalize dependent (2 ^ 63). intros B. intros. destruct b; lia.
  - apply negb_true_iff, negb_false_iff, in_int64_abs in Hv.
    eexists. split; [ reflexivity | ]. cbn [within].
    generalize dependent (2 ^ 63). intros B. intros. lia.
  - rewrite (Hconv a Ht). cbn [bind]. eexists. split; [ reflexivity | exact I ].
  - eexists. split; [ reflexivity | exact I ].
  - apply negb_true_iff, negb_false_iff in Hv.
    rewrite (Hsmall n Hv). cbn [bind]. eexists. split; [ reflexivity | exact I ].
  - eexists. split; [ reflexivity | exact I ].
Qed.

Lemma sum_from_plain (l : list value) (k : Z) (t : number) :
  0 <= k -> k + Z.of_nat (length l) < 2 ^ 63 -> within k t ->
  forallb plain l = true ->
  exists t', sum_from t l = Ok t' /\ within (k + Z.of_nat (length l)) t'.
Proof.
  revert k t. induction l as [ | v l IH ]; intros k t Hk Hlen Ht Hl;
    cbn [sum_from forallb length] in *.
  - exists t. split; [ reflexivity | ]. now rewrite Z.add_0_r.
  - apply andb_prop in Hl. destruct Hl as [Hv Hl].
    destruct (add_plain k t v) as (t1 & -> & Ht1); [ lia | exact Ht | exact Hv | ].
    cbn [bind].
    destruct (IH (k + 1) t1) as (t' & -> & Ht'); [ lia | lia | exact Ht1 | exact Hl | ].
    exists t'. split; [ reflexivity | ].
    replace (k + Z.of_nat (S (length l))) with (k + 1 + Z.of_nat (length l)) by lia.
    exact Ht'.
Qed.

Lemma div_int_within (k : Z) (t : number) (d : Z) :
  0 <= k < 2 ^ 63 -> 1 <= d < 2 ^ 63 -> within k t ->
  exists q, div_int t d = Ok q.
Proof.
  intros Hk Hd Ht. pose proof FLOAT_LIMIT_large as HL.
  assert (HB : 0 < 2 ^ 63) by reflexivity.
  unfold div_int, float_of_int. destruct t as [a | a]; cbn [within] in Ht.
  - pose proof (product_bound _ _ _ _ HB HL Hk Ht) as Ha.
    destruct (Z.ltb_spec (Z.abs a) (d * FLOAT_LIMIT)) as [ | Hge ]; [ eauto | ].
    generalize dependent (2 ^ 63). intros B. intros.
    assert (1 * FLOAT_LIMIT <= d * FLOAT_LIMIT)
      by (apply Z.mul_le_mono_nonneg_r; lia).
    lia.
  - destruct (Z.ltb_spec (Z.abs d) FLOAT_LIMIT) as [ | Hge ]; cbn [bind]; [ eauto | ].
    assert (HB2 : 2 <= 2 ^ 63) by (apply Z.leb_le; reflexivity).
    generalize dependent (2 ^ 63). intros B. intros.
    assert (B * 2 <= B * B) by (apply Z.mul_le_mono_nonneg_l; lia).
    lia.
Qed.

(** A non-empty history of plain numbers is always analysed. *)
Lemma analyze_total (uid : string) (data : list (gmap string value)) :
  data <> [] -> Z.of_nat (length data) < 2 ^ 63 ->
  forallb plain_session data = true ->
  exists b, DataService.Behavior.analyze uid data = Ok b.
Proof.
  intros Hne Hlen Hplain.
  assert (Hn : 1 <= Z.of_nat (length data)) by (destruct data; [ contradiction | cbn; lia ]).
  unfold plain_session in Hplain. rewrite forallb_and in Hplain.
  apply andb_prop in Hplain. destruct Hplain as [Hd Ht].
  rewrite <- (forallb_map plain (fun d => get d "duration_seconds" (VInt 0))) in Hd.
  rewrite <- (forallb_map plain (fun d => get d "tab_switch_count" (VInt 0))) in Ht.
  assert (H0 : within 0 (NInt 0)) by (cbn; lia).
  destruct (sum_from_plain (map (fun d => get d "duration_seconds" (VInt 0)) data)
                           0 (NInt 0)) as (td & Etd & Wtd);
    [ lia | rewrite length_map; lia | exact H0 | exact Hd | ].
  destruct (sum_from_plain (map (fun d => get d "tab_switch_count" (VInt 0)) data)
                           0 (NInt 0)) as (ts & Ets & Wts);
    [ lia | rewrite length_map; lia | exact H0 | exact Ht | ].
  rewrite length_map, Z.add_0_l in Wtd, Wts.
  unfold DataService.Behavior.analyze, sum_values. rewrite Etd, Ets. cbn [bind].
  assert (Hk : 0 <= Z.of_nat (length data) < 2 ^ 63) by lia.
  assert (Hdn : 1 <= Z.of_nat (length data) < 2 ^ 63) by lia.
  assert (H60 : 1 <= 60 < 2 ^ 63) by (split; [ lia | reflexivity ]).
  destruct (div_int_within _ ts (Z.of_nat (length data)) Hk Hdn Wts) as [avg ->].
  destruct (div_int_within _ td 60 Hk H60 Wtd) as [sm ->].
  destruct (div_int_within _ td (Z.of_nat (length data)) Hk Hdn Wtd) as [ss ->].
  cbn [bind]. eauto.
Qed.

Lemma dict_set_distinct {V : Type} (k : value) (v : V) (d : list (value * V)) :
  distinct_keys d -> distinct_keys (dict_set k v d).
Proof.
  unfold distinct_keys.
  induction 1 as [ | [k0 v0] d Hd IH H0 ]; cbn [dict_set].
  - constructor; constructor.
  - destruct (py_eqb k0 k) eqn:E; constructor; try assumption.
    clear IH Hd. induction H0 as [ | [k1 v1] d H1 H0 IH ]; cbn [dict_set].
    + constructor; [ exact E | constructor ].
    + destruct (py_eqb k1 k); constructor; auto.
Qed.

Lemma distinct_keys_lookup {V : Type} (k : value) (v : V) (d : list (value * V)) :
  distinct_keys d -> In (k, v) d -> dict_get k d = Some v.
Proof.
  unfold distinct_keys.
  induction 1 as [ | [k0 v0] d Hd IH H0 ]; intros Hin; [ contradiction | ].
  cbn [dict_get]. destruct Hin as [[= -> ->] | Hin].
  - now rewrite py_eqb_refl.
  - rewrite List.Forall_forall in H0. pose proof (H0 _ Hin) as Hk.
    cbn [fst] in Hk. rewrite Hk. auto.
Qed.

Lemma dict_get_In {V : Type} (k : value) (v : V) (d : list (value * V)) :
  dict_get k d = Some v -> exists k', In (k', v) d /\ py_eqb k' k = true.
Proof.
  induction d as [ | [k0 v0] d IH ]; cbn [dict_get]; [ discriminate | ].
  destruct (py_eqb k0 k) eqn:E.
  - intros [= <-]. exists k0. split; [ now left | exact E ].
  - intros H. destruct (IH H) as (k' & Hin & Hk). exists k'. split; [ now right | exact Hk ].
Qed.

Section Tally.
Context {A : Type} (key : A -> option value).

Lemma count_one_lookup (k k' : value) (d : list (value * Z)) :
  dict_get k (DataService.Behavior.count_one k' d)
  = if py_eqb k' k then Some (default 0 (dict_get k d) + 1) else dict_get k d.
Proof.
  unfold DataService.Behavior.count_one. rewrite dict_get_set.
  destruct (py_eqb k' k) eqn:E; [ | reflexivity ].
  now rewrite (dict_get_proper _ _ d E).
Qed.

Lemma tally_lookup (k : value) (data : list A) (acc : list (value * Z)) :
  dict_get k (fold_left (tally_step key) data acc)
  = if Z.of_nat (length (List.filter (matches key k) data)) =? 0
    then dict_get k acc
    else Some (default 0 (dict_get k acc)
               + Z.of_nat (length (List.filter (matches key k) data))).
Proof.
  revert acc. induction data as [ | r data IH ]; intros acc;
    cbn [fold_left List.filter length]; [ reflexivity | ].
  rewrite IH.
  set (n := Z.of_nat (length (List.filter (matches key k) data))).
  assert (Hn : 0 <= n) by (subst n; lia).
  assert (Hstep : dict_get k (tally_step key acc r)
                  = if matches key k r then Some (default 0 (dict_get k acc) + 1)
                    else dict_get k acc).
  { unfold tally_step, matches. destruct (key r) as [k' | ]; [ | reflexivity ].
    apply count_one_lookup. }
  rewrite Hstep.
  destruct (matches key k r); cbn [length]; fold n.
  - replace (Z.of_nat (S (length (List.filter (matches key k) data)))) with (n + 1)
      by (subst n; lia).
    clearbody n.
    destruct (Z.eqb_spec n 0) as [H0 | Hne]; destruct (Z.eqb_spec (n + 1) 0);
      try lia; cbn [default id]; f_equal; lia.
  - reflexivity.
Qed.

Lemma tally_distinct (data : list A) (acc : list (value * Z)) :
  distinct_keys acc -> distinct_keys (fold_left (tally_step key) data acc).
Proof.
  revert acc. induction data as [ | r data IH ]; intros acc Hacc; cbn [fold_left];
    [ exact Hacc | ].
  apply IH. unfold tally_step. destruct (key r); [ | exact Hacc ].
  now apply dict_set_distinct.
Qed.
End Tally.

Lemma fold_left_ext {A B : Type} (f g : A -> B -> A) (l : list B) (a : A) :
  (forall x y, f x y = g x y) -> fold_left f l a = fold_left g l a.
Proof.
  intros H. revert a. induction l as [ | y l IH ]; intros a; cbn [fold_left];
    [ reflexivity | ].
  now rewrite H, IH.
Qed.

Lemma py_eqb_ints (a b : Z) : py_eqb (VInt a) (VInt b) = (a =? b).
Proof.
  cbn. unfold Qeq_bool, inject_Z. cbn [Qnum Qden]. now rewrite !Z.mul_1_r.
Qed.

(** The method dictionary holds, for each method, the number of sessions
    that used it. *)
Lemma count_methods_lookup (m : value) (data : list (gmap string value)) :
  dict_get m (DataService.Behavior.count_methods data)
  = (if sessions_with_method m data =? 0 then None
     else Some (sessions_with_method m data))
  /\ distinct_keys (DataService.Behavior.count_methods data).
Proof.
  unfold DataService.Behavior.count_methods.
  change (fold_left _ data [])
    with (fold_left (tally_step (fun r => Some (get r "method_used" (VStr "unknown"))))
                    data []).
  split.
  - rewrite tally_lookup. reflexivity.
  - apply tally_distinct. constructor.
Qed.

(** The hour dictionary holds, for each hour, the number of sessions whose
    timestamp reads as that hour. *)
Lemma count_hours_lookup (h : Z) (data : list (gmap string value)) :
  dict_get (VInt h) (DataService.Behavior.count_hours data)
  = (if sessions_read_at h data =? 0 then None
     else Some (sessions_read_at h data))
  /\ distinct_keys (DataService.Behavior.count_hours data).
Proof.
  unfold DataService.Behavior.count_hours.
  rewrite (fold_left_ext _
             (tally_step (fun r => match DataService.Behavior.read_hour r with
                                   | Ok h' => Some (VInt h')
                                   | Raise _ => None
                                   end))).
  2:{ intros d r. unfold tally_step.
      now destruct (DataService.Behavior.read_hour r). }
  split.
  - rewrite tally_lookup. unfold sessions_read_at.
    rewrite (filter_ext (matches _ (VInt h))
               (fun r => match DataService.Behavior.read_hour r with
                         | Ok h' => h' =? h
                         | Raise _ => false
                         end)); [ reflexivity | ].
    intros r. unfold matches. destruct (DataService.Behavior.read_hour r);
      [ apply py_eqb_ints | reflexivity ].
  - apply tally_distinct. constructor.
Qed.

Lemma report_of_analysis (connected : bool) (uid : string)
    (query : result (list (gmap string value))) (b : DataService.Behavior.report) :
  DataService.Behavior.analyze_user_behavior connected uid query
  = DataService.Behavior.Report b ->
  exists data,
    query = Ok data /\ (1 <= length data)%nat
    /\ DataService.Behavior.analyze uid data = Ok b.
Proof.
  unfold DataService.Behavior.analyze_user_behavior.
  destruct connected; cbn [negb]; [ | discriminate ].
  destruct query as [[ | r0 data] | e]; try discriminate.
  destruct (DataService.Behavior.analyze uid (r0 :: data)) as [r | e] eqn:E;
    [ | discriminate ].
  intros [= <-]. exists (r0 :: data). repeat split; [ cbn; lia | exact E ].
Qed.

Lemma report_fields (uid : string) (data : list (gmap string value))
    (b : DataService.Behavior.report) :
  DataService.Behavior.analyze uid data = Ok b ->
  DataService.Behavior.user_id b = uid
  /\ DataService.Behavior.total_sessions b = Z.of_nat (length data)
  /\ DataService.Behavior.completed_sessions b
     = Z.of_nat (length (List.filter (fun d => truthy (get d "completed" VNone)) data))
  /\ DataService.Behavior.completion_rate b
     = (inject_Z (DataService.Behavior.completed_sessions b)
        / inject_Z (DataService.Behavior.total_sessions b))%Q
  /\ DataService.Behavior.focus_score b
     = pmax 0 (100 - DataService.Behavior.avg_tab_switches b * 10)%Q
  /\ DataService.Behavior.method_distribution b
     = DataService.Behavior.count_methods data
  /\ DataService.Behavior.preferred_method b
     = match DataService.Behavior.count_methods data with
       | [] => VStr "none"
       | x :: l => fst (DataService.Behavior.max_count x l)
       end
  /\ DataService.Behavior.peak_study_hours b
     = map fst (firstn 3 (DataService.Behavior.sort_by_count
                            (DataService.Behavior.count_hours data))).
Proof.
  unfold DataService.Behavior.analyze.
  destruct (sum_values (map (fun d => get d "duration_seconds" (VInt 0)) data))
    as [td | e]; cbn [bind]; [ | discriminate ].
  destruct (sum_values (map (fun d => get d "tab_switch_count" (VInt 0)) data))
    as [ts | e]; cbn [bind]; [ | discriminate ].
  destruct (div_int ts (Z.of_nat (length data))) as [avg | e]; cbn [bind];
    [ | discriminate ].
  destruct (div_int td 60) as [sm | e]; cbn [bind]; [ | discriminate ].
  destruct (div_int td (Z.of_nat (length data))) as [ss | e]; cbn [bind];
    [ | discriminate ].
  intros [= <-]. repeat split.
Qed.

(** X18.  [analyze_user_behavior] never raises, and which dictionary it
    answers is settled by its inputs: the empty one exactly without a
    datastore client; with a client, the "no study data" message exactly
    for an empty history and an error dictionary when the query failed.  A
    non-empty history with a duration or a tab-switch count that is not a
    number gives an error dictionary, for a [TypeError] or an
    [OverflowError]; a non-empty history of fewer than 2^63 sessions whose
    durations and tab-switch counts are bools, floats or 64-bit integers
    gives a report.  In a report the sessions are counted, the completed
    ones are between 0 and that count, the completion rate is in [0,1], the
    focus score is at least 0 (and at most 100 when the average of tab
    switches is not negative), the method distribution gives each method
    the number of sessions that used it (they add up to the number of
    sessions) and the preferred method is one used by the most sessions. *)
Theorem behavior_report_figures (connected : bool) (uid : string)
    (query : result (list (gmap string value))) :
  let outcome := DataService.Behavior.analyze_user_behavior connected uid query in
  match outcome with
  | DataService.Behavior.Unavailable => connected = false
  | DataService.Behavior.NoStudyData u =>
      u = uid /\ connected = true /\ query = Ok []
  | DataService.Behavior.Error u e =>
      u = uid /\ connected = true
      /\ (query = Raise e
          \/ (exists data, query = Ok data /\ data <> [])
             /\ (e = TypeError \/ e = OverflowError))
  | DataService.Behavior.Report b =>
      exists data,
        query = Ok data /\ connected = true
        /\ forallb numeric_session data = true
        /\ DataService.Behavior.user_id b = uid
        /\ DataService.Behavior.total_sessions b = Z.of_nat (length data)
        /\ 1 <= DataService.Behavior.total_sessions b
        /\ 0 <= DataService.Behavior.completed_sessions b
             <= DataService.Behavior.total_sessions b
        /\ (0 <= DataService.Behavior.completion_rate b <= 1)%Q
        /\ (0 <= DataService.Behavior.focus_score b)%Q
        /\ ((0 <= DataService.Behavior.avg_tab_switches b)%Q ->
            (DataService.Behavior.focus_score b <= 100)%Q)
        /\ total_count (DataService.Behavior.method_distribution b)
           = DataService.Behavior.total_sessions b
        /\ (forall m,
              dict_get m (DataService.Behavior.method_distribution b)
              = if sessions_with_method m data =? 0 then None
                else Some (sessions_with_method m data))
        /\ (forall m,
              sessions_with_method m data
              <= sessions_with_method (DataService.Behavior.preferred_method b) data)
  end
  /\ (connected = false -> outcome = DataService.Behavior.Unavailable)
  /\ (connected = true -> query = Ok [] ->
      outcome = DataService.Behavior.NoStudyData uid)
  /\ (connected = true -> forall e, query = Raise e ->
      outcome = DataService.Behavior.Error uid e)
  /\ (connected = true -> forall data, query = Ok data -> data <> [] ->
      forallb numeric_session data = false ->
      outcome = DataService.Behavior.Error uid TypeError
      \/ outcome = DataService.Behavior.Error uid OverflowError)
  /\ (connected = true -> forall data, query = Ok data -> data <> [] ->
      Z.of_nat (length data) < 2 ^ 63 ->
      forallb plain_session data = true ->
      exists b, outcome = DataService.Behavior.Report b).
Proof.
  cbv zeta. split; [ | split; [ | split; [ | split; [ | split ] ] ] ].
  - destruct (DataService.Behavior.analyze_user_behavior connected uid query)
      as [ | u | b | u e ] eqn:E.
    + revert E. unfold DataService.Behavior.analyze_user_behavior.
      destruct connected; cbn [negb]; [ | reflexivity ].
      destruct query as [[ | r0 data] | e]; try discriminate.
      destruct (DataService.Behavior.analyze uid (r0 :: data)); discriminate.
    + revert E. unfold DataService.Behavior.analyze_user_behavior.
      destruct connected; cbn [negb]; [ | discriminate ].
      destruct query as [[ | r0 data] | e]; try discriminate.
      * intros [= <-]. repeat split.
      * destruct (DataService.Behavior.analyze uid (r0 :: data)); discriminate.
    + destruct (report_of_analysis _ _ _ _ E) as (data & Hq & Hlen & Ha).
      assert (Hc : connected = true).
      { revert E. unfold DataService.Behavior.analyze_user_behavior.
        destruct connected; [ reflexivity | discriminate ]. }
      destruct (report_fields _ _ _ Ha)
        as (Hu & Ht & Hcs & Hcr & Hf & Hm & Hp & _).
      destruct (count_methods_total data) as [Htot _].
      pose proof (analyze_outcome uid data) as Hnum. rewrite Ha in Hnum.
      exists data. split; [ exact Hq | split; [ exact Hc | split; [ exact Hnum | ] ] ].
      split; [ exact Hu | split; [ exact Ht | split; [ lia | ] ] ].
      assert (Hcount : 0 <= DataService.Behavior.completed_sessions b
                         <= DataService.Behavior.total_sessions b).
      { rewrite Hcs, Ht.
        pose proof (filter_length_le (fun d => truthy (get d "completed" VNone)) data).
        lia. }
      split; [ exact Hcount | ].
      split; [ rewrite Hcr; apply ratio_in_unit; [ exact Hcount | lia ] | ].
      assert (Hfocus : forall x,
                 (0 <= pmax 0 x)%Q /\ ((x <= 100)%Q -> (pmax 0 x <= 100)%Q)).
      { intros x. unfold pmax. destruct (Qle_bool x 0) eqn:Ex; cbn [negb].
        - split; [ lra | intros _; lra ].
        - split; [ | trivial ].
          apply Qlt_le_weak, Qnot_le_lt. intros H. apply Qle_bool_iff in H.
          congruence. }
      split; [ rewrite Hf; apply Hfocus | ].
      split; [ intros Havg; rewrite Hf; apply Hfocus; lra | ].
      split; [ rewrite Hm, Htot, Ht; reflexivity | ].
      split; [ intros m; rewrite Hm; apply count_methods_lookup | ].
      intros m. rewrite Hp.
      destruct (DataService.Behavior.count_methods data) as [ | x l ] eqn:Ed.
      { exfalso. cbn in Htot. lia. }
      destruct (max_count_spec l x) as [Hin Hmax].
      destruct (DataService.Behavior.max_count x l) as [kb nb] eqn:Eb.
      cbn [fst snd] in *.
      rewrite <- Ed in Hin, Hmax.
      assert (Hnb : sessions_with_method kb data = nb).
      { pose proof (distinct_keys_lookup kb nb _
                      (proj2 (count_methods_lookup kb data)) Hin) as Hl.
        rewrite (proj1 (count_methods_lookup kb data)) in Hl.
        destruct (sessions_with_method kb data =? 0); congruence. }
      rewrite Hnb.
      destruct (Z.eqb_spec (sessions_with_method m data) 0) as [H0 | Hne].
      * rewrite H0, <- Hnb. unfold sessions_with_method. lia.
      * pose proof (proj1 (count_methods_lookup m data)) as Hl.
        destruct (Z.eqb_spec (sessions_with_method m data) 0); [ contradiction | ].
        destruct (dict_get_In _ _ _ Hl) as (k' & Hk' & _).
        exact (Hmax _ Hk').
    + revert E. unfold DataService.Behavior.analyze_user_behavior.
      destruct connected; cbn [negb]; [ | discriminate ].
      destruct query as [[ | r0 data] | e0]; try discriminate.
      * pose proof (analyze_outcome uid (r0 :: data)) as Ho.
        destruct (DataService.Behavior.analyze uid (r0 :: data)) as [r | e1];
          [ discriminate | ].
        intros [= <- <-]. repeat split. right. split; [ | exact Ho ].
        exists (r0 :: data). split; [ reflexivity | discriminate ].
      * intros [= <- <-]. repeat split. now left.
  - intros ->. reflexivity.
  - intros -> ->. reflexivity.
  - intros -> e ->. reflexivity.
  - intros -> data -> Hne Hnum. unfold DataService.Behavior.analyze_user_behavior.
    cbn [negb]. destruct data as [ | r0 data ]; [ contradiction | ].
    pose proof (analyze_outcome uid (r0 :: data)) as Ho.
    destruct (DataService.Behavior.analyze uid (r0 :: data)) as [r | e1].
    + congruence.
    + destruct Ho as [-> | ->]; [ now left | now right ].
  - intros -> data -> Hne Hlen Hplain.
    unfold DataService.Behavior.analyze_user_behavior. cbn [negb].
    destruct (analyze_total uid data Hne Hlen Hplain) as [b Hb].
    destruct data as [ | r0 data ]; [ contradiction | ].
    rewrite Hb. eauto.
Qed.

Lemma behavior_report_figures_witness :
  exists b,
    DataService.Behavior.analyze_user_behavior true "ana"
      (Ok [ Samples.unknown_method_record; Samples.snake_record ])
    = DataService.Behavior.Report b
    /\ DataService.Behavior.analyze_user_behavior true "ana"
         (Ok [ Samples.record_of [ ("duration_seconds", VNone) ] ])
       = DataService.Behavior.Error "ana" TypeError.
Proof.
  pose proof (behavior_report_figures true "ana"
                (Ok [ Samples.unknown_method_record; Samples.snake_record ])) as H.
  cbv zeta in H. destruct H as (_ & _ & _ & _ & _ & Hreport).
  destruct (Hreport eq_refl _ eq_refl) as [b Hb];
    [ discriminate | reflexivity | vm_compute; reflexivity | ].
  exists b. split; [ exact Hb | ].
  pose proof (behavior_report_figures true "ana"
                (Ok [ Samples.record_of [ ("duration_seconds", VNone) ] ])) as H.
  cbv zeta in H. destruct H as (_ & _ & _ & _ & Herror & _).
  destruct (Herror eq_refl _ eq_refl) as [He | He];
    [ discriminate | vm_compute; reflexivity | exact He | ].
  vm_compute in He. discriminate He.
Defined.

(** X19.  The peak study hours of a report are at most 3 hours, each read
    from the timestamp of at least one session (an integer between -9 and
    99); no hour outside them was read from more sessions than one of
    them, and an hour read from some session is left out only when 3 hours
    are reported. *)
Theorem peak_hours_are_most_frequent (connected : bool) (uid : string)
    (query : result (list (gmap string value))) (b : DataService.Behavior.report) :
  DataService.Behavior.analyze_user_behavior connected uid query
  = DataService.Behavior.Report b ->
  exists data,
    query = Ok data
    /\ (length (DataService.Behavior.peak_study_hours b) <= 3)%nat
    /\ (forall p, In p (DataService.Behavior.peak_study_hours b) ->
                  exists h, p = VInt h /\ -9 <= h <= 99
                            /\ 1 <= sessions_read_at h data)
    /\ (forall h h',
          In (VInt h) (DataService.Behavior.peak_study_hours b) ->
          ~ In (VInt h') (DataService.Behavior.peak_study_hours b) ->
          sessions_read_at h' data <= sessions_read_at h data)
    /\ (forall h',
          1 <= sessions_read_at h' data ->
          ~ In (VInt h') (DataService.Behavior.peak_study_hours b) ->
          length (DataService.Behavior.peak_study_hours b) = 3%nat).
Proof.
  intros E. destruct (report_of_analysis _ _ _ _ E) as (data & Hq & _ & Ha).
  destruct (report_fields _ _ _ Ha) as (_ & _ & _ & _ & _ & _ & _ & Hp).
  exists data. split; [ exact Hq | ]. rewrite Hp. clear E Ha Hp Hq b.
  set (hours := DataService.Behavior.count_hours data).
  destruct (sort_by_count_spec hours) as [Hperm Hsorted].
  set (ranked := DataService.Behavior.sort_by_count hours) in *.
  pose proof (count_hours_keys data) as Hkeys. fold hours in Hkeys.
  assert (Hentry : forall h n, In (VInt h, n) hours ->
                               n = sessions_read_at h data /\ 1 <= n).
  { intros h n Hin.
    pose proof (distinct_keys_lookup _ _ _ (proj2 (count_hours_lookup h data)) Hin)
      as Hl.
    rewrite (proj1 (count_hours_lookup h data)) in Hl.
    destruct (Z.eqb_spec (sessions_read_at h data) 0); [ discriminate | ].
    injection Hl as <-. split; [ reflexivity | ].
    unfold sessions_read_at in *. lia. }
  assert (Hread : forall h, 1 <= sessions_read_at h data ->
                            In (VInt h, sessions_read_at h data) hours).
  { intros h Hh. pose proof (proj1 (count_hours_lookup h data)) as Hl.
    destruct (Z.eqb_spec (sessions_read_at h data) 0); [ lia | ].
    destruct (dict_get_In _ _ _ Hl) as (k' & Hin & Hk').
    rewrite List.Forall_forall in Hkeys.
    destruct (Hkeys _ Hin) as (h'' & Hk'' & _). cbn [fst] in Hk''. subst k'.
    rewrite py_eqb_ints in Hk'. apply Z.eqb_eq in Hk'. now subst h''. }
  assert (Htop : forall h, In (VInt h) (map fst (firstn 3 ranked)) ->
                           In (VInt h, sessions_read_at h data) (firstn 3 ranked)).
  { intros h Hin. apply List.in_map_iff in Hin. destruct Hin as ([k n] & Hk & Hin).
    cbn [fst] in Hk. subst k.
    assert (Hh : In (VInt h, n) hours)
      by (eapply Permutation_in; [ exact Hperm | eapply firstn_In; exact Hin ]).
    destruct (Hentry _ _ Hh) as [-> _]. exact Hin. }
  assert (Hrest : forall h, 1 <= sessions_read_at h data ->
                            ~ In (VInt h) (map fst (firstn 3 ranked)) ->
                            In (VInt h, sessions_read_at h data) (skipn 3 ranked)).
  { intros h Hh Hout.
    assert (Hin : In (VInt h, sessions_read_at h data) ranked)
      by (eapply Permutation_in; [ symmetry; exact Hperm | now apply Hread ]).
    rewrite <- (firstn_skipn 3 ranked) in Hin. apply in_app_or in Hin.
    destruct Hin as [Hin | Hin]; [ | exact Hin ].
    exfalso. apply Hout. apply List.in_map_iff. now exists (VInt h, sessions_read_at h data). }
  split; [ | split; [ | split ] ].
  - rewrite length_map, length_firstn. lia.
  - intros p Hin. apply List.in_map_iff in Hin. destruct Hin as ([k n] & Hk & Hin).
    cbn [fst] in Hk. subst k.
    assert (Hh : In (p, n) hours)
      by (eapply Permutation_in; [ exact Hperm | eapply firstn_In; exact Hin ]).
    rewrite List.Forall_forall in Hkeys.
    destruct (Hkeys _ Hh) as (h & Hk & Hrange). cbn [fst] in Hk. subst p.
    exists h.
    destruct (Hentry _ _ Hh) as [<- Hn]. repeat split; lia.
  - intros h h' Hin Hout.
    pose proof (Htop h Hin) as Hh.
    destruct (Z.le_gt_cases 1 (sessions_read_at h' data)) as [Hpos | Hzero].
    + pose proof (sorted_prefix_dominates _ ranked 3 Hsorted _ _ Hh
                    (Hrest h' Hpos Hout)) as Hd.
      exact Hd.
    + assert (Hh' : In (VInt h, sessions_read_at h data) hours)
        by (eapply Permutation_in; [ exact Hperm | eapply firstn_In; exact Hh ]).
      destruct (Hentry _ _ Hh') as [_ H1]. lia.
  - intros h' Hpos Hout. pose proof (Hrest h' Hpos Hout) as Hin.
    rewrite length_map, length_firstn.
    assert (Hlen : (3 < length ranked)%nat).
    { destruct (Nat.lt_ge_cases 3 (length ranked)) as [Hlt | Hge]; [ exact Hlt | ].
      rewrite skipn_all2 in Hin by lia. contradiction. }
    lia.
Qed.

Lemma peak_hours_are_most_frequent_witness :
  exists b,
    DataService.Behavior.analyze_user_behavior true "ana" (Ok Samples.busy_history)
    = DataService.Behavior.Report b
    /\ (length (DataService.Behavior.peak_study_hours b) <= 3)%nat.
Proof.
  destruct (DataService.Behavior.analyze_user_behavior true "ana"
              (Ok Samples.busy_history))
    as [ | u | b | u e ] eqn:E; try (vm_compute in E; discriminate E).
  exists b. split; [ reflexivity | ].
  destruct (peak_hours_are_most_frequent _ _ _ _ E) as (data & _ & H & _).
  exact H.
Defined.

(** ** The data service: quiz scores and the performance training set *)

Lemma same_entries_get (k : value) d d' :
  same_entries d d' ->
  match dict_get k d, dict_get k d' with
  | Some st, Some st' => same_figures st st'
  | None, None => True
  | _, _ => False
  end.
Proof.
  induction 1 as [ | [k0 v0] [k0' v0'] d d' [Hk Hv] Hd IH ]; cbn [dict_get];
    [ exact I | ].
  cbn [fst snd] in *. subst k0'. destruct (py_eqb k0 k); [ exact Hv | exact IH ].
Qed.

Lemma same_entries_set (k : value) (v v' : PerformanceModel.stats) d d' :
  same_entries d d' -> same_figures v v' ->
  same_entries (dict_set k v d) (dict_set k v' d').
Proof.
  intros Hd Hv.
  induction Hd as [ | [k0 v0] [k0' v0'] d d' [Hk H0] Hd IH ]; cbn [dict_set].
  - constructor; [ now split | constructor ].
  - cbn [fst snd] in *. subst k0'.
    destruct (py_eqb k0 k); constructor; try assumption; now split.
Qed.

Lemma same_figures_refl (st : PerformanceModel.stats) : same_figures st st.
Proof. repeat split. Qed.

Lemma collect_step_same (r r' : gmap string value) d d' :
  same_entries d d' ->
  PerformanceModel.user_id_of r = PerformanceModel.user_id_of r' ->
  PerformanceModel.duration_of r = PerformanceModel.duration_of r' ->
  PerformanceModel.tab_switches_of r = PerformanceModel.tab_switches_of r' ->
  PerformanceModel.completed_of r = PerformanceModel.completed_of r' ->
  PerformanceModel.method_of r = PerformanceModel.method_of r' ->
  PerformanceModel.hour_of r = PerformanceModel.hour_of r' ->
  same_entries (PerformanceModel.collect_step d r) (PerformanceModel.collect_step d' r').
Proof.
  intros Hd Hu Hdu Ht Hc Hm Hh. unfold PerformanceModel.collect_step.
  rewrite <- Hu, <- Hdu, <- Ht, <- Hc, <- Hm, <- Hh.
  destruct (truthy (PerformanceModel.user_id_of r)); cbn [negb]; [ | exact Hd ].
  set (u := PerformanceModel.user_id_of r).
  assert (Hmem : dict_mem u d = dict_mem u d').
  { unfold dict_mem. pose proof (same_entries_get u d d' Hd) as Hg.
    destruct (dict_get u d), (dict_get u d'); try reflexivity; contradiction. }
  rewrite <- Hmem.
  assert (Hd1 : same_entries
                  (if negb (dict_mem u d)
                   then dict_set u PerformanceModel.empty_stats d else d)
                  (if negb (dict_mem u d)
                   then dict_set u PerformanceModel.empty_stats d' else d')).
  { destruct (dict_mem u d); cbn [negb]; [ exact Hd | ].
    apply same_entries_set; [ exact Hd | apply same_figures_refl ]. }
  apply same_entries_set; [ exact Hd1 | ].
  pose proof (same_entries_get u _ _ Hd1) as Hg.
  destruct (dict_get u _) as [st | ], (dict_get u _) as [st' | ];
    try contradiction; cbn [default id].
  - destruct Hg as (H1 & H2 & H3 & H4 & H5 & H6).
    unfold same_figures. cbn. rewrite !length_app, H1, H2, H3, H4, H5, H6.
    repeat split.
  - repeat split.
Qed.

Lemma aggregate_all_same (np_std : list Q -> Q) (objects : object_arrays) d d' :
  same_entries d d' ->
  PerformanceModel.aggregate_all np_std objects d
  = PerformanceModel.aggregate_all np_std objects d'.
Proof.
  induction 1 as [ | [k0 v0] [k0' v0'] d d' [Hk Hv] Hd IH ];
    cbn [PerformanceModel.aggregate_all]; [ reflexivity | ].
  cbn [fst snd] in *. destruct Hv as (H1 & H2 & H3 & H4 & H5 & H6).
  rewrite H1, IH. unfold PerformanceModel.aggregate.
  now rewrite H1, H2, H3, H4, H5, H6.
Qed.

Lemma quiz_average_leaves_reads (scores : list (value * list value))
    (r r' : gmap string value) :
  DataService.with_quiz_average scores r = Ok r' ->
  forall k d, k <> "avg_quiz_score" -> get r' k d = get r k d.
Proof.
  unfold DataService.with_quiz_average.
  destruct (dict_get _ scores) as [l | ]; [ | now intros [= <-] ].
  destruct (sum_values l) as [total | e]; cbn [bind]; [ | discriminate ].
  destruct (div_int total (Z.of_nat (length l))) as [average | e]; cbn [bind];
    [ | discriminate ].
  intros [= <-] k d Hk. unfold get. now rewrite lookup_insert_ne.
Qed.

Lemma mapM_Forall2 {A B : Type} (f : A -> result B) (l : list A) (l' : list B) :
  mapM f l = Ok l' -> Forall2 (fun a b => f a = Ok b) l l'.
Proof.
  revert l'. induction l as [ | a l IH ]; intros l'; cbn [mapM].
  - intros [= <-]. constructor.
  - destruct (f a) as [b | e] eqn:E; cbn [bind]; [ | discriminate ].
    destruct (mapM f l) as [bs | e]; cbn [bind]; [ | discriminate ].
    intros [= <-]. constructor; [ exact E | now apply IH ].
Qed.

(** X20.  The quiz scores that [_fetch_performance_data] averages into
    the session records never reach the performance model: whatever the
    quiz submissions, the training set built from the records it returns
    (features, completion labels and score labels) is the one built from
    the bare session rows, and so is the outcome of [train]. *)
Theorem quiz_scores_never_reach_training
    (np_std : list Q -> Q) (objects : object_arrays)
    (fit : list (list Q) -> list Q -> list Q -> PerformanceModel.artifact * list (string * Q))
    (self : PerformanceModel.model)
    (sessions quizzes data : list (gmap string value)) :
  DataService._fetch_performance_data sessions quizzes = Ok data ->
  length data = length sessions
  /\ PerformanceModel.prepare_features np_std objects data
     = PerformanceModel.prepare_features np_std objects sessions
  /\ PerformanceModel.train np_std objects fit self data
     = PerformanceModel.train np_std objects fit self sessions.
Proof.
  intros Hfetch. apply mapM_Forall2 in Hfetch.
  assert (Hlen : length data = length sessions)
    by (symmetry; eapply Forall2_length; exact Hfetch).
  assert (Hprep : PerformanceModel.prepare_features np_std objects data
                  = PerformanceModel.prepare_features np_std objects sessions).
  { unfold PerformanceModel.prepare_features, PerformanceModel.collect_user_stats.
    apply aggregate_all_same.
    assert (H : forall acc acc',
               same_entries acc acc' ->
               same_entries (fold_left PerformanceModel.collect_step data acc)
                            (fold_left PerformanceModel.collect_step sessions acc')).
    { induction Hfetch as [ | r r' sessions data Hr Hrest IH ]; intros acc acc' Hacc;
        cbn [fold_left]; [ exact Hacc | ].
      apply IH; [ symmetry; eapply Forall2_length; exact Hrest | ].
      pose proof (quiz_average_leaves_reads _ _ _ Hr) as Hread.
      apply collect_step_same; [ exact Hacc | .. ];
        unfold PerformanceModel.user_id_of, PerformanceModel.duration_of,
          PerformanceModel.tab_switches_of, PerformanceModel.completed_of,
          PerformanceModel.method_of, PerformanceModel.hour_of;
        rewrite ?Hread by discriminate; reflexivity. }
    apply H. constructor. }
  split; [ exact Hlen | split; [ exact Hprep | ] ].
  unfold PerformanceModel.train. now rewrite Hprep.
Qed.

Lemma quiz_scores_never_reach_training_witness :
  DataService._fetch_performance_data Samples.enrolments Samples.quiz_rows
    = Ok Samples.scored_enrolments
  /\ Samples.scored_enrolments <> Samples.enrolments
  /\ PerformanceModel.prepare_features (fun _ => 0%Q) Samples.refusing
                                        Samples.scored_enrolments
     = PerformanceModel.prepare_features (fun _ => 0%Q) Samples.refusing
                                         Samples.enrolments.
Proof.
  assert (E : DataService._fetch_performance_data Samples.enrolments Samples.quiz_rows
              = Ok Samples.scored_enrolments) by (vm_compute; reflexivity).
  split; [ exact E | split ].
  - intros H.
    apply (f_equal (map (fun r : gmap string value => r !! "avg_quiz_score"))) in H.
    vm_compute in H. discriminate H.
  - apply (quiz_scores_never_reach_training (fun _ => 0%Q) Samples.refusing
             Samples.sample_fit PerformanceModel.__init__ _ _ _ E).
Defined.
